(** * uds-cli: the bundle deployment TUI, the deploy command and the
      remote-bundle package source

    A shallow embedding of
    - [src/pkg/bundle/tui/tui.go]      (package [tui]: the bubbletea model),
    - the [deploy] command of package [cmd],
    - the [RemoteBundle] package source of package [sources],
    followed by the properties of the specification that concern them.

    Go values are modelled as follows: [int] is [Z] (64-bit, wrap-around
    written out where the code computes), [float64] is an IEEE-754 binary64
    value of [SpecFloat], a [string] is a [string] of bytes, a slice is a
    [list], a panic is the [Panic] outcome of the [result] type, and the
    package-level variables and channels live in an explicit [World]. *)

From stdpp Require Import base list strings pretty.
From Stdlib Require Import ZArith Ascii Floats.SpecFloat.

Open Scope Z_scope.

(** ** float64 *)

Module F64.

Definition prec : Z := 53.
Definition emax : Z := 1024.

Definition t : Type := spec_float.

(** [float64(n)] for an integer [n]: round to nearest even. *)
Definition of_int (n : Z) : t := binary_normalize prec emax n 0 false.

Definition zero : t := S754_zero false.
Definition one : t := of_int 1.
Definition hundred : t := of_int 100.

Definition add : t -> t -> t := SFadd prec emax.
Definition mul : t -> t -> t := SFmul prec emax.
Definition div : t -> t -> t := SFdiv prec emax.
Definition eqb : t -> t -> bool := SFeqb.

Definition is_nan (x : t) : bool :=
  match x with S754_nan => true | _ => false end.

(** [math.Min] and [math.Max] of Go: a NaN argument gives NaN, and the
    sign of a zero is respected. *)
Definition Min (x y : t) : t :=
  match x, y with
  | S754_infinity true, _ | _, S754_infinity true => S754_infinity true
  | S754_nan, _ | _, S754_nan => S754_nan
  | S754_zero sx, S754_zero sy => S754_zero (sx || sy)
  | _, _ => if SFltb x y then x else y
  end.

Definition Max (x y : t) : t :=
  match x, y with
  | S754_infinity false, _ | _, S754_infinity false => S754_infinity false
  | S754_nan, _ | _, S754_nan => S754_nan
  | S754_zero sx, S754_zero sy => S754_zero (sx && sy)
  | _, _ => if SFltb y x then x else y
  end.

(** [int64(x)]: truncation toward zero.  For NaN, the infinities and
    values outside the int64 range Go leaves the result to the
    implementation; amd64 yields the smallest int64, which is what is
    written here. *)
Definition to_int64 (x : t) : Z :=
  match x with
  | S754_zero _ => 0
  | S754_finite s m e =>
      let a := match e with
               | Z0 => Zpos m
               | Zpos p => Z.shiftl (Zpos m) (Zpos p)
               | Zneg p => Z.shiftr (Zpos m) (Zpos p)
               end in
      let v := if s then - a else a in
      if (- 2 ^ 63 <=? v) && (v <? 2 ^ 63) then v else - 2 ^ 63
  | _ => - 2 ^ 63
  end.

(** The value of a [float64] counter that started at [0.0] and was
    incremented [n] times with [++]. *)
Definition count (n : nat) : t := Nat.iter n (fun c => add c one) zero.

End F64.

(** ** The Go runtime and standard library, as far as the code uses them *)

Module Go.

Inductive panic_value : Type :=
| IndexOutOfRange
| PanicInt (n : Z).

Inductive result (A : Type) : Type :=
| Ret (a : A)
| Panic (p : panic_value).
Arguments Ret {A} a.
Arguments Panic {A} p.

#[export] Instance result_ret : MRet result := fun A a => Ret a.
#[export] Instance result_bind : MBind result :=
  fun A B f r => match r with Ret a => f a | Panic p => Panic p end.

Definition panics {A} (r : result A) : bool :=
  match r with Panic _ => true | Ret _ => false end.

(** [int] is 64 bits wide. *)
Definition int_min : Z := - 2 ^ 63.
Definition int_max : Z := 2 ^ 63 - 1.
Definition wrap (z : Z) : Z := (z + 2 ^ 63) `mod` 2 ^ 64 - 2 ^ 63.

Definition len {A} (l : list A) : Z := Z.of_nat (length l).

(** [l[i]]: panics when [i] is negative or not below [len(l)]. *)
Definition index {A} (l : list A) (i : Z) : result A :=
  if i <? 0 then Panic IndexOutOfRange
  else match l !! Z.to_nat i with
       | Some a => Ret a
       | None => Panic IndexOutOfRange
       end.

(** [l[i] = a], for an index already known to be in range. *)
Definition store {A} (l : list A) (i : Z) (a : A) : list A :=
  <[Z.to_nat i := a]> l.

(** [strings.Split(s, sep)] for a one-byte separator. *)
Fixpoint Split (s : string) (sep : ascii) : list string :=
  match s with
  | EmptyString => [EmptyString]
  | String c r =>
      if Ascii.eqb c sep then EmptyString :: Split r sep
      else match Split r sep with
           | h :: t => String c h :: t
           | [] => [String c EmptyString]
           end
  end.

(** [strings.Repeat(s, n)]. *)
Fixpoint Repeat (s : string) (n : nat) : string :=
  match n with
  | O => EmptyString
  | S n' => s +:+ Repeat s n'
  end.

(** [strings.Contains(s, substr)]. *)
Fixpoint Contains (s substr : string) : bool :=
  String.prefix substr s ||
  match s with
  | EmptyString => false
  | String _ r => Contains r substr
  end.

Definition digit (c : ascii) : option Z :=
  let n := Z.of_N (N_of_ascii c) in
  if (48 <=? n) && (n <=? 57) then Some (n - 48) else None.

Fixpoint digits (s : string) (acc : Z) : option Z :=
  match s with
  | EmptyString => Some acc
  | String c r =>
      match digit c with
      | Some d => digits r (acc * 10 + d)
      | None => None
      end
  end.

(** [strconv.Atoi]: an optional sign, then at least one decimal digit;
    [None] stands for a non-nil error (syntax or range). *)
Definition Atoi (s : string) : option Z :=
  match s with
  | EmptyString => None
  | String c r =>
      let neg := Ascii.eqb c "-"%char in
      let body := if neg || Ascii.eqb c "+"%char then r else s in
      match body with
      | EmptyString => None
      | _ =>
          match digits body 0 with
          | Some n =>
              let v := if neg then - n else n in
              if (int_min <=? v) && (v <=? int_max) then Some v else None
          | None => None
          end
      end
  end.

(** The one-byte string ["\n"]. *)
Definition newline : string := String (ascii_of_nat 10) EmptyString.

(** [fmt.Sprintf("%d", n)]. *)
Definition Itoa (n : Z) : string := pretty n.

End Go.

Export Go(result_ret, result_bind).

(** ** The terminal libraries (lipgloss, bubbles, bubbletea)

    Third-party code: only the state that [Update] reads back and the
    commands it hands to the runtime are kept. *)

Module lipgloss.

Inductive Style : Type :=
| NewStyle
| Foreground (color : string) (s : Style)
| SetString (str : string) (s : Style).

(** The result of [Style.Render]: the text together with its style. *)
Record Text : Type := Render { style : Style; text : string }.

End lipgloss.

Module spinner.

Record Model : Type := mk {
  Frames : list string;       (* Spinner.Frames *)
  Style : lipgloss.Style;
  frame : Z
}.

Definition Line : list string := ["|"; "/"; "-"; "\"]%string.
Definition Dot : list string :=
  ["⣾ "; "⣽ "; "⣻ "; "⢿ "; "⡿ "; "⣟ "; "⣯ "; "⣷ "]%string.

Definition New : Model := mk Line lipgloss.NewStyle 0.

Definition with_Frames (s : Model) (f : list string) : Model :=
  mk f (Style s) (frame s).
Definition with_Style (s : Model) (st : lipgloss.Style) : Model :=
  mk (Frames s) st (frame s).

(** [Update(spinner.TickMsg{})]: advance to the next frame, cyclically. *)
Definition Update (s : Model) : Model :=
  let f := frame s + 1 in
  mk (Frames s) (Style s) (if f >=? Go.len (Frames s) then 0 else f).

End spinner.

Module progress.

Record Model : Type := mk { targetPercent : F64.t }.

Definition New : Model := mk F64.zero.

(** [SetPercent(p)] stores [math.Max(0, math.Min(1, p))]. *)
Definition SetPercent (b : Model) (p : F64.t) : Model :=
  mk (F64.Max F64.zero (F64.Min F64.one p)).

Definition Percent (b : Model) : F64.t := targetPercent b.

End progress.

Module tea.

(** The messages [Update] distinguishes by type. *)
Inductive Msg : Type :=
| FrameMsg                      (* progress.FrameMsg *)
| tickMsg                       (* tui.tickMsg *)
| KeyMsg (key : string)         (* tea.KeyMsg, by its String() *)
| operation (op : string)       (* tui.operation *)
| stringMsg (s : string)        (* a plain string sent with Program.Send *)
| otherMsg.                     (* anything else: spinner.TickMsg, nil, ... *)

(** The commands [Update] returns. *)
#[warnings="-register-all"] Inductive Cmd : Type :=
| nilCmd
| nextFrame                     (* returned by progress SetPercent and Update *)
| spinnerTick                   (* returned by spinner Update *)
| tickCmd                       (* tea.Tick(time.Millisecond, ...) giving a tickMsg *)
| pause                         (* tea.Tick of 500ms giving nil *)
| Println (t : lipgloss.Text)
| Quit
| sendDeployOp                  (* func() tea.Msg { return DeployOp } *)
| deployCmd                     (* the closure that runs Deploy *)
| Sequence (cmds : list Cmd)
| Batch (cmds : list Cmd).

Fixpoint hasQuit (c : Cmd) : bool :=
  match c with
  | Quit => true
  | Sequence l | Batch l => existsb hasQuit l
  | _ => false
  end.

Fixpoint countDeploy (c : Cmd) : nat :=
  match c with
  | deployCmd => 1%nat
  | Sequence l | Batch l => foldr (fun c n => (countDeploy c + n)%nat) 0%nat l
  | _ => 0%nat
  end.

End tea.

(** ** Package [tui] *)

Module tui.

Import Go.

Definition WIDTH : nat := 50.
Definition DeployOp : string := "deploy".

(** [types.DeployedPackage] of Zarf: the name and one entry per deployed
    component. *)
Record DeployedPackage : Type := {
  Name : string;
  DeployedComponents : list string
}.

(** The cluster as [GetDeployedPackage] sees it: what [GetSecret] answers
    for a secret name, and whether the secret's data decodes. *)
Inductive SecretData : Type :=
| Undecodable
| Decoded (p : option DeployedPackage).

Inductive GetSecretResult : Type :=
| SecretErr
| Secret (data : SecretData).

Definition Cluster : Type := string -> GetSecretResult.

Definition ZarfPackagePrefix : string := "zarf-package-".

(** The package-level variable [resetProgress] and the pending senders
    of the (unbuffered) channel [fatalChan]. *)
Record World : Type := mkWorld {
  resetProgress : bool;
  fatalChan : list string
}.

Definition with_resetProgress (w : World) (b : bool) : World :=
  mkWorld b (fatalChan w).
Definition with_fatalChan (w : World) (c : list string) : World :=
  mkWorld (resetProgress w) c.

(** The fields of [Model] that are values; [bndlClient], [completeChan]
    and [fatalChan] are references into the [World]. *)
Record Model : Type := mkModel {
  bundleYAML : string;
  progressBars : list progress.Model;
  pkgNames : list string;
  pkgIdx : Z;
  totalComponentsPerPkg : list Z;
  totalPkgs : Z;
  spinners : list spinner.Model;
  confirmed : bool;
  complete : list bool;
  done : bool
}.

Definition with_progressBars (m : Model) (x : list progress.Model) : Model :=
  mkModel (bundleYAML m) x (pkgNames m) (pkgIdx m) (totalComponentsPerPkg m)
          (totalPkgs m) (spinners m) (confirmed m) (complete m) (done m).
Definition with_pkgNames (m : Model) (x : list string) : Model :=
  mkModel (bundleYAML m) (progressBars m) x (pkgIdx m) (totalComponentsPerPkg m)
          (totalPkgs m) (spinners m) (confirmed m) (complete m) (done m).
Definition with_pkgIdx (m : Model) (x : Z) : Model :=
  mkModel (bundleYAML m) (progressBars m) (pkgNames m) x (totalComponentsPerPkg m)
          (totalPkgs m) (spinners m) (confirmed m) (complete m) (done m).
Definition with_totalComponentsPerPkg (m : Model) (x : list Z) : Model :=
  mkModel (bundleYAML m) (progressBars m) (pkgNames m) (pkgIdx m) x
          (totalPkgs m) (spinners m) (confirmed m) (complete m) (done m).
Definition with_totalPkgs (m : Model) (x : Z) : Model :=
  mkModel (bundleYAML m) (progressBars m) (pkgNames m) (pkgIdx m)
          (totalComponentsPerPkg m) x (spinners m) (confirmed m) (complete m) (done m).
Definition with_spinners (m : Model) (x : list spinner.Model) : Model :=
  mkModel (bundleYAML m) (progressBars m) (pkgNames m) (pkgIdx m)
          (totalComponentsPerPkg m) (totalPkgs m) x (confirmed m) (complete m) (done m).
Definition with_confirmed (m : Model) (x : bool) : Model :=
  mkModel (bundleYAML m) (progressBars m) (pkgNames m) (pkgIdx m)
          (totalComponentsPerPkg m) (totalPkgs m) (spinners m) x (complete m) (done m).
Definition with_complete (m : Model) (x : list bool) : Model :=
  mkModel (bundleYAML m) (progressBars m) (pkgNames m) (pkgIdx m)
          (totalComponentsPerPkg m) (totalPkgs m) (spinners m) (confirmed m) x (done m).
Definition with_done (m : Model) (x : bool) : Model :=
  mkModel (bundleYAML m) (progressBars m) (pkgNames m) (pkgIdx m)
          (totalComponentsPerPkg m) (totalPkgs m) (spinners m) (confirmed m) (complete m) x.

(** [InitModel]; [confirm] is [config.CommonOptions.Confirm]. *)
Definition InitModel (confirm : bool) (yaml : string) : Model :=
  mkModel yaml [] [] 0 [] 0 [] (if confirm then true else false) [] false.

(** [preDeployView] and [Init]; [colorPrintYAML] only colours its
    argument and is left to the caller. *)
Definition preDeployView (colorPrintYAML : string -> string) (m : Model)
  : string :=
  let header := "🎁 BUNDLE DEFINITION" in
  let prompt := "❓ Deploy this bundle? (y/n)" in
  let prettyYAML := colorPrintYAML (bundleYAML m) in
  let line := Repeat "─" WIDTH in
  newline +:+ header +:+ newline +:+ newline +:+ line +:+ newline +:+ newline
    +:+ prettyYAML +:+ newline +:+ newline +:+ prompt.

Definition Init (colorPrintYAML : string -> string) (m : Model) : tea.Cmd :=
  tea.Sequence
    [tea.Println (lipgloss.Render lipgloss.NewStyle
                    (preDeployView colorPrintYAML m));
     tea.sendDeployOp].

(** [GetDeployedPackage]: [None] is the nil pointer.  The error of
    [k8s.New] is dropped by the code; the cluster answers through the
    client it returned. *)
Definition GetDeployedPackage (k : Cluster) (packageName : string)
  : result (option DeployedPackage) :=
  match k (ZarfPackagePrefix +:+ packageName) with
  | SecretErr => Ret None
  | Secret Undecodable => Panic (PanicInt 0)
  | Secret (Decoded p) => Ret p
  end.

(** The tick handler, first half: the current package is flagged
    complete (lines 127-148 of tui.go). *)
Fixpoint successCmds (names : list string) (i : Z) (n : nat)
  : result (list tea.Cmd) :=
  match n with
  | O => Ret []
  | S n' =>
      name ← index names i;
      let successStyle := lipgloss.Foreground "#32A852" lipgloss.NewStyle in
      let successMsg := "✅ Package " +:+ name +:+ " deployed" +:+ newline in
      rest ← successCmds names (i + 1) n';
      Ret (tea.Println (lipgloss.Render successStyle successMsg) :: rest)
  end.

Definition doneStyle : lipgloss.Style := lipgloss.SetString "✅" lipgloss.NewStyle.
Definition failStyle : lipgloss.Style := lipgloss.SetString "❌" lipgloss.NewStyle.

(** The two assignments that stop a spinner and give it a final mark. *)
Definition stopSpinner (m : Model) (st : lipgloss.Style) : result Model :=
  s ← index (spinners m) (pkgIdx m);
  let s := spinner.with_Style (spinner.with_Frames s [""%string]) st in
  Ret (with_spinners m (store (spinners m) (pkgIdx m) s)).

(** [s, cmd := m.spinners[m.pkgIdx].Update(spinner.TickMsg{}); m.spinners[m.pkgIdx] = s]. *)
Definition tickSpinner (m : Model) : result Model :=
  s ← index (spinners m) (pkgIdx m);
  Ret (with_spinners m (store (spinners m) (pkgIdx m) (spinner.Update s))).

(** [m.progressBars[m.pkgIdx].SetPercent(p)]. *)
Definition setPercent (m : Model) (p : F64.t) : result Model :=
  b ← index (progressBars m) (pkgIdx m);
  Ret (with_progressBars m
         (store (progressBars m) (pkgIdx m) (progress.SetPercent b p))).

Definition line : string := Repeat "─" WIDTH.

Definition tickComplete (m : Model) (w : World)
  : result (Model * World * tea.Cmd) :=
  m ← setPercent m F64.hundred;
  m ← stopSpinner m doneStyle;
  m ← tickSpinner m;
  if pkgIdx m =? wrap (totalPkgs m - 1) then
    let m := with_done m true in
    let line := line +:+ newline in
    prints ← successCmds (pkgNames m) 0 (Z.to_nat (totalPkgs m));
    Ret (m, w,
         tea.Sequence
           ([tea.nextFrame; tea.spinnerTick; tea.tickCmd;
             tea.Println (lipgloss.Render lipgloss.NewStyle line)]
              ++ prints ++ [tea.Quit]))
  else Ret (m, w, tea.Sequence [tea.nextFrame; tea.spinnerTick]).

(** The tick handler, second half: poll the deployed state
    (lines 151-173). *)
Definition tickPoll (k : Cluster) (m : Model) (w : World)
  : result (Model * World * tea.Cmd) :=
  if len (totalComponentsPerPkg m) >? pkgIdx m then
    total ← index (totalComponentsPerPkg m) (pkgIdx m);
    if total >? 0 then
      name ← index (pkgNames m) (pkgIdx m);
      deployedPkg ← GetDeployedPackage k name;
      match deployedPkg, resetProgress w with
      | Some d, false =>
          m ← setPercent m
                (F64.div (F64.of_int (len (DeployedComponents d)))
                         (F64.of_int total));
          b ← index (progressBars m) (pkgIdx m);
          if F64.eqb (progress.Percent b) F64.one then
            m ← stopSpinner m doneStyle;
            Ret (m, w, tea.nextFrame)
          else Ret (m, w, tea.nextFrame)
      | _, _ =>
          m ← setPercent m (F64.of_int 0);
          let w :=
            match deployedPkg with
            | Some d =>
                if len (DeployedComponents d) >=? 1
                then with_resetProgress w false else w
            | None => w
            end in
          Ret (m, w, tea.nextFrame)
      end
    else Ret (m, w, tea.nilCmd)
  else Ret (m, w, tea.nilCmd).

Definition updateTick (k : Cluster) (m : Model) (w : World)
  : result (Model * World * tea.Cmd) :=
  isComplete ←
    (if len (complete m) >? pkgIdx m then index (complete m) (pkgIdx m)
     else Ret false);
  if (isComplete : bool) then tickComplete m w
  else
    '(m, w, progressCmd) ← tickPoll k m w;
    if len (spinners m) >? 0 then
      m ← tickSpinner m;
      Ret (m, w, tea.Sequence [progressCmd; tea.spinnerTick; tea.tickCmd])
    else Ret (m, w, tea.Sequence [progressCmd; tea.tickCmd]).

(** The fall-through [return m, tea.Batch(cmds...)] with [cmds] empty. *)
Definition fallThrough (m : Model) (w : World)
  : result (Model * World * tea.Cmd) :=
  Ret (m, w, tea.Batch []).

Definition updateKey (m : Model) (w : World) (key : string)
  : result (Model * World * tea.Cmd) :=
  if bool_decide (key = "y" ∨ key = "Y") then
    let m := if negb (confirmed m) then with_confirmed m true else m in
    Ret (m, w, tea.sendDeployOp)
  else if bool_decide (key = "n" ∨ key = "N") then
    let m := if negb (confirmed m) then with_confirmed m false else m in
    fallThrough m w
  else if bool_decide (key = "ctrl+c" ∨ key = "q") then
    Ret (m, w, tea.Quit)
  else fallThrough m w.

Definition updateOperation (m : Model) (w : World)
  : result (Model * World * tea.Cmd) :=
  if confirmed m then Ret (m, w, tea.Batch [tea.tickCmd; tea.deployCmd])
  else fallThrough m w.

(** The progress-message handler (lines 217-244). *)
Definition updateString (k : Cluster) (m : Model) (w : World) (msg : string)
  : result (Model * World * tea.Cmd) :=
  tag ← index (Split msg ":") 0;
  if String.eqb tag "package" then
    pkgName ← index (Split msg ":") 1;
    let m := with_pkgNames m (pkgNames m ++ [pkgName]) in
    deployedPkg ← GetDeployedPackage k pkgName;
    let w :=
      match deployedPkg with
      | Some d =>
          if negb (len (DeployedComponents d) =? 0)
          then with_resetProgress w true else w
      | None => w
      end in
    fallThrough m w
  else if String.eqb tag "totalComponents" then
    arg ← index (Split msg ":") 1;
    match Atoi arg with
    | Some totalComponents =>
        fallThrough
          (with_totalComponentsPerPkg m
             (totalComponentsPerPkg m ++ [totalComponents])) w
    | None => fallThrough m w
    end
  else if String.eqb tag "totalPackages" then
    arg ← index (Split msg ":") 1;
    match Atoi arg with
    | Some totalPkgs => fallThrough (with_totalPkgs m totalPkgs) w
    | None => fallThrough m w
    end
  else if String.eqb tag "idx" then
    arg ← index (Split msg ":") 1;
    match Atoi arg with
    | Some currentPkgIdx =>
        let m := with_pkgIdx m currentPkgIdx in
        let m := with_progressBars m (progressBars m ++ [progress.New]) in
        let s := spinner.with_Frames spinner.New spinner.Dot in
        let s := spinner.with_Style s
                   (lipgloss.Foreground "205" lipgloss.NewStyle) in
        fallThrough (with_spinners m (spinners m ++ [s])) w
    | None => fallThrough m w
    end
  else if String.eqb tag "complete" then
    fallThrough (with_complete m (complete m ++ [true])) w
  else fallThrough m w.

(** [Model.Update]: a pending fatal error is looked for first, then the
    message is dispatched on its type. *)
Definition Update (k : Cluster) (m : Model) (w : World) (msg : tea.Msg)
  : result (Model * World * tea.Cmd) :=
  match fatalChan w with
  | _ :: senders =>
      m ← stopSpinner m failStyle;
      m ← tickSpinner m;
      Ret (m, with_fatalChan w senders,
           tea.Sequence [tea.spinnerTick; tea.pause; tea.Quit])
  | [] =>
      match msg with
      | tea.FrameMsg =>
          _ ← index (progressBars m) (pkgIdx m);
          Ret (m, w, tea.nextFrame)
      | tea.tickMsg => updateTick k m w
      | tea.KeyMsg key => updateKey m w key
      | tea.operation _ => updateOperation m w
      | tea.stringMsg s => updateString k m w s
      | tea.otherMsg => fallThrough m w
      end
  end.

(** The closure handed to the runtime by the [operation] case: it calls
    [Deploy] and, on an error, [ClearPaths] and then sends on
    [fatalChan].  [err] is what this call of [Deploy] returns. *)
Inductive Call : Type :=
| CallDeploy
| CallClearPaths
| SendFatal (e : string).

(** What the closure does once its [Deploy] call has returned. *)
Definition afterDeploy (err : option string) (w : World)
  : World * list Call :=
  match err with
  | Some e =>
      let e := "failed to deploy bundle: " +:+ e in
      (with_fatalChan w (fatalChan w ++ [e]), [CallClearPaths; SendFatal e])
  | None => (w, [])
  end.


End tui.

(** ** [View] of the model *)

Module view.

Import Go tui.

(** What lipgloss and the bubbles do to text; the layout itself is left
    to them. *)
Record Renderer : Type := {
  spinnerView : spinner.Model -> string;        (* spinner.Model.View *)
  barView : progress.Model -> string;           (* progress.Model.View *)
  textStyle : string -> string;                 (* Width, Align(Left), Padding(0, 3) *)
  barStyle : string -> string;                  (* the same with MarginTop(1) *)
  joinVertical : string -> string -> string;    (* JoinVertical(lipgloss.Center, a, b) *)
  boxStyle : bool -> string -> string;          (* the rounded border, with Width(WIDTH) or not *)
  place : nat -> string -> string               (* lipgloss.Place(width, 6, Left, Top, s, ...) *)
}.

(** The body of the loop of [deployView], for the bar with index [i]. *)
Definition deployBox (R : Renderer) (m : Model) (i : nat) (b : progress.Model)
           (view : string) : result string :=
  s ← index (spinners m) (Z.of_nat i);
  name ← index (pkgNames m) (Z.of_nat i);
  let text :=
    textStyle R (spinnerView R s +:+ " Package " +:+ name +:+ " deploying ...") in
  let bar := barStyle R (barView R b) in
  let ui := joinVertical R text bar in
  isComplete ←
    (if len (complete m) >? Z.of_nat i then index (complete m) (Z.of_nat i)
     else Ret false);
  let ui :=
    if (isComplete : bool) then
      joinVertical R
        (textStyle R (spinnerView R s +:+ " Package " +:+ name +:+ " deployed"))
        bar
    else ui in
  let box := place R 0 (boxStyle R true ui) in
  let box := if isComplete then place R WIDTH (boxStyle R false ui) else box in
  Ret (joinVertical R view box).

Fixpoint deployLoop (R : Renderer) (m : Model) (i : nat)
         (bars : list progress.Model) (view : string) : result string :=
  match bars with
  | [] => Ret view
  | b :: bars => view ← deployBox R m i b view; deployLoop R m (S i) bars view
  end.

Definition deployView (R : Renderer) (m : Model) : result string :=
  deployLoop R m 0 (progressBars m) "".

Definition View (R : Renderer) (m : Model) : result string :=
  if done m then Ret ""%string
  else if confirmed m then
    view ← deployView R m;
    Ret (Repeat "─" WIDTH +:+ newline +:+ view)
  else Ret ""%string.

End view.

(** A renderer that keeps the text and drops the layout. *)
Definition plainRenderer : view.Renderer :=
  {| view.spinnerView := fun s => default ""%string (spinner.Frames s !! 0%nat);
     view.barView := fun _ => "[bar]"%string;
     view.textStyle := fun s => s;
     view.barStyle := fun s => s;
     view.joinVertical := fun a b => a +:+ Go.newline +:+ b;
     view.boxStyle := fun _ s => s;
     view.place := fun _ s => s |}.

(** ** Package [cmd]: the [deploy] command

    The command hands its model to bubbletea and waits for [Program.Run];
    the run loop is third-party code and is driven here by a schedule. *)

Module cmd.

Import Go tui.

(** What happens around the run loop, in the order it happens: the loop
    reads a message and hands it to [Update] (the cluster being in state
    [k] at that moment), the [Deploy] call of a started closure returns,
    the loop reads the [QuitMsg] that a command carrying [tea.Quit] has
    produced, or the runtime itself fails. *)
Inductive Step : Type :=
| Deliver (k : Cluster) (msg : tea.Msg)
| DeployReturns (err : option string)
| QuitArrives
| RuntimeFails (e : string).

Inductive Event : Type :=
| Client (c : Call)               (* a call made by a deploy closure *)
| PreDeployValidation
| ConfirmBundleDeploy
| Deploy
| ClearPaths
| Fatalf (msg : string).          (* message.Fatalf: report and os.Exit *)

(** How [Program.Run] ends. *)
Inductive RunResult : Type :=
| Quitted (log : list Event)                     (* returns a nil error *)
| Failed (log : list Event) (e : string)         (* returns an error *)
| Panicked (log : list Event) (p : panic_value)
    (* [Update] or [View] panicked; the runtime recovers, restores the
       terminal and [Run] returns a nil error *)
| StillRunning (log : list Event).               (* the schedule ran out *)

(** [p.renderer.write(model.View())]: the text goes to the terminal and
    is not read back, so that all the loop sees of [View] is whether it
    panics, which the layout has no part in (lemma
    [render_any_renderer]). *)
Definition render (m : Model) : result unit :=
  _ ← view.View plainRenderer m; Ret tt.

(** The event loop.  Each message read goes to [Update]; the command it
    returns is handed to the runtime, which starts the closure of a
    [deployCmd] and will produce a [QuitMsg] for a [tea.Quit]; then the
    view is rendered.  [started] counts the closures whose [Deploy] call
    has not returned yet, [quitting] tells whether a [QuitMsg] is on its
    way.  Messages read before the [QuitMsg] are handled like any other. *)
Fixpoint eventLoop (sched : list Step) (m : Model) (w : World)
         (started : nat) (quitting : bool) (log : list Event) : RunResult :=
  match sched with
  | [] => StillRunning log
  | Deliver k msg :: sched =>
      match Update k m w msg with
      | Panic p => Panicked log p
      | Ret (m, w, c) =>
          let log := log ++ replicate (tea.countDeploy c) (Client CallDeploy) in
          match render m with
          | Panic p => Panicked log p
          | Ret _ =>
              eventLoop sched m w (started + tea.countDeploy c)
                        (quitting || tea.hasQuit c) log
          end
      end
  | DeployReturns err :: sched =>
      match started with
      | O => eventLoop sched m w O quitting log
      | S n =>
          let '(w, calls) := afterDeploy err w in
          eventLoop sched m w n quitting (log ++ map Client calls)
      end
  | QuitArrives :: sched =>
      if quitting then Quitted log
      else eventLoop sched m w started quitting log
  | RuntimeFails e :: _ => Failed log e
  end.

(** [Program.Run]: the initial view is rendered, then the event loop
    runs. *)
Definition Program_Run (sched : list Step) (m : Model) (w : World)
           (started : nat) (log : list Event) : RunResult :=
  match render m with
  | Panic p => Panicked log p
  | Ret _ => eventLoop sched m w started false log
  end.

(** What the command line and the bundle client answer. *)
Record Env : Type := {
  NoTea : bool;                          (* config.CommonOptions.NoTea *)
  Confirm : bool;                        (* config.CommonOptions.Confirm *)
  bundleYAML : string;
  preDeployValidation : option string;   (* error of PreDeployValidation *)
  confirmBundleDeploy : bool;
  deploy : option string                 (* error of Deploy, without the TUI *)
}.

(** Modelled from the spec: [deploy.InitModel] and the model of package
    [tui/deploy], which the command imports, are not among the sources.
    The spec knows one deployment session, created when a deploy command
    begins, with the state and the transitions of the model of [tui.go];
    the model the command starts is taken to be that one, made by
    [InitModel] for the bundle the client has loaded. *)
Definition deploy_InitModel (e : Env) : Model :=
  InitModel (Confirm e) (bundleYAML e).

(** How the [Run] function of the command ends. *)
Inductive Outcome : Type :=
| Returns (log : list Event)
| Exits (log : list Event)                       (* os.Exit inside Fatalf *)
| Hangs (log : list Event).

Definition log_of (o : Outcome) : list Event :=
  match o with
  | Returns l | Exits l | Hangs l => l
  end.

(** [deployWithoutTea]: what it does, and whether it returns ([false]
    when [Fatalf] ends the process). *)
Definition deployWithoutTea (e : Env) : list Event * bool :=
  match preDeployValidation e with
  | Some err =>
      ([PreDeployValidation; Fatalf ("Failed to validate bundle: " +:+ err)],
       false)
  | None =>
      if negb (confirmBundleDeploy e) then
        ([PreDeployValidation; ConfirmBundleDeploy;
          Fatalf "bundle deployment cancelled"], false)
      else
        match deploy e with
        | Some err =>
            ([PreDeployValidation; ConfirmBundleDeploy; Deploy; ClearPaths;
              Fatalf ("Failed to deploy bundle: " +:+ err)], false)
        | None => ([PreDeployValidation; ConfirmBundleDeploy; Deploy], true)
        end
  end.

(** The [Run] function of [deployCmd], from the creation of the bundle
    client on: [defer bndlClient.ClearPaths()] runs when the function
    returns, which it does whenever [Program.Run] returns a nil error,
    and not when [Fatalf] ends the process. *)
Definition deployCmd_Run (e : Env) (sched : list Step) : Outcome :=
  if NoTea e then
    let '(log, returned) := deployWithoutTea e in
    if (returned : bool) then Returns (log ++ [ClearPaths]) else Exits log
  else
    let m := deploy_InitModel e in
    match Program_Run sched m (mkWorld false []) 0 [] with
    | Quitted log | Panicked log _ => Returns (log ++ [ClearPaths])
    | Failed log err => Exits (log ++ [Fatalf ("TUI program error: " +:+ err)])
    | StillRunning log => Hangs log
    end.

Definition isClearPaths (ev : Event) : bool :=
  match ev with
  | ClearPaths | Client CallClearPaths => true
  | _ => false
  end.

Definition isDeploy (ev : Event) : bool :=
  match ev with
  | Deploy | Client CallDeploy => true
  | _ => false
  end.

Definition count (p : Event -> bool) (log : list Event) : nat :=
  length (filter (fun ev => p ev = true) log).

End cmd.

(** ** Package [sources]: the remote-bundle package source *)

Module sources.

Import Go.

Definition error : Type := string.

(** [ocispec.Descriptor]; [Digest] is the encoded digest and [Title] the
    annotation [org.opencontainers.image.title]. *)
Record Descriptor : Type := mkDescriptor {
  MediaType : string;
  Digest : string;
  Size : Z;
  Title : string
}.

Definition ZarfLayerMediaTypeBlob : string := "application/vnd.zarf.layer.v1.blob".

Definition with_MediaType (d : Descriptor) (mt : string) : Descriptor :=
  mkDescriptor mt (Digest d) (Size d) (Title d).

(** What the code tells the outside, in order. *)
Inductive Event : Type :=
| Send (msg : string)                               (* deploy.Program.Send *)
| CacheUse (digest : string) (dst : list string)    (* cache.Use(digest, filepath.Join(dst...)) *)
| ReadYaml
| FilterApply
| SetFromLayers (layers : list Descriptor)
| ValidatePackageIntegrity (aggregateChecksum : string) (isPartial : bool)
| Unarchive (component : string)
| Create (component : string)
| UnarchiveSBOMs.

Record ZarfPackage : Type := mkPackage {
  MetadataName : string;
  AggregateChecksum : string;
  Components : list string
}.

Definition emptyPackage : ZarfPackage := mkPackage "" "" [].

Inductive UnarchiveResult : Type :=
| Unarchived
| NotLoaded                     (* an error for which layout.IsNotLoaded holds *)
| UnarchiveFailed (e : error).

(** The remote repository, the blob cache, the local store and the Zarf
    library, as the two functions below consult them. *)
Record Env : Type := {
  BlobsDir : string;                                   (* config.BlobsDir *)
  FetchRoot : list Descriptor * option error;          (* the layers of the root manifest *)
  FetchManifest : Descriptor -> option (list Descriptor) * option error;
  BlobExists : Descriptor -> bool * option error;
  cacheExists : string -> bool;
  cacheUse : string -> option error;
  fileNew : option error;
  orasCopy : list Descriptor -> list Descriptor * option error;
                                    (* the descriptors PostCopy ran for, and the result *)
  readYaml : ZarfPackage * option error;
  validatePackageIntegrity : list Descriptor -> string -> bool -> option error;
  unarchive : string -> UnarchiveResult;
  create : string -> option error;
  SBOMsPath : string;
  unarchiveSBOMs : option error;
  addNamespaceOverrides : ZarfPackage -> ZarfPackage
}.

(** [RemoteBundle], without the references it holds into [Env]. *)
Record RemoteBundle : Type := mkRemoteBundle {
  PkgName : string;
  PkgManifestSHA : string;
  TmpDir : string;
  isPartial : bool
}.

Definition with_isPartial (r : RemoteBundle) (b : bool) : RemoteBundle :=
  mkRemoteBundle (PkgName r) (PkgManifestSHA r) (TmpDir r) b.

(** [Manifest.Locate] of Zarf: the first layer with that title or
    digest; [None] is the empty descriptor. *)
Definition Locate (layers : list Descriptor) (pathOrDigest : string)
  : option Descriptor :=
  List.find (fun l => String.eqb (Title l) pathOrDigest
                      || String.eqb (Digest l) pathOrDigest) layers.

(** The variables of the verification loop. *)
Record Loop : Type := mkLoop {
  estimatedBytes : Z;
  layersToPull : list Descriptor;
  layersInBundle : list Descriptor;
  numLayersVerified : F64.t;
  sent : list Event
}.

(** The loop over [pkgManifest.Layers] (lines 194-218); [total] is
    [len(pkgManifest.Layers)].  The error, if any, ends the function. *)
Fixpoint verifyLayers (e : Env) (r : RemoteBundle) (total : Z)
         (layers : list Descriptor) (st : Loop) : Loop * option error :=
  match layers with
  | [] => (st, None)
  | layer :: layers =>
      match BlobExists e layer with
      | (_, Some err) => (st, Some err)
      | (ok, None) =>
          let n := F64.add (numLayersVerified st) F64.one in
          if ok then
            let percVerified :=
              F64.mul (F64.div n (F64.of_int total)) F64.hundred in
            let sent := sent st ++
              [Send ("verifying:" +:+ Itoa (F64.to_int64 percVerified))] in
            let estimatedBytes := wrap (estimatedBytes st + Size layer) in
            let layersInBundle := layersInBundle st ++ [layer] in
            if Contains (Title layer) (BlobsDir e) && cacheExists e (Digest layer)
            then
              let sent := sent ++
                [CacheUse (Digest layer) [TmpDir r; "images"; BlobsDir e]%string] in
              match cacheUse e (Digest layer) with
              | Some err =>
                  (mkLoop estimatedBytes (layersToPull st) layersInBundle n sent,
                   Some err)
              | None =>
                  verifyLayers e r total layers
                    (mkLoop estimatedBytes (layersToPull st) layersInBundle n sent)
              end
            else
              verifyLayers e r total layers
                (mkLoop estimatedBytes (layersToPull st ++ [layer])
                        layersInBundle n sent)
          else
            verifyLayers e r total layers
              (mkLoop (estimatedBytes st) (layersToPull st) (layersInBundle st)
                      n (sent st))
      end
  end.

(** The [PostCopy] hook, run for each copied descriptor in turn. *)
Fixpoint postCopy (estimatedBytes downloadedBytes : Z)
         (copied : list Descriptor) : list Event :=
  match copied with
  | [] => []
  | desc :: copied =>
      let downloadedBytes := wrap (downloadedBytes + Size desc) in
      let downloadedPerc :=
        F64.mul (F64.div (F64.of_int downloadedBytes) (F64.of_int estimatedBytes))
                F64.hundred in
      Send ("downloading:" +:+ Itoa (F64.to_int64 downloadedPerc))
        :: postCopy estimatedBytes downloadedBytes copied
  end.

(** What a call leaves behind: the value and error it returns, the
    receiver after the call and what it told the outside. *)
Record Ran (A : Type) : Type := mkRan {
  value : A;
  err : option error;
  receiver : RemoteBundle;
  told : list Event
}.
Arguments mkRan {A} _ _ _ _.
Arguments value {A} _.
Arguments err {A} _.
Arguments receiver {A} _.
Arguments told {A} _.

(** [downloadPkgFromRemoteBundle]. *)
Definition downloadPkgFromRemoteBundle (e : Env) (r : RemoteBundle)
  : Ran (list Descriptor) :=
  match FetchRoot e with
  | (_, Some err) => mkRan [] (Some err) r []
  | (rootLayers, None) =>
      match Locate rootLayers (PkgManifestSHA r) with
      | None =>
          mkRan [] (Some ("package " +:+ PkgManifestSHA r
                            +:+ " does not exist in this bundle")) r []
      | Some pkgManifestDesc =>
          let pkgManifestDesc :=
            with_MediaType pkgManifestDesc ZarfLayerMediaTypeBlob in
          match FetchManifest e pkgManifestDesc with
          | (_, Some err) => mkRan [] (Some err) r []
          | (None, None) => mkRan [] None r []
          | (Some pkgLayers, None) =>
              let st0 := mkLoop 0 [pkgManifestDesc] [pkgManifestDesc] F64.zero [] in
              match verifyLayers e r (len pkgLayers) pkgLayers st0 with
              | (st, Some err) => mkRan [] (Some err) r (sent st)
              | (st, None) =>
                  match fileNew e with
                  | Some err => mkRan [] (Some err) r (sent st)
                  | None =>
                      let '(copied, copyErr) := orasCopy e (layersToPull st) in
                      let told := sent st ++ postCopy (estimatedBytes st) 0 copied in
                      match copyErr with
                      | Some err => mkRan [] (Some err) r told
                      | None =>
                          let r :=
                            if negb (len pkgLayers =? len (layersInBundle st) - 1)
                            then with_isPartial r true else r in
                          mkRan (layersInBundle st) None r told
                      end
                  end
              end
          end
      end
  end.

(** The loop over the components when [unarchiveAll] is set. *)
Fixpoint unarchiveComponents (e : Env) (components : list string)
  : list Event * option error :=
  match components with
  | [] => ([], None)
  | component :: components =>
      match unarchive e component with
      | Unarchived =>
          let '(ev, err) := unarchiveComponents e components in
          (Unarchive component :: ev, err)
      | NotLoaded =>
          match create e component with
          | Some err => ([Unarchive component; Create component], Some err)
          | None =>
              let '(ev, err) := unarchiveComponents e components in
              (Unarchive component :: Create component :: ev, err)
          end
      | UnarchiveFailed err => ([Unarchive component], Some err)
      end
  end.

(** [LoadPackage]; [filter] is the [Apply] method of the component
    filter strategy. *)
Definition LoadPackage (e : Env) (r : RemoteBundle)
           (filter : ZarfPackage -> list string * option error)
           (unarchiveAll : bool) : Ran ZarfPackage :=
  let dl := downloadPkgFromRemoteBundle e r in
  let r := receiver dl in
  match err dl with
  | Some err => mkRan emptyPackage (Some err) r (told dl)
  | None =>
      let layers := value dl in
      let told := told dl ++ [ReadYaml] in
      match readYaml e with
      | (_, Some err) => mkRan emptyPackage (Some err) r told
      | (pkg, None) =>
          let told := told ++ [FilterApply] in
          let '(components, err) := filter pkg in
          let pkg := mkPackage (MetadataName pkg) (AggregateChecksum pkg) components in
          match err with
          | Some err => mkRan pkg (Some err) r told
          | None =>
              let told := told ++
                [Send ("totalComponents:" +:+ Itoa (len (Components pkg)));
                 SetFromLayers layers;
                 ValidatePackageIntegrity (AggregateChecksum pkg) (isPartial r)] in
              match validatePackageIntegrity e layers (AggregateChecksum pkg)
                      (isPartial r) with
              | Some err => mkRan emptyPackage (Some err) r told
              | None =>
                  let finish told :=
                    let pkg := addNamespaceOverrides e pkg in
                    let pkg := mkPackage (PkgName r) (AggregateChecksum pkg)
                                 (Components pkg) in
                    mkRan pkg None r told in
                  if unarchiveAll then
                    let '(ev, err) := unarchiveComponents e (Components pkg) in
                    let told := told ++ ev in
                    match err with
                    | Some err => mkRan emptyPackage (Some err) r told
                    | None =>
                        if negb (String.eqb (SBOMsPath e) "") then
                          match unarchiveSBOMs e with
                          | Some err =>
                              mkRan emptyPackage (Some err) r (told ++ [UnarchiveSBOMs])
                          | None => finish (told ++ [UnarchiveSBOMs])
                          end
                        else finish told
                    end
                  else finish told
              end
          end
      end
  end.

End sources.

(** * Vocabulary of the properties *)

Import Go.

(** The lookups that fail: [GetSecret] returns an error, or the data of
    the secret does not decode. *)
Definition lookupFails (k : tui.Cluster) (packageName : string) : Prop :=
  k (tui.ZarfPackagePrefix +:+ packageName) = tui.SecretErr \/
  k (tui.ZarfPackagePrefix +:+ packageName) = tui.Secret tui.Undecodable.

(** The notification printed for a deployed package. *)
Definition deployedNotification (name : string) : tea.Cmd :=
  tea.Println
    (lipgloss.Render (lipgloss.Foreground "#32A852" lipgloss.NewStyle)
       ("✅ Package " +:+ name +:+ " deployed" +:+ newline)).

(** The separator line printed before the notifications. *)
Definition separator : tea.Cmd :=
  tea.Println (lipgloss.Render lipgloss.NewStyle (tui.line +:+ newline)).

(** The bar of the current package. *)
Definition currentBar (m : tui.Model) : option progress.Model :=
  tui.progressBars m !! Z.to_nat (tui.pkgIdx m).

(** The number of deployed components a record shows; none for nil. *)
Definition shownComponents (d : option tui.DeployedPackage) : Z :=
  match d with
  | Some d => len (tui.DeployedComponents d)
  | None => 0
  end.

(** A tick reaches the poll of the deployed state: the current package is
    not flagged complete, its component total is known and positive, and
    its name, bar and spinner are there. *)
Record polls (m : tui.Model) (name : string) (total : Z) : Prop := {
  polls_idx : 0 <= tui.pkgIdx m;
  polls_complete : tui.complete m !! Z.to_nat (tui.pkgIdx m) <> Some true;
  polls_total : tui.totalComponentsPerPkg m !! Z.to_nat (tui.pkgIdx m) = Some total;
  polls_positive : 0 < total;
  polls_name : tui.pkgNames m !! Z.to_nat (tui.pkgIdx m) = Some name;
  polls_bar : is_Some (tui.progressBars m !! Z.to_nat (tui.pkgIdx m));
  polls_spinner : is_Some (tui.spinners m !! Z.to_nat (tui.pkgIdx m))
}.

(** The bar stands at 0%. *)
Definition atZero (b : option progress.Model) : Prop :=
  progress.Percent <$> b = Some F64.zero.

(** What [SetPercent] keeps of a value: [math.Max(0, math.Min(1, p))]. *)
Definition clamp (p : F64.t) : F64.t := F64.Max F64.zero (F64.Min F64.one p).

(** Feeding a run of ticks to [Update], the cluster being in the given
    state at each; the bar of the current package is read after each. *)
Fixpoint ticks (ks : list tui.Cluster) (m : tui.Model) (w : tui.World)
  : result (tui.Model * tui.World * list (option progress.Model)) :=
  match ks with
  | [] => Ret (m, w, [])
  | k :: ks =>
      '(m, w, _) ← tui.Update k m w tea.tickMsg;
      '(m', w', bars) ← ticks ks m w;
      Ret (m', w', currentBar m :: bars)
  end.

(** Feeding a list of messages to [Update] under one cluster state. *)
Fixpoint feed (k : tui.Cluster) (msgs : list tea.Msg) (m : tui.Model)
         (w : tui.World) : result (tui.Model * tui.World) :=
  match msgs with
  | [] => Ret (m, w)
  | msg :: msgs => '(m, w, _) ← tui.Update k m w msg; feed k msgs m w
  end.

(** A cluster in which every package has a record with the given
    deployed components. *)
Definition recordWith (components : list string) : tui.Cluster :=
  fun _ => tui.Secret (tui.Decoded (Some (tui.Build_DeployedPackage "podinfo" components))).

(** The messages that announce the one package [podinfo] with three
    components. *)
Definition announcePodinfo : list tea.Msg :=
  [tea.stringMsg "totalPackages:1"; tea.stringMsg "idx:0";
   tea.stringMsg "package:podinfo"; tea.stringMsg "totalComponents:3"].

(** The model once these messages were handled. *)
Definition podinfoModel : tui.Model :=
  tui.mkModel "" [progress.New] ["podinfo"%string] 0 [3] 1
    [spinner.mk spinner.Dot (lipgloss.Foreground "205" lipgloss.NewStyle) 0]
    true [] false.


Definition logOf (r : cmd.RunResult) : list cmd.Event :=
  match r with
  | cmd.Quitted l | cmd.Failed l _ | cmd.Panicked l _ | cmd.StillRunning l => l
  end.







(** ** Vocabulary for the package source *)

(** The layer was found in the remote. *)
Definition present (e : sources.Env) (l : sources.Descriptor) : bool :=
  fst (sources.BlobExists e l).

(** The event sent after the [n]-th existence check out of [total]
    declared layers. *)
Definition verifying (n : nat) (total : Z) : sources.Event :=
  sources.Send
    ("verifying:" +:+
       Itoa (F64.to_int64
               (F64.mul (F64.div (F64.count n) (F64.of_int total)) F64.hundred))).

(** [s] starts with [p]. *)
Fixpoint hasPrefix (p s : string) : bool :=
  match p, s with
  | EmptyString, _ => true
  | String a p, String b s => Ascii.eqb a b && hasPrefix p s
  | String _ _, EmptyString => false
  end.

Definition isVerifying (ev : sources.Event) : bool :=
  match ev with
  | sources.Send msg => hasPrefix "verifying:" msg
  | _ => false
  end.

(** The verification events of the code, in closed form: one for each
    layer found present, numbered by its position among all declared
    layers, [from] checks having been made before. *)
Definition verifyingEvents (e : sources.Env) (total : Z) (from : nat)
           (layers : list sources.Descriptor) : list sources.Event :=
  mjoin (imap (fun i l => if present e l then [verifying (from + S i) total] else [])
              layers).


Definition isFilterApply (ev : sources.Event) : bool :=
  match ev with sources.FilterApply => true | _ => false end.

Definition isValidate (ev : sources.Event) : bool :=
  match ev with sources.ValidatePackageIntegrity _ _ => true | _ => false end.

Definition hasSend (ev : sources.Event) : bool :=
  match ev with sources.Send _ => true | _ => false end.

(** Neither the filter nor the validation. *)
Definition quiet (ev : sources.Event) : bool :=
  negb (isFilterApply ev || isValidate ev).

(** Some event satisfying [p] comes before some event satisfying [q]. *)
Fixpoint beforeb (p q : sources.Event -> bool) (l : list sources.Event) : bool :=
  match l with
  | [] => false
  | ev :: l => (p ev && existsb q l) || beforeb p q l
  end.

(** What [LoadPackage] tells after the download, by how far it got; [ip]
    is the partial flag handed to the validation. *)
Definition loadStages (ip : bool) (l : list sources.Event) : Prop :=
  l = [] \/ l = [sources.ReadYaml] \/
  l = [sources.ReadYaml; sources.FilterApply] \/
  exists msg layers checksum post,
    l = sources.ReadYaml :: sources.FilterApply :: sources.Send msg
          :: sources.SetFromLayers layers
          :: sources.ValidatePackageIntegrity checksum ip :: post /\
    forallb quiet post = true.

(** A bundle whose package declares three layers, the second of which is
    an optional layer missing from the remote. *)
Definition layerA : sources.Descriptor :=
  sources.mkDescriptor "application/vnd.zarf.layer.v1.blob" "aaaa" 40 "zarf.yaml".
Definition layerB : sources.Descriptor :=
  sources.mkDescriptor "application/vnd.zarf.layer.v1.blob" "bbbb" 60 "components/optional.tar".
Definition layerC : sources.Descriptor :=
  sources.mkDescriptor "application/vnd.zarf.layer.v1.blob" "cccc" 60 "checksums.txt".
Definition manifestDesc : sources.Descriptor :=
  sources.mkDescriptor "application/vnd.oci.image.manifest.v1+json" "1234" 10 "".

Definition podinfoPackage : sources.ZarfPackage :=
  sources.mkPackage "podinfo" "abcd" ["first"; "second"]%string.

Definition exampleEnv : sources.Env :=
  {| sources.BlobsDir := "blobs/sha256";
     sources.FetchRoot := ([manifestDesc], None);
     sources.FetchManifest := fun _ => (Some [layerA; layerB; layerC], None);
     sources.BlobExists :=
       fun l => (negb (String.eqb (sources.Digest l) "bbbb"), None);
     sources.cacheExists := fun _ => false;
     sources.cacheUse := fun _ => None;
     sources.fileNew := None;
     sources.orasCopy := fun layers => (layers, None);
     sources.readYaml := (podinfoPackage, None);
     sources.validatePackageIntegrity := fun _ _ _ => None;
     sources.unarchive := fun _ => sources.Unarchived;
     sources.create := fun _ => None;
     sources.SBOMsPath := "";
     sources.unarchiveSBOMs := None;
     sources.addNamespaceOverrides := fun pkg => pkg |}.

Definition exampleBundle : sources.RemoteBundle :=
  sources.mkRemoteBundle "podinfo" "1234" "/tmp/uds" false.

(** A filter that keeps every component. *)
Definition keepAll (pkg : sources.ZarfPackage) : list string * option sources.error :=
  (sources.Components pkg, None).

(** The same environment with another answer to the existence checks, or
    with another validation. *)
Definition withBlobExists (e : sources.Env)
           (exists_ : sources.Descriptor -> bool * option sources.error)
  : sources.Env :=
  {| sources.BlobsDir := sources.BlobsDir e;
     sources.FetchRoot := sources.FetchRoot e;
     sources.FetchManifest := sources.FetchManifest e;
     sources.BlobExists := exists_;
     sources.cacheExists := sources.cacheExists e;
     sources.cacheUse := sources.cacheUse e;
     sources.fileNew := sources.fileNew e;
     sources.orasCopy := sources.orasCopy e;
     sources.readYaml := sources.readYaml e;
     sources.validatePackageIntegrity := sources.validatePackageIntegrity e;
     sources.unarchive := sources.unarchive e;
     sources.create := sources.create e;
     sources.SBOMsPath := sources.SBOMsPath e;
     sources.unarchiveSBOMs := sources.unarchiveSBOMs e;
     sources.addNamespaceOverrides := sources.addNamespaceOverrides e |}.

Definition withValidation (e : sources.Env)
           (validate : list sources.Descriptor -> string -> bool ->
                       option sources.error)
  : sources.Env :=
  {| sources.BlobsDir := sources.BlobsDir e;
     sources.FetchRoot := sources.FetchRoot e;
     sources.FetchManifest := sources.FetchManifest e;
     sources.BlobExists := sources.BlobExists e;
     sources.cacheExists := sources.cacheExists e;
     sources.cacheUse := sources.cacheUse e;
     sources.fileNew := sources.fileNew e;
     sources.orasCopy := sources.orasCopy e;
     sources.readYaml := sources.readYaml e;
     sources.validatePackageIntegrity := validate;
     sources.unarchive := sources.unarchive e;
     sources.create := sources.create e;
     sources.SBOMsPath := sources.SBOMsPath e;
     sources.unarchiveSBOMs := sources.unarchiveSBOMs e;
     sources.addNamespaceOverrides := sources.addNamespaceOverrides e |}.

(** The two descriptors are the same. *)
Definition sameDescriptor (a b : sources.Descriptor) : bool :=
  String.eqb (sources.MediaType a) (sources.MediaType b)
  && String.eqb (sources.Digest a) (sources.Digest b)
  && (sources.Size a =? sources.Size b)
  && String.eqb (sources.Title a) (sources.Title b).

(** The layer is among the retrieved ones. *)
Definition retrieved (loaded : list sources.Descriptor) (l : sources.Descriptor)
  : bool :=
  existsb (sameDescriptor l) loaded.

(** Modelled from the spec: [sources.ValidatePackageIntegrity] is code of
    Zarf and not among the sources.  Section 4.2, step 7: the aggregate
    checksum of all retrieved content is validated against the aggregate
    checksum the package metadata declares; the validation is strict
    unless the package is marked partial, in which case it tolerates the
    absence of the layers that were not fetched.  [declared] are the
    layers the package declares, [loaded] the retrieved ones, and
    [intact checksum l] tells whether the retrieved content of [l] checks
    out against the declared aggregate checksum. *)
Definition specValidatePackageIntegrity
           (declared : list sources.Descriptor)
           (intact : string -> sources.Descriptor -> bool)
           (loaded : list sources.Descriptor)
           (aggregateChecksum : string) (isPartial : bool)
  : option sources.error :=
  if negb (forallb (intact aggregateChecksum) loaded)
  then Some "IntegrityError: checksum mismatch"%string
  else if isPartial || forallb (retrieved loaded) declared then None
  else Some "IntegrityError: layer missing"%string.

(** A filter that fails. *)
Definition rejectAll (pkg : sources.ZarfPackage) : list string * option sources.error :=
  ([], Some "no compatible components"%string).


(** * Vocabulary of the further properties *)

(** The layer is served from the blob cache: its title names the blobs
    directory and its digest is cached. *)
Definition cached (e : sources.Env) (l : sources.Descriptor) : bool :=
  Contains (sources.Title l) (sources.BlobsDir e)
  && sources.cacheExists e (sources.Digest l).

(** The call of [cache.Use] made for a layer. *)
Definition cacheUseOf (e : sources.Env) (r : sources.RemoteBundle)
           (l : sources.Descriptor) : sources.Event :=
  sources.CacheUse (sources.Digest l)
    [sources.TmpDir r; "images"; sources.BlobsDir e]%string.

Definition isCacheUse (ev : sources.Event) : bool :=
  match ev with sources.CacheUse _ _ => true | _ => false end.

(** The sum of the sizes of some layers. *)
Definition sizes (layers : list sources.Descriptor) : Z :=
  foldr (fun l z => sources.Size l + z) 0 layers.

Definition isTotalComponents (ev : sources.Event) : bool :=
  match ev with
  | sources.Send msg => hasPrefix "totalComponents:" msg
  | _ => false
  end.

(** What the download tells: progress of the verification and of the
    copy, and uses of the cache. *)
Definition fetchEvent (ev : sources.Event) : bool :=
  match ev with
  | sources.Send msg => hasPrefix "verifying:" msg || hasPrefix "downloading:" msg
  | sources.CacheUse _ _ => true
  | _ => false
  end.

Definition isUnarchive (ev : sources.Event) : bool :=
  match ev with sources.Unarchive _ => true | _ => false end.

Definition isCreate (ev : sources.Event) : bool :=
  match ev with sources.Create _ => true | _ => false end.

Definition isUnarchiveSBOMs (ev : sources.Event) : bool :=
  match ev with sources.UnarchiveSBOMs => true | _ => false end.

(** The component's archive is reported as not loaded. *)
Definition notLoaded (e : sources.Env) (component : string) : bool :=
  match sources.unarchive e component with
  | sources.NotLoaded => true
  | _ => false
  end.


(** A blob layer that the cache holds, and an environment that declares
    it next to [layerA] and the missing [layerB]. *)
Definition layerD : sources.Descriptor :=
  sources.mkDescriptor "application/vnd.zarf.layer.v1.blob" "dddd" 500
    "images/blobs/sha256/dddd".

Definition cacheEnv : sources.Env :=
  {| sources.BlobsDir := "blobs/sha256";
     sources.FetchRoot := ([manifestDesc], None);
     sources.FetchManifest := fun _ => (Some [layerA; layerB; layerD], None);
     sources.BlobExists :=
       fun l => (negb (String.eqb (sources.Digest l) "bbbb"), None);
     sources.cacheExists := fun d => String.eqb d "dddd";
     sources.cacheUse := fun _ => None;
     sources.fileNew := None;
     sources.orasCopy := fun layers => (layers, None);
     sources.readYaml := (podinfoPackage, None);
     sources.validatePackageIntegrity := fun _ _ _ => None;
     sources.unarchive :=
       fun c => if String.eqb c "second" then sources.NotLoaded
                else sources.Unarchived;
     sources.create := fun _ => None;
     sources.SBOMsPath := "";
     sources.unarchiveSBOMs := None;
     sources.addNamespaceOverrides := fun pkg => pkg |}.

(** The state in which [downloadPkgFromRemoteBundle] enters its loop. *)
Definition loopStart (pkgManifestDesc : sources.Descriptor) : sources.Loop :=
  sources.mkLoop 0 [pkgManifestDesc] [pkgManifestDesc] F64.zero [].


(** What a tick leaves alone: everything that was announced, the current
    index, the confirmation, and the number of bars and spinners. *)
Definition sameShape (m m' : tui.Model) : Prop :=
  tui.pkgNames m' = tui.pkgNames m /\
  tui.complete m' = tui.complete m /\
  tui.totalComponentsPerPkg m' = tui.totalComponentsPerPkg m /\
  tui.pkgIdx m' = tui.pkgIdx m /\
  tui.totalPkgs m' = tui.totalPkgs m /\
  tui.confirmed m' = tui.confirmed m /\
  tui.bundleYAML m' = tui.bundleYAML m /\
  length (tui.progressBars m') = length (tui.progressBars m) /\
  length (tui.spinners m') = length (tui.spinners m).

(** The tags the progress-message handler knows. *)
Definition knownTag (tag : string) : bool :=
  String.eqb tag "package" || String.eqb tag "totalComponents"
  || String.eqb tag "totalPackages" || String.eqb tag "idx"
  || String.eqb tag "complete".

(** The tags whose value is a number. *)
Definition numericTag (tag : string) : bool :=
  String.eqb tag "totalComponents" || String.eqb tag "totalPackages"
  || String.eqb tag "idx".

(** The step delivers an affirmative key. *)
Definition isYes (step : cmd.Step) : bool :=
  match step with
  | cmd.Deliver _ (tea.KeyMsg key) => String.eqb key "y" || String.eqb key "Y"
  | _ => false
  end.

(** The spinner of the current package. *)
Definition currentSpinner (m : tui.Model) : option spinner.Model :=
  tui.spinners m !! Z.to_nat (tui.pkgIdx m).


(** * Further code *)

(** ** [LoadPackageMetadata] of the remote-bundle source *)

Module metadata.

Import Go sources.

(** What [LoadPackageMetadata] asks of the remote, of the YAML library
    and of the file system, beyond [sources.Env]. *)
Record Env : Type := {
  ZarfYAML : string;                               (* config.ZarfYAML *)
  ChecksumsTxt : string;                           (* config.ChecksumsTxt *)
  Base : string;                                   (* dst.Base *)
  FetchLayer : Descriptor -> string * option error;
  Unmarshal : string -> ZarfPackage * option error;
  WriteYaml : option error;
  WriteFile : option error
}.

Inductive Event : Type :=
| FetchedLayer (layer : Descriptor)
| WroteYaml (path : list string) (pkg : ZarfPackage)
| WroteFile (path : list string) (bytes : string)
| SetFromLayers (layers : list Descriptor)
| ValidatePackageIntegrity (aggregateChecksum : string) (isPartial : bool).

(** The zero value of [ocispec.Descriptor]. *)
Definition emptyDescriptor : Descriptor := mkDescriptor "" "" 0 "".

(** How the call ends: it returns a package and an error, or it panics
    on the nil manifest that [FetchManifest] may return without error. *)
Inductive Outcome : Type :=
| Returned (pkg : ZarfPackage) (err : option error) (told : list Event)
| NilDereference.

(** [for _, layer := range layers { if title == name { ...; break } }]. *)
Definition firstTitled (name : string) (layers : list Descriptor)
  : option Descriptor :=
  List.find (fun layer => String.eqb (Title layer) name) layers.

Definition LoadPackageMetadata (e : sources.Env) (x : Env) (r : RemoteBundle)
  : Outcome :=
  match FetchRoot e with
  | (_, Some err) => Returned emptyPackage (Some err) []
  | (rootLayers, None) =>
      match Locate rootLayers (PkgManifestSHA r) with
      | None =>
          Returned emptyPackage
            (Some ("zarf package " +:+ PkgName r +:+ " with manifest sha "
                     +:+ PkgManifestSHA r +:+ " not found")) []
      | Some pkgManifestDesc =>
          match sources.FetchManifest e pkgManifestDesc with
          | (_, Some err) => Returned emptyPackage (Some err) []
          | (None, None) => NilDereference
          | (Some pkgLayers, None) =>
              let zarfYAMLDesc :=
                default emptyDescriptor (firstTitled (ZarfYAML x) pkgLayers) in
              let told := [FetchedLayer zarfYAMLDesc] in
              match FetchLayer x zarfYAMLDesc with
              | (_, Some err) => Returned emptyPackage (Some err) told
              | (pkgBytes, None) =>
                  match Unmarshal x pkgBytes with
                  | (_, Some err) => Returned emptyPackage (Some err) told
                  | (pkg, None) =>
                      let told := told ++ [WroteYaml [Base x; ZarfYAML x] pkg] in
                      match WriteYaml x with
                      | Some err => Returned emptyPackage (Some err) told
                      | None =>
                          let finish checksumLayer told :=
                            let told := told ++
                              [SetFromLayers [pkgManifestDesc; checksumLayer];
                               ValidatePackageIntegrity (AggregateChecksum pkg) true] in
                            let err :=
                              validatePackageIntegrity e
                                [pkgManifestDesc; checksumLayer]
                                (AggregateChecksum pkg) true in
                            Returned (mkPackage (PkgName r) (AggregateChecksum pkg)
                                        (Components pkg)) err told in
                          match firstTitled (ChecksumsTxt x) pkgLayers with
                          | None => finish emptyDescriptor told
                          | Some layer =>
                              let told := told ++ [FetchedLayer layer] in
                              match FetchLayer x layer with
                              | (_, Some err) => Returned emptyPackage (Some err) told
                              | (checksumBytes, None) =>
                                  let told := told ++
                                    [WroteFile [Base x; ChecksumsTxt x] checksumBytes] in
                                  match WriteFile x with
                                  | Some err => Returned emptyPackage (Some err) told
                                  | None => finish layer told
                                  end
                              end
                          end
                      end
                  end
              end
          end
      end
  end.

(** [Collect]. *)
Definition Collect : string * option error :=
  (""%string, Some "not implemented in *sources.RemoteBundle"%string).

End metadata.

Definition isMetaValidate (ev : metadata.Event) : bool :=
  match ev with metadata.ValidatePackageIntegrity _ _ => true | _ => false end.

Definition isWrote (ev : metadata.Event) : bool :=
  match ev with
  | metadata.WroteYaml _ _ | metadata.WroteFile _ _ => true
  | _ => false
  end.

Definition metadataEnv : metadata.Env :=
  {| metadata.ZarfYAML := "zarf.yaml";
     metadata.ChecksumsTxt := "checksums.txt";
     metadata.Base := "/tmp/uds";
     metadata.FetchLayer := fun l => (sources.Digest l, None);
     metadata.Unmarshal := fun _ => (sources.mkPackage "inner-name" "abcd" [], None);
     metadata.WriteYaml := None;
     metadata.WriteFile := None |}.


(** The layers handed to [SetFromLayers] right before the validation. *)
Definition SetFromLayersBefore (layers : list sources.Descriptor)
           (told : list metadata.Event) : Prop :=
  exists pre checksum,
    told = pre ++ [metadata.SetFromLayers layers;
                   metadata.ValidatePackageIntegrity checksum true] /\
    existsb isMetaValidate pre = false /\
    length layers = 2%nat.


(** ** The colour codes of [colorPrintYAML] *)

Module yaml.

Import Go.

Definition ESC : ascii := ascii_of_nat 27.

(** [yamlFormat]: the escape sequence of a colour attribute. *)
Definition yamlFormat (attr : Z) : string :=
  String ESC ("[" +:+ Itoa attr +:+ "m").

(** [regexp.MustCompile(`\x1b\[(.*?)m`).ReplaceAllString(s, "")]: every
    leftmost, shortest run that starts with ESC and an opening bracket and
    ends with the next [m] on the same line is removed.  [held] is the
    text of a run that has begun and may still fail to end. *)
Fixpoint strip (s : string) (held : option string) : string :=
  match s with
  | EmptyString => default EmptyString held
  | String c rest =>
      match held with
      | Some run =>
          if Ascii.eqb c "m" then strip rest None
          else if Ascii.eqb c (ascii_of_nat 10)
               then run +:+ String c (strip rest None)
               else strip rest (Some (run +:+ String c EmptyString))
      | None =>
          if Ascii.eqb c ESC then
            match rest with
            | String b rest' =>
                if Ascii.eqb b "[" then strip rest' (Some (String ESC "["))
                else String c (strip rest None)
            | EmptyString => String c EmptyString
            end
          else String c (strip rest None)
      end
  end.

(** The last step of [colorPrintYAML] when [config.NoColor] is set. *)
Definition stripColor (outputYAML : string) : string := strip outputYAML None.

End yaml.

(** The bytes of a string. *)
Fixpoint bytes (s : string) : list ascii :=
  match s with
  | EmptyString => []
  | String c rest => c :: bytes rest
  end.


(** * Properties *)

(** Closed comparisons of integers, by evaluation. *)
Ltac zcmp := vm_compute; first [reflexivity | discriminate].

(** ** Indexing and the small steps of [Update] *)

Lemma index_lookup {A} (l : list A) (i : Z) (a : A) :
  0 <= i -> l !! Z.to_nat i = Some a -> index l i = Ret a.
Proof.
  intros Hi Hl. unfold index.
  destruct (Z.ltb_spec i 0) as [?|_]; [lia|]. by rewrite Hl.
Qed.

Lemma index_Ret {A} (l : list A) (i : Z) (a : A) :
  index l i = Ret a -> 0 <= i /\ l !! Z.to_nat i = Some a.
Proof.
  unfold index. destruct (Z.ltb_spec i 0) as [?|?]; [discriminate|].
  destruct (l !! Z.to_nat i) eqn:E; [|discriminate].
  intros [= ->]. split; [lia|done].
Qed.

Lemma index_short {A} (l : list A) (i : Z) :
  len l <= i -> index l i = Panic IndexOutOfRange.
Proof.
  unfold index, len. intros Hi.
  destruct (Z.ltb_spec i 0) as [?|?]; [done|].
  rewrite lookup_ge_None_2; [done|lia].
Qed.

Lemma store_lookup {A} (l : list A) (i : Z) (a b : A) :
  l !! Z.to_nat i = Some a -> store l i b !! Z.to_nat i = Some b.
Proof.
  intros H. unfold store. apply list_lookup_insert_eq.
  by eapply lookup_lt_Some.
Qed.

(** ** The deployed-state query *)

(** C9, as stated, fails: when the secret of the package exists but its
    data does not decode, the lookup has failed and yet the query does
    not return nil, it panics. *)
Lemma GetDeployedPackage_decode_failure_panics :
  let k : tui.Cluster := fun _ => tui.Secret tui.Undecodable in
  lookupFails k "podinfo" /\
  tui.GetDeployedPackage k "podinfo" = Panic (PanicInt 0) /\
  tui.GetDeployedPackage k "podinfo" <> Ret None.
Proof. split; [by right|]. split; [reflexivity|discriminate]. Qed.

(** C9, amended: [GetDeployedPackage] returns nil exactly when [GetSecret]
    fails (which covers a package that was never deployed) or the record
    decodes to null, returns the decoded record otherwise, and panics
    exactly when the data of the secret does not decode. *)
Theorem GetDeployedPackage_outcomes (k : tui.Cluster) (packageName : string) :
  let secret := k (tui.ZarfPackagePrefix +:+ packageName) in
  (tui.GetDeployedPackage k packageName = Ret None <->
     secret = tui.SecretErr \/ secret = tui.Secret (tui.Decoded None)) /\
  (forall d, tui.GetDeployedPackage k packageName = Ret (Some d) <->
     secret = tui.Secret (tui.Decoded (Some d))) /\
  (panics (tui.GetDeployedPackage k packageName) = true <->
     secret = tui.Secret tui.Undecodable) /\
  (secret = tui.Secret tui.Undecodable ->
     tui.GetDeployedPackage k packageName = Panic (PanicInt 0)).
Proof.
  unfold tui.GetDeployedPackage; cbn zeta.
  destruct (k _) as [|[|[d'|]]]; cbn.
  - repeat split; try tauto; try (intros ?; discriminate);
      try (intros [?|?]; discriminate); intros [? ?]; discriminate.
  - repeat split; try tauto; try (intros ?; discriminate);
      try (intros [?|?]; discriminate).
  - repeat split; try (intros ?; discriminate);
      try (intros [?|?]; discriminate); congruence.
  - repeat split; try tauto; try (intros ?; discriminate);
      try (intros [?|?]; discriminate).
Qed.

Lemma setPercent_Ret (m : tui.Model) (p : F64.t) (b : progress.Model) :
  0 <= tui.pkgIdx m ->
  tui.progressBars m !! Z.to_nat (tui.pkgIdx m) = Some b ->
  tui.setPercent m p =
    Ret (tui.with_progressBars m
           (store (tui.progressBars m) (tui.pkgIdx m) (progress.SetPercent b p))).
Proof.
  intros Hi Hb. unfold tui.setPercent.
  by rewrite (index_lookup _ _ _ Hi Hb).
Qed.

Lemma stopSpinner_Ret (m : tui.Model) (st : lipgloss.Style) (s : spinner.Model) :
  0 <= tui.pkgIdx m ->
  tui.spinners m !! Z.to_nat (tui.pkgIdx m) = Some s ->
  tui.stopSpinner m st =
    Ret (tui.with_spinners m
           (store (tui.spinners m) (tui.pkgIdx m)
              (spinner.with_Style (spinner.with_Frames s [""%string]) st))).
Proof.
  intros Hi Hs. unfold tui.stopSpinner.
  by rewrite (index_lookup _ _ _ Hi Hs).
Qed.

Lemma tickSpinner_Ret (m : tui.Model) (s : spinner.Model) :
  0 <= tui.pkgIdx m ->
  tui.spinners m !! Z.to_nat (tui.pkgIdx m) = Some s ->
  tui.tickSpinner m =
    Ret (tui.with_spinners m
           (store (tui.spinners m) (tui.pkgIdx m) (spinner.Update s))).
Proof.
  intros Hi Hs. unfold tui.tickSpinner.
  by rewrite (index_lookup _ _ _ Hi Hs).
Qed.

(** ** Malformed progress messages *)

(** C10, as stated, fails for one of the recognized tags: the message
    ["complete"] without a colon is accepted, because its branch never
    reads a second field. *)
Lemma bare_complete_is_accepted :
  let m := tui.InitModel true "" in
  let w := tui.mkWorld false [] in
  Split "complete" ":" = ["complete"%string] /\
  forall k : tui.Cluster,
    tui.Update k m w (tea.stringMsg "complete") =
      Ret (tui.with_complete m [true], w, tea.Batch []) /\
    panics (tui.Update k m w (tea.stringMsg "complete")) = false.
Proof. split; [reflexivity|]. intros k. split; reflexivity. Qed.

(** C10, amended: the handler indexes the second field without a check
    when the first field is [package], [totalComponents], [totalPackages]
    or [idx]; so a message without a colon makes [Update] panic with an
    index out of range exactly when it is one of these four tag names (a
    bare [complete] is accepted, any other text is ignored). *)
Theorem bare_tag_panics (k : tui.Cluster) (m : tui.Model) (w : tui.World)
        (msg : string) :
  tui.fatalChan w = [] ->
  Split msg ":" = [msg] ->
  (tui.Update k m w (tea.stringMsg msg) = Panic IndexOutOfRange <->
     msg = "package"%string \/ msg = "totalComponents"%string \/
     msg = "totalPackages"%string \/ msg = "idx"%string) /\
  (panics (tui.Update k m w (tea.stringMsg msg)) = true ->
     tui.Update k m w (tea.stringMsg msg) = Panic IndexOutOfRange).
Proof.
  intros Hf Hs. unfold tui.Update. rewrite Hf.
  unfold tui.updateString. rewrite Hs.
  change (index [msg] 0) with (Ret msg).
  change (index [msg] 1) with (@Panic string IndexOutOfRange).
  cbn [mbind result_bind].
  destruct (String.eqb_spec msg "package") as [->|N1];
    [cbn; split; [split|]; auto|].
  destruct (String.eqb_spec msg "totalComponents") as [->|N2];
    [cbn; split; [split|]; auto|].
  destruct (String.eqb_spec msg "totalPackages") as [->|N3];
    [cbn; split; [split|]; auto|].
  destruct (String.eqb_spec msg "idx") as [->|N4];
    [cbn; split; [split|]; auto 6|].
  destruct (String.eqb msg "complete"); cbn; (split; [|discriminate]);
    (split; [discriminate|]); intros [?|[?|[?|?]]]; congruence.
Qed.

Lemma bare_tag_panics_witness :
  Split "package" ":" = ["package"%string] /\
  tui.Update (fun _ => tui.SecretErr) (tui.InitModel true "")
             (tui.mkWorld false []) (tea.stringMsg "package")
    = Panic IndexOutOfRange.
Proof.
  split; [reflexivity|].
  exact (proj2 (proj1 (bare_tag_panics (fun _ => tui.SecretErr)
                         (tui.InitModel true "") (tui.mkWorld false [])
                         "package" eq_refl eq_refl))
               (or_introl eq_refl)).
Defined.

(** ** Confirmation *)

(** C7 on the code: while the session awaits confirmation, the key [n]
    (or [N]) leaves the model as it is and returns the empty batch, which
    carries no [tea.Quit]; the run loop goes on, and a later [y] still
    starts the deployment. *)
Theorem negative_answer_does_not_quit (k : tui.Cluster) (yaml : string) :
  let m := tui.InitModel false yaml in
  let w := tui.mkWorld false [] in
  tui.Update k m w (tea.KeyMsg "n") = Ret (m, w, tea.Batch []) /\
  tui.Update k m w (tea.KeyMsg "N") = Ret (m, w, tea.Batch []) /\
  tea.hasQuit (tea.Batch []) = false /\
  tui.Update k m w (tea.KeyMsg "q") = Ret (m, w, tea.Quit) /\
  cmd.Program_Run
    [cmd.Deliver k (tea.operation tui.DeployOp); cmd.Deliver k (tea.KeyMsg "n")]
    m w 0 [] = cmd.StillRunning [] /\
  cmd.Program_Run
    [cmd.Deliver k (tea.operation tui.DeployOp); cmd.Deliver k (tea.KeyMsg "n");
     cmd.Deliver k (tea.KeyMsg "y"); cmd.Deliver k (tea.operation tui.DeployOp);
     cmd.DeployReturns None]
    m w 0 [] = cmd.StillRunning [cmd.Client tui.CallDeploy].
Proof. repeat split; reflexivity. Qed.

(** ** Success *)

Lemma successCmds_take (names : list string) (n : nat) (i : Z) :
  0 <= i -> (Z.to_nat i + n <= length names)%nat ->
  tui.successCmds names i n =
    Ret (map deployedNotification (take n (drop (Z.to_nat i) names))).
Proof.
  revert i. induction n as [|n IH]; intros i Hi Hlen; [done|].
  cbn [tui.successCmds].
  destruct (lookup_lt_is_Some_2 names (Z.to_nat i)) as [name Hname]; [lia|].
  rewrite (index_lookup _ _ _ Hi Hname). cbn [mbind result_bind].
  rewrite IH by lia. cbn [mbind result_bind].
  rewrite (drop_S _ _ _ Hname). cbn [take map].
  replace (Z.to_nat (i + 1)) with (S (Z.to_nat i)) by lia. done.
Qed.

(** C8: when a tick finds the current package flagged complete and that
    package is the last one ([pkgIdx == totalPkgs-1]), [Update] marks the
    model done and returns one sequence that holds, after the bar, spinner
    and tick commands and the separator line, the notification
    "Package <name> deployed" of each package [0 .. totalPkgs-1] in index
    order, and [tea.Quit] last and only there. *)
Theorem last_package_complete_notifies_all
        (k : tui.Cluster) (m : tui.Model) (w : tui.World) :
  tui.fatalChan w = [] ->
  tui.complete m !! Z.to_nat (tui.pkgIdx m) = Some true ->
  0 <= tui.pkgIdx m ->
  tui.pkgIdx m = wrap (tui.totalPkgs m - 1) ->
  is_Some (tui.progressBars m !! Z.to_nat (tui.pkgIdx m)) ->
  is_Some (tui.spinners m !! Z.to_nat (tui.pkgIdx m)) ->
  tui.totalPkgs m <= len (tui.pkgNames m) ->
  let notifications :=
    map deployedNotification (take (Z.to_nat (tui.totalPkgs m)) (tui.pkgNames m)) in
  exists m',
    tui.Update k m w tea.tickMsg =
      Ret (m', w,
           tea.Sequence
             ([tea.nextFrame; tea.spinnerTick; tea.tickCmd; separator]
                ++ notifications ++ [tea.Quit])) /\
    tui.done m' = true /\
    length notifications = Z.to_nat (tui.totalPkgs m) /\
    (forall i name, (i < Z.to_nat (tui.totalPkgs m))%nat ->
       tui.pkgNames m !! i = Some name ->
       notifications !! i = Some (deployedNotification name)) /\
    existsb tea.hasQuit
      ([tea.nextFrame; tea.spinnerTick; tea.tickCmd; separator] ++ notifications)
      = false.
Proof.
  intros Hf Hc Hi Hlast [b Hb] [s Hs] Hnames notifications.
  unfold tui.Update. rewrite Hf. unfold tui.updateTick.
  assert ((len (tui.complete m) >? tui.pkgIdx m) = true) as ->.
  { apply Z.gtb_lt. apply lookup_lt_Some in Hc. unfold len. lia. }
  rewrite (index_lookup _ _ _ Hi Hc). cbn [mbind result_bind].
  unfold tui.tickComplete.
  rewrite (setPercent_Ret _ _ _ Hi Hb). cbn [mbind result_bind].
  rewrite (stopSpinner_Ret _ _ s); [|done|done]. cbn [mbind result_bind].
  erewrite tickSpinner_Ret; [|done|cbn; by eapply store_lookup].
  cbn [mbind result_bind]. cbn [tui.pkgIdx tui.totalPkgs tui.with_spinners
    tui.with_progressBars tui.with_done tui.pkgNames].
  rewrite <- Hlast, Z.eqb_refl.
  rewrite successCmds_take; [|lia|unfold len in Hnames; cbn; lia].
  cbn [mbind result_bind]. rewrite drop_0.
  eexists. split; [reflexivity|]. split; [reflexivity|].
  assert (length notifications = Z.to_nat (tui.totalPkgs m)) as Hlen.
  { unfold notifications. rewrite length_map, length_take.
    unfold len in Hnames. lia. }
  split; [done|]. split.
  - intros i name Hlt Hn. unfold notifications.
    rewrite list_lookup_fmap, lookup_take_lt by done. by rewrite Hn.
  - cbn. unfold notifications. clear.
    induction (take _ _) as [|x l IH]; [done|]. cbn. done.
Qed.

(** ** Progress against the deployed state *)

Lemma notComplete_Ret (m : tui.Model) :
  0 <= tui.pkgIdx m ->
  tui.complete m !! Z.to_nat (tui.pkgIdx m) <> Some true ->
  (if len (tui.complete m) >? tui.pkgIdx m
   then index (tui.complete m) (tui.pkgIdx m) else Ret false) = Ret false.
Proof.
  intros Hi Hc. destruct (Z.gtb_spec (len (tui.complete m)) (tui.pkgIdx m)); [|done].
  destruct (lookup_lt_is_Some_2 (tui.complete m) (Z.to_nat (tui.pkgIdx m)))
    as [c Hl]; [unfold len in *; lia|].
  rewrite (index_lookup _ _ _ Hi Hl). destruct c; [done|done].
Qed.

Lemma polls_same (m m' : tui.Model) (name : string) (total : Z) :
  polls m name total ->
  tui.pkgIdx m' = tui.pkgIdx m ->
  tui.complete m' = tui.complete m ->
  tui.totalComponentsPerPkg m' = tui.totalComponentsPerPkg m ->
  tui.pkgNames m' = tui.pkgNames m ->
  length (tui.progressBars m') = length (tui.progressBars m) ->
  length (tui.spinners m') = length (tui.spinners m) ->
  polls m' name total.
Proof.
  intros [] Hi Hc Ht Hn Hb Hs.
  constructor; rewrite ?Hi, ?Hc, ?Ht, ?Hn; try done.
  - apply lookup_lt_is_Some. rewrite Hb. by apply lookup_lt_is_Some.
  - apply lookup_lt_is_Some. rewrite Hs. by apply lookup_lt_is_Some.
Qed.

(** One tick that reaches the poll of the deployed state, with no fatal
    error pending. *)
Section Polling.

Variables (k : tui.Cluster) (m : tui.Model) (w : tui.World).
Variables (name : string) (total : Z).
Hypothesis Hf : tui.fatalChan w = [].
Hypothesis Hp : polls m name total.

Lemma polls_spinners_nonempty : (len (tui.spinners m) >? 0) = true.
Proof.
  destruct Hp as [_ _ _ _ _ _ Hs]. apply lookup_lt_is_Some in Hs.
  apply Z.gtb_lt. unfold len. lia.
Qed.

Lemma polls_total_known :
  (len (tui.totalComponentsPerPkg m) >? tui.pkgIdx m) = true.
Proof.
  destruct Hp as [Hi _ Ht _ _ _ _]. apply lookup_lt_Some in Ht.
  apply Z.gtb_lt. unfold len. lia.
Qed.

(** A tick while the reset flag is set: the bar is set to 0, and the flag
    is cleared when the record shows at least one component. *)
Lemma tick_reset (rec : option tui.DeployedPackage) :
  tui.resetProgress w = true ->
  tui.GetDeployedPackage k name = Ret rec ->
  exists m',
    tui.Update k m w tea.tickMsg =
      Ret (m',
           if shownComponents rec >=? 1 then tui.with_resetProgress w false else w,
           tea.Sequence [tea.nextFrame; tea.spinnerTick; tea.tickCmd]) /\
    polls m' name total /\
    atZero (currentBar m').
Proof.
  intros Hr Hrec.
  pose proof polls_spinners_nonempty as Hsp.
  pose proof polls_total_known as Htk.
  pose proof Hp as [Hi Hc Ht Hpos Hn [b Hb] [s Hs]].
  unfold tui.Update. rewrite Hf. unfold tui.updateTick.
  rewrite (notComplete_Ret _ Hi Hc). cbn [mbind result_bind].
  unfold tui.tickPoll. rewrite Htk.
  rewrite (index_lookup _ _ _ Hi Ht). cbn [mbind result_bind].
  assert ((total >? 0) = true) as -> by (apply Z.gtb_lt; lia).
  rewrite (index_lookup _ _ _ Hi Hn). cbn [mbind result_bind].
  rewrite Hrec. cbn [mbind result_bind]. rewrite Hr.
  exists (tui.with_spinners
            (tui.with_progressBars m
               (store (tui.progressBars m) (tui.pkgIdx m)
                  (progress.SetPercent b (F64.of_int 0))))
            (store (tui.spinners m) (tui.pkgIdx m) (spinner.Update s))).
  split.
  - destruct rec as [d|]; cbn [shownComponents];
      rewrite (setPercent_Ret _ _ _ Hi Hb); cbn [mbind result_bind];
      cbn [tui.spinners tui.with_progressBars]; rewrite Hsp;
      (erewrite tickSpinner_Ret; [|done|exact Hs]); cbn [mbind result_bind];
      reflexivity.
  - split.
    + eapply polls_same; [exact Hp|cbn; try done..].
      * unfold store. by rewrite length_insert.
      * unfold store. by rewrite length_insert.
    + unfold atZero, currentBar. cbn. rewrite (store_lookup _ _ _ _ Hb). done.
Qed.

(** A tick while the reset flag is clear and a record is there: the bar
    is set to the deployed share of the components. *)
Lemma tick_resume (d : tui.DeployedPackage) :
  tui.resetProgress w = false ->
  tui.GetDeployedPackage k name = Ret (Some d) ->
  exists m',
    tui.Update k m w tea.tickMsg =
      Ret (m', w, tea.Sequence [tea.nextFrame; tea.spinnerTick; tea.tickCmd]) /\
    polls m' name total /\
    progress.Percent <$> currentBar m' =
      Some (clamp (F64.div (F64.of_int (len (tui.DeployedComponents d)))
                           (F64.of_int total))).
Proof.
  intros Hr Hrec.
  pose proof polls_spinners_nonempty as Hsp.
  pose proof polls_total_known as Htk.
  pose proof Hp as [Hi Hc Ht Hpos Hn [b Hb] [s Hs]].
  destruct (tui.Update k m w tea.tickMsg) as [r|p] eqn:E;
    unfold tui.Update in E; rewrite Hf in E; unfold tui.updateTick in E;
    rewrite (notComplete_Ret _ Hi Hc) in E; cbn [mbind result_bind] in E;
    unfold tui.tickPoll in E; rewrite Htk in E;
    rewrite (index_lookup _ _ _ Hi Ht) in E; cbn [mbind result_bind] in E;
    (assert ((total >? 0) = true) as Hgt by (apply Z.gtb_lt; lia));
    rewrite Hgt in E;
    rewrite (index_lookup _ _ _ Hi Hn) in E; cbn [mbind result_bind] in E;
    rewrite Hrec in E; cbn [mbind result_bind] in E; rewrite Hr in E;
    rewrite (setPercent_Ret _ _ _ Hi Hb) in E; cbn [mbind result_bind] in E;
    cbn [tui.progressBars tui.with_progressBars tui.pkgIdx] in E;
    rewrite (index_lookup _ _ _ Hi (store_lookup _ _ _ _ Hb)) in E;
    cbn [mbind result_bind] in E;
    destruct (F64.eqb _ F64.one) in E;
    try (rewrite (stopSpinner_Ret _ _ s) in E; [|done|done]);
    cbn [mbind result_bind] in E;
    cbn [tui.spinners tui.with_progressBars tui.with_spinners] in E;
    rewrite ?(proj2 (Z.gtb_lt _ 0)) in E
      by (unfold len, store; rewrite ?length_insert;
          apply lookup_lt_Some in Hs; lia);
    (erewrite tickSpinner_Ret in E;
       [|done|first [exact Hs|cbn; by eapply store_lookup]]);
    cbn [mbind result_bind] in E; try discriminate E.
  all: injection E as <-; eexists; split; [reflexivity|]; split.
  all: try (eapply polls_same; [exact Hp|cbn; try done..];
            unfold store; by rewrite ?length_insert).
  all: unfold currentBar, clamp; cbn;
       rewrite (store_lookup _ _ _ _ Hb); reflexivity.
Qed.

End Polling.

(** A tick before the component total of the current package is known
    (or when it is not positive): neither the bars nor the reset flag
    change. *)
Lemma tick_idle (k : tui.Cluster) (m : tui.Model) (w : tui.World) :
  tui.fatalChan w = [] ->
  0 <= tui.pkgIdx m ->
  tui.complete m !! Z.to_nat (tui.pkgIdx m) <> Some true ->
  (forall total,
     tui.totalComponentsPerPkg m !! Z.to_nat (tui.pkgIdx m) = Some total ->
     total <= 0) ->
  is_Some (tui.spinners m !! Z.to_nat (tui.pkgIdx m)) ->
  exists m',
    tui.Update k m w tea.tickMsg =
      Ret (m', w, tea.Sequence [tea.nilCmd; tea.spinnerTick; tea.tickCmd]) /\
    tui.progressBars m' = tui.progressBars m.
Proof.
  intros Hf Hi Hc Ht [s Hs].
  assert ((len (tui.spinners m) >? 0) = true) as Hsp.
  { apply lookup_lt_Some in Hs. apply Z.gtb_lt. unfold len. lia. }
  unfold tui.Update. rewrite Hf. unfold tui.updateTick.
  rewrite (notComplete_Ret _ Hi Hc). cbn [mbind result_bind].
  assert (tui.tickPoll k m w = Ret (m, w, tea.nilCmd)) as ->.
  { unfold tui.tickPoll.
    destruct (Z.gtb_spec (len (tui.totalComponentsPerPkg m)) (tui.pkgIdx m));
      [|done].
    destruct (lookup_lt_is_Some_2 (tui.totalComponentsPerPkg m)
                (Z.to_nat (tui.pkgIdx m))) as [total Hl];
      [unfold len in *; lia|].
    rewrite (index_lookup _ _ _ Hi Hl). cbn [mbind result_bind].
    specialize (Ht total Hl).
    by destruct (Z.gtb_spec total 0); [lia|]. }
  cbn [mbind result_bind]. rewrite Hsp.
  rewrite (tickSpinner_Ret _ _ Hi Hs). cbn [mbind result_bind].
  eexists. split; reflexivity.
Qed.

Lemma ticks_held (ks : list tui.Cluster) (m : tui.Model) (w : tui.World)
      (name : string) (total : Z) :
  tui.fatalChan w = [] ->
  tui.resetProgress w = true ->
  polls m name total ->
  Forall (fun k => exists rec, tui.GetDeployedPackage k name = Ret rec /\
                               shownComponents rec < 1) ks ->
  exists m' bars,
    ticks ks m w = Ret (m', w, bars) /\
    polls m' name total /\
    length bars = length ks /\
    Forall atZero bars.
Proof.
  intros Hf Hr Hp Hks. revert m Hp.
  induction Hks as [|k ks (rec & Hrec & Hlt) _ IH]; intros m Hp.
  - exists m, []. split; [done|]. split; [done|]. split; [done|constructor].
  - destruct (tick_reset k m w name total Hf Hp rec Hr Hrec)
      as (m1 & Hupd & Hp1 & Hz).
    destruct (Z.geb_spec (shownComponents rec) 1) as [?|_]; [lia|].
    destruct (IH m1 Hp1) as (m' & bars & Hrun & Hp' & Hlen & Hall).
    exists m', (currentBar m1 :: bars). cbn [ticks].
    rewrite Hupd. cbn [mbind result_bind]. rewrite Hrun.
    cbn [mbind result_bind]. split; [done|]. split; [done|].
    split; [cbn; lia|by constructor].
Qed.

(** A tick that finds the current package flagged complete fills its bar
    and leaves the globals alone, whatever the reset flag and the record
    say. *)
Lemma tick_complete_fills (k : tui.Cluster) (m m' : tui.Model)
      (w w' : tui.World) (c : tea.Cmd) :
  tui.fatalChan w = [] ->
  0 <= tui.pkgIdx m ->
  tui.complete m !! Z.to_nat (tui.pkgIdx m) = Some true ->
  tui.Update k m w tea.tickMsg = Ret (m', w', c) ->
  progress.Percent <$> currentBar m' = Some F64.one /\ w' = w.
Proof.
  intros Hf Hi Hc. unfold tui.Update. rewrite Hf. unfold tui.updateTick.
  assert ((len (tui.complete m) >? tui.pkgIdx m) = true) as ->.
  { apply Z.gtb_lt. apply lookup_lt_Some in Hc. unfold len. lia. }
  rewrite (index_lookup _ _ _ Hi Hc). cbn [mbind result_bind].
  unfold tui.tickComplete.
  destruct (tui.setPercent m F64.hundred) as [m1|] eqn:E1; [|discriminate].
  unfold tui.setPercent in E1.
  destruct (index (tui.progressBars m) (tui.pkgIdx m)) as [b|] eqn:Eb;
    [|discriminate].
  apply index_Ret in Eb as [_ Hb]. injection E1 as <-.
  cbn [mbind result_bind].
  destruct (tui.stopSpinner _ tui.doneStyle) as [m2|] eqn:E2; [|discriminate].
  unfold tui.stopSpinner in E2.
  destruct (index _ _) as [s|] in E2; [|discriminate]. injection E2 as <-.
  cbn [mbind result_bind].
  destruct (tui.tickSpinner _) as [m3|] eqn:E3; [|discriminate].
  unfold tui.tickSpinner in E3.
  destruct (index _ _) as [s'|] in E3; [|discriminate]. injection E3 as <-.
  cbn [mbind result_bind].
  cbn [tui.pkgIdx tui.totalPkgs tui.pkgNames tui.with_spinners
       tui.with_progressBars].
  destruct (_ =? _);
    [destruct (tui.successCmds _ _ _); [|discriminate]|];
    cbn [mbind result_bind]; intros [= <- <- <-]; (split; [|done]);
    unfold currentBar; cbn; by rewrite (store_lookup _ _ _ _ Hb).
Qed.

(** C3, as stated, fails: [podinfo] is found deployed when it is
    announced, so the reset flag is set; it is then flagged complete, and
    the next tick, at which the record shows no component, sets the bar to
    100% and not to 0%; the flag stays set. *)
Lemma complete_tick_fills_bar_while_reset :
  let announce :=
    [tea.stringMsg "totalPackages:2"; tea.stringMsg "package:podinfo";
     tea.stringMsg "idx:0"; tea.stringMsg "totalComponents:3";
     tea.stringMsg "complete"] in
  exists m w m1 c,
    feed (recordWith ["a"%string]) announce (tui.InitModel true "")
         (tui.mkWorld false []) = Ret (m, w) /\
    tui.resetProgress w = true /\
    tui.GetDeployedPackage (recordWith []) "podinfo"
      = Ret (Some (tui.Build_DeployedPackage "podinfo" [])) /\
    tui.Update (recordWith []) m w tea.tickMsg = Ret (m1, w, c) /\
    tea.hasQuit c = false /\
    progress.Percent <$> currentBar m1 = Some F64.one /\
    F64.eqb F64.one F64.zero = false.
Proof.
  cbn zeta. eexists _, _, _, _.
  split; [vm_compute; reflexivity|].
  repeat split; vm_compute; reflexivity.
Qed.

(** C3, amended: a [package:<name>] message for a package whose record
    shows a deployed component sets the reset flag; from then on every
    tick that polls the deployed state sets the bar to 0%; the flag stays
    set while the record shows no component, and the first tick at which
    the record shows at least one component (still setting 0%) clears it.
    A tick taken before the component total of the package is known
    changes neither the bars nor the flag.  A tick that finds the package
    flagged complete does not poll: it sets the bar to 100% and leaves the
    flag as it is. *)
Theorem reset_holds_progress_at_zero :
  (forall (k : tui.Cluster) (m : tui.Model) (w : tui.World)
          (msg pkgName : string) (rest : list string) (d : tui.DeployedPackage),
      tui.fatalChan w = [] ->
      Split msg ":" = "package"%string :: pkgName :: rest ->
      tui.GetDeployedPackage k pkgName = Ret (Some d) ->
      tui.DeployedComponents d <> [] ->
      tui.Update k m w (tea.stringMsg msg) =
        Ret (tui.with_pkgNames m (tui.pkgNames m ++ [pkgName]),
             tui.with_resetProgress w true, tea.Batch [])) /\
  (forall (ks : list tui.Cluster) (k1 : tui.Cluster) (m : tui.Model)
          (w : tui.World) (name : string) (total : Z),
      tui.fatalChan w = [] ->
      tui.resetProgress w = true ->
      polls m name total ->
      Forall (fun k => exists rec, tui.GetDeployedPackage k name = Ret rec /\
                                   shownComponents rec < 1) ks ->
      (exists rec, tui.GetDeployedPackage k1 name = Ret rec /\
                   1 <= shownComponents rec) ->
      exists m1 bars m2 c,
        ticks ks m w = Ret (m1, w, bars) /\
        length bars = length ks /\
        Forall atZero bars /\
        tui.Update k1 m1 w tea.tickMsg =
          Ret (m2, tui.with_resetProgress w false, c) /\
        atZero (currentBar m2)) /\
  (forall (k : tui.Cluster) (m : tui.Model) (w : tui.World),
      tui.fatalChan w = [] ->
      0 <= tui.pkgIdx m ->
      tui.complete m !! Z.to_nat (tui.pkgIdx m) <> Some true ->
      tui.totalComponentsPerPkg m !! Z.to_nat (tui.pkgIdx m) = None ->
      is_Some (tui.spinners m !! Z.to_nat (tui.pkgIdx m)) ->
      exists m' c,
        tui.Update k m w tea.tickMsg = Ret (m', w, c) /\
        tui.progressBars m' = tui.progressBars m) /\
  (forall (k : tui.Cluster) (m m' : tui.Model) (w w' : tui.World) (c : tea.Cmd),
      tui.fatalChan w = [] ->
      0 <= tui.pkgIdx m ->
      tui.complete m !! Z.to_nat (tui.pkgIdx m) = Some true ->
      tui.Update k m w tea.tickMsg = Ret (m', w', c) ->
      progress.Percent <$> currentBar m' = Some F64.one /\ w' = w).
Proof.
  split; [|split; [|split]]; [| | |exact tick_complete_fills].
  - intros k m w msg pkgName rest d Hf Hs Hrec Hne.
    unfold tui.Update. rewrite Hf. unfold tui.updateString. rewrite Hs.
    change (index ("package"%string :: pkgName :: rest) 0)
      with (Ret "package"%string).
    change (index ("package"%string :: pkgName :: rest) 1) with (Ret pkgName).
    cbn [mbind result_bind]. change (String.eqb "package" "package") with true.
    cbn match. rewrite Hrec. cbn [mbind result_bind].
    destruct (tui.DeployedComponents d) as [|c cs] eqn:Hd; [done|].
    reflexivity.
  - intros ks k1 m w name total Hf Hr Hp Hks (rec & Hrec & Hge).
    destruct (ticks_held ks m w name total Hf Hr Hp Hks)
      as (m1 & bars & Hrun & Hp1 & Hlen & Hall).
    destruct (tick_reset k1 m1 w name total Hf Hp1 rec Hr Hrec)
      as (m2 & Hupd & _ & Hz).
    destruct (Z.geb_spec (shownComponents rec) 1) as [_|?]; [|lia].
    eexists m1, bars, m2, _. repeat (split; [eassumption|]). done.
  - intros k m w Hf Hi Hc Ht Hs.
    destruct (tick_idle k m w Hf Hi Hc) as (m' & Hupd & Hbars); [|done|].
    + intros total Hl. congruence.
    + eexists m', _. split; [exact Hupd|exact Hbars].
Qed.

(** C2, amended: for a package with [total > 0] components whose record
    shows [k >= 1] deployed components, a polling tick with the reset
    flag clear sets the bar to [k/total] (as [SetPercent] keeps it, that
    is capped at 1); with the reset flag set (the package was found
    deployed at its package message) the first tick sets 0% and clears
    the flag, and the next tick sets [k/total]. *)
Theorem resume_percentage
        (k : tui.Cluster) (m : tui.Model) (w : tui.World)
        (name : string) (total : Z) (d : tui.DeployedPackage) :
  tui.fatalChan w = [] ->
  polls m name total ->
  tui.GetDeployedPackage k name = Ret (Some d) ->
  1 <= len (tui.DeployedComponents d) ->
  let share := clamp (F64.div (F64.of_int (len (tui.DeployedComponents d)))
                              (F64.of_int total)) in
  exists m1 w1 c1 m2 c2,
    tui.Update k m w tea.tickMsg = Ret (m1, w1, c1) /\
    tui.resetProgress w1 = false /\
    progress.Percent <$> currentBar m1 =
      Some (if tui.resetProgress w then F64.zero else share) /\
    tui.Update k m1 w1 tea.tickMsg = Ret (m2, w1, c2) /\
    progress.Percent <$> currentBar m2 = Some share.
Proof.
  intros Hf Hp Hrec Hk share.
  destruct (tui.resetProgress w) eqn:Hr.
  - destruct (tick_reset k m w name total Hf Hp (Some d) Hr Hrec)
      as (m1 & Hupd & Hp1 & Hz).
    cbn [shownComponents] in Hupd.
    destruct (Z.geb_spec (len (tui.DeployedComponents d)) 1) as [_|?]; [|lia].
    destruct (tick_resume k m1 (tui.with_resetProgress w false) name total
                Hf Hp1 d)
      as (m2 & Hupd2 & _ & Hbar); [done..|].
    eexists m1, _, _, m2, _.
    split; [eassumption|]. split; [first [reflexivity|exact Hr]|].
    split; [done|].
    split; [eassumption|done].
  - destruct (tick_resume k m w name total Hf Hp d Hr Hrec)
      as (m1 & Hupd & Hp1 & Hbar).
    destruct (tick_resume k m1 w name total Hf Hp1 d Hr Hrec)
      as (m2 & Hupd2 & _ & Hbar2).
    eexists m1, _, _, m2, _.
    split; [eassumption|]. split; [first [reflexivity|exact Hr]|].
    split; [done|].
    split; [eassumption|done].
Qed.

Lemma podinfoModel_reached (components : list string) :
  feed (recordWith components) announcePodinfo (tui.InitModel true "")
       (tui.mkWorld false [])
  = Ret (podinfoModel, tui.mkWorld (negb (len components =? 0)) []).
Proof. cbn. by destruct components. Qed.

Lemma podinfoModel_polls : polls podinfoModel "podinfo" 3.
Proof.
  constructor; cbn; [zcmp|discriminate|reflexivity|zcmp|reflexivity|eauto|eauto].
Defined.

(** C2, as stated, fails: [podinfo] has 3 components and its record shows
    all 3 of them deployed, when the package is announced and at the first
    tick; the first percentage set is 0 and not 3/3. *)
Lemma first_tick_of_deployed_package_sets_zero :
  let k := recordWith ["a"; "b"; "c"]%string in
  exists m w m1 w1 c,
    feed k announcePodinfo (tui.InitModel true "") (tui.mkWorld false [])
      = Ret (m, w) /\
    tui.resetProgress w = true /\
    tui.Update k m w tea.tickMsg = Ret (m1, w1, c) /\
    progress.Percent <$> currentBar m1 = Some F64.zero /\
    F64.div (F64.of_int 3) (F64.of_int 3) = F64.one /\
    F64.eqb F64.zero (F64.div (F64.of_int 3) (F64.of_int 3)) = false.
Proof.
  cbn zeta. eexists _, _, _, _, _.
  split; [apply podinfoModel_reached|].
  split; [reflexivity|]. split; [vm_compute; reflexivity|].
  repeat split; vm_compute; reflexivity.
Qed.

Lemma resume_percentage_witness :
  let k := recordWith ["a"; "b"]%string in
  exists m1 w1 c1 m2 c2,
    tui.Update k podinfoModel (tui.mkWorld true []) tea.tickMsg = Ret (m1, w1, c1) /\
    tui.resetProgress w1 = false /\
    progress.Percent <$> currentBar m1 = Some F64.zero /\
    tui.Update k m1 w1 tea.tickMsg = Ret (m2, w1, c2) /\
    progress.Percent <$> currentBar m2 =
      Some (clamp (F64.div (F64.of_int 2) (F64.of_int 3))).
Proof.
  apply (resume_percentage (recordWith ["a"; "b"]%string) podinfoModel
           (tui.mkWorld true []) "podinfo" 3
           (tui.Build_DeployedPackage "podinfo" ["a"; "b"]%string));
    [reflexivity|exact podinfoModel_polls|reflexivity|zcmp].
Defined.

Lemma reset_holds_progress_at_zero_witness :
  tui.Update (recordWith ["a"%string]) (tui.InitModel true "")
             (tui.mkWorld false []) (tea.stringMsg "package:podinfo")
    = Ret (tui.with_pkgNames (tui.InitModel true "") ["podinfo"%string],
           tui.mkWorld true [], tea.Batch []) /\
  exists m1 bars m2 c,
    ticks [recordWith []; fun _ => tui.SecretErr] podinfoModel (tui.mkWorld true [])
      = Ret (m1, tui.mkWorld true [], bars) /\
    length bars = 2%nat /\
    Forall atZero bars /\
    tui.Update (recordWith ["a"%string]) m1 (tui.mkWorld true []) tea.tickMsg
      = Ret (m2, tui.mkWorld false [], c) /\
    atZero (currentBar m2) /\
    exists m3 c3,
      tui.Update (recordWith [])
                 (tui.with_totalPkgs (tui.with_complete podinfoModel [true]) 2)
                 (tui.mkWorld true []) tea.tickMsg
        = Ret (m3, tui.mkWorld true [], c3) /\
      progress.Percent <$> currentBar m3 = Some F64.one.
Proof.
  split.
  - apply (proj1 reset_holds_progress_at_zero (recordWith ["a"%string])
             (tui.InitModel true "") (tui.mkWorld false []) "package:podinfo"
             "podinfo" [] (tui.Build_DeployedPackage "podinfo" ["a"%string]));
      [reflexivity|reflexivity|reflexivity|discriminate].
  - assert (Forall (fun k => exists rec,
                      tui.GetDeployedPackage k "podinfo" = Ret rec /\
                      shownComponents rec < 1)
                   [recordWith []; fun _ => tui.SecretErr]) as Hks.
    { repeat constructor.
      - exists (Some (tui.Build_DeployedPackage "podinfo" [])).
        split; [reflexivity|zcmp].
      - exists None. split; [reflexivity|zcmp]. }
    assert (exists rec,
              tui.GetDeployedPackage (recordWith ["a"%string]) "podinfo" = Ret rec /\
              1 <= shownComponents rec) as Hk1.
    { exists (Some (tui.Build_DeployedPackage "podinfo" ["a"%string])).
      split; [reflexivity|zcmp]. }
    destruct (proj1 (proj2 reset_holds_progress_at_zero)
                [recordWith []; fun _ => tui.SecretErr] (recordWith ["a"%string])
                podinfoModel (tui.mkWorld true []) "podinfo" 3
                eq_refl eq_refl podinfoModel_polls Hks Hk1)
      as (m1 & bars & m2 & c & H1 & H2 & H3 & H4 & H5).
    exists m1, bars, m2, c. repeat (split; [assumption|]).
    destruct (tui.Update (recordWith [])
                (tui.with_totalPkgs (tui.with_complete podinfoModel [true]) 2)
                (tui.mkWorld true []) tea.tickMsg)
      as [[[m3 w3] c3]|] eqn:E; [|vm_compute in E; discriminate].
    destruct (proj2 (proj2 (proj2 reset_holds_progress_at_zero))
                (recordWith [])
                (tui.with_totalPkgs (tui.with_complete podinfoModel [true]) 2)
                m3 (tui.mkWorld true []) w3 c3
                eq_refl ltac:(zcmp) eq_refl E) as [Hbar ->].
    by exists m3, c3.
Defined.

Lemma last_package_complete_notifies_all_witness :
  let m := tui.with_complete podinfoModel [true] in
  exists m',
    tui.Update (fun _ => tui.SecretErr) m (tui.mkWorld false []) tea.tickMsg =
      Ret (m', tui.mkWorld false [],
           tea.Sequence
             [tea.nextFrame; tea.spinnerTick; tea.tickCmd; separator;
              deployedNotification "podinfo"; tea.Quit]) /\
    tui.done m' = true.
Proof.
  destruct (last_package_complete_notifies_all (fun _ => tui.SecretErr)
              (tui.with_complete podinfoModel [true]) (tui.mkWorld false []))
    as (m' & Hupd & Hdone & _);
    [reflexivity|reflexivity|zcmp|reflexivity|cbn; eauto|cbn; eauto
    |zcmp|].
  exists m'. split; [exact Hupd|exact Hdone].
Defined.

(** ** The view in the run loop *)

Lemma deployLoop_panics (R : view.Renderer) (m : tui.Model)
      (bars : list progress.Model) (i : nat) (v : string) :
  panics (view.deployLoop R m i bars v) = true <->
  bars <> [] /\
  ((length (tui.spinners m) < i + length bars)%nat \/
   (length (tui.pkgNames m) < i + length bars)%nat).
Proof.
  revert i v. induction bars as [|b bars IH]; intros i v.
  - cbn. split; [discriminate|]. by intros [? _].
  - cbn [view.deployLoop length]. unfold view.deployBox.
    destruct (decide (i < length (tui.spinners m))%nat) as [Hs|Hs].
    2:{ rewrite (index_short (tui.spinners m)) by (unfold len; lia). cbn.
        split; [intros _; split; [done|lia]|done]. }
    destruct (lookup_lt_is_Some_2 _ _ Hs) as [s Hl].
    rewrite (index_lookup (tui.spinners m) _ s) by (rewrite ?Nat2Z.id; done || lia).
    cbn [mbind result_bind].
    destruct (decide (i < length (tui.pkgNames m))%nat) as [Hn|Hn].
    2:{ rewrite (index_short (tui.pkgNames m)) by (unfold len; lia). cbn.
        split; [intros _; split; [done|lia]|done]. }
    destruct (lookup_lt_is_Some_2 _ _ Hn) as [name Hl'].
    rewrite (index_lookup (tui.pkgNames m) _ name) by (rewrite ?Nat2Z.id; done || lia).
    cbn [mbind result_bind].
    assert (exists c, (if len (tui.complete m) >? Z.of_nat i
                       then index (tui.complete m) (Z.of_nat i) else Ret false)
                      = Ret c) as [c ->].
    { destruct (Z.gtb_spec (len (tui.complete m)) (Z.of_nat i)); [|by eexists].
      destruct (lookup_lt_is_Some_2 (tui.complete m) i) as [c Hc];
        [unfold len in *; lia|].
      exists c. apply index_lookup; [lia|by rewrite Nat2Z.id]. }
    cbn [mbind result_bind]. rewrite IH.
    split.
    + intros [Hne H]. split; [done|lia].
    + intros [_ H]. destruct bars as [|b' bars'].
      * cbn in H. lia.
      * split; [done|]. cbn [length] in *. lia.
Qed.


(** Whether [View] panics does not depend on the layout functions. *)
Lemma render_any_renderer (R : view.Renderer) (m : tui.Model) :
  panics (view.View R m) = panics (cmd.render m).
Proof.
  unfold cmd.render, view.View, view.deployView.
  destruct (tui.done m); [done|]. destruct (tui.confirmed m); [|done].
  pose proof (deployLoop_panics R m (tui.progressBars m) 0 "") as H1.
  pose proof (deployLoop_panics plainRenderer m (tui.progressBars m) 0 "") as H2.
  destruct (view.deployLoop R m 0 (tui.progressBars m) "") as [v|p],
           (view.deployLoop plainRenderer m 0 (tui.progressBars m) "") as [v'|p'];
    cbn in *; try done.
  - apply H1, H2. done.
  - symmetry. apply H2, H1. done.
Qed.



(** ** Failure of the deployment *)










(** ** The package source: verification events *)

Lemma count_S (n : nat) : F64.count (S n) = F64.add (F64.count n) F64.one.
Proof. reflexivity. Qed.

(** Counting layers in float64 is exact on small numbers. *)
Lemma count_small :
  F64.count 1 = F64.of_int 1 /\ F64.count 2 = F64.of_int 2 /\
  F64.count 3 = F64.of_int 3 /\ F64.count 100 = F64.of_int 100.
Proof. repeat split; vm_compute; reflexivity. Qed.

Lemma isVerifying_verifying (n : nat) (total : Z) :
  isVerifying (verifying n total) = true.
Proof. reflexivity. Qed.

(** The verification loop of one download. *)
Section VerifyLoop.

Variables (e : sources.Env) (r : sources.RemoteBundle) (total : Z).

Lemma verifyingEvents_cons (from : nat)
      (l : sources.Descriptor) (layers : list sources.Descriptor) :
  verifyingEvents e total from (l :: layers) =
    (if present e l then [verifying (S from) total] else [])
      ++ verifyingEvents e total (S from) layers.
Proof.
  unfold verifyingEvents. rewrite imap_cons. cbn [mjoin list_join].
  replace (from + 1)%nat with (S from) by lia. f_equal. f_equal.
  apply imap_ext. intros i x _. cbn. by replace (from + S (S i))%nat
    with (S from + S i)%nat by lia.
Qed.

(** The loop, when no existence check and no use of the cache fails. *)
Lemma verifyLayers_ok
      (layers : list sources.Descriptor) (st st' : sources.Loop) (from : nat) :
  sources.numLayersVerified st = F64.count from ->
  sources.verifyLayers e r total layers st = (st', None) ->
  List.filter isVerifying (sources.sent st') =
    List.filter isVerifying (sources.sent st) ++ verifyingEvents e total from layers /\
  sources.layersInBundle st' =
    sources.layersInBundle st ++ List.filter (present e) layers.
Proof.
  revert st from. induction layers as [|l layers IH]; intros st from Hn.
  - cbn. intros [= <-]. by rewrite !app_nil_r.
  - cbn [sources.verifyLayers]. rewrite verifyingEvents_cons. cbn [List.filter].
    assert (present e l = fst (sources.BlobExists e l)) as -> by done.
    destruct (sources.BlobExists e l) as [ok [err|]]; [discriminate|].
    cbn [fst]. rewrite Hn, <- count_S.
    change (sources.Send ("verifying:" +:+ _)) with (verifying (S from) total).
    destruct ok.
    + destruct (Contains _ _ && sources.cacheExists e _).
      * destruct (sources.cacheUse e _); [discriminate|].
        intros H. apply (IH _ (S from)) in H; [|done].
        cbn [sources.sent sources.layersInBundle] in H.
        destruct H as [H1 H2]. rewrite H1, H2.
        rewrite !List.filter_app. cbn [List.filter].
        rewrite isVerifying_verifying. cbn [isVerifying].
        rewrite !app_nil_r, <- !app_assoc. done.
      * intros H. apply (IH _ (S from)) in H; [|done].
        cbn [sources.sent sources.layersInBundle] in H.
        destruct H as [H1 H2]. rewrite H1, H2.
        rewrite !List.filter_app. cbn [List.filter].
        rewrite isVerifying_verifying. rewrite <- !app_assoc. done.
    + intros H. apply (IH _ (S from)) in H; [|done].
      cbn [sources.sent sources.layersInBundle] in H.
      destruct H as [H1 H2]. by rewrite H1, H2.
Qed.


End VerifyLoop.





(** ** The package source: order of the steps and the partial flag *)

Lemma verifyLayers_quiet (e : sources.Env) (r : sources.RemoteBundle) (total : Z)
      (layers : list sources.Descriptor) (st : sources.Loop) :
  forallb quiet (sources.sent st) = true ->
  forallb quiet (sources.sent (fst (sources.verifyLayers e r total layers st))) = true.
Proof.
  revert st. induction layers as [|l layers IH]; intros st Hq; [done|].
  cbn [sources.verifyLayers].
  destruct (sources.BlobExists e l) as [ok [err|]]; [done|].
  destruct ok; [|by apply IH].
  destruct (Contains _ _ && sources.cacheExists e _).
  - destruct (sources.cacheUse e _).
    + cbn [fst sources.sent]. rewrite !forallb_app, Hq. done.
    + apply IH. cbn [sources.sent]. rewrite !forallb_app, Hq. done.
  - apply IH. cbn [sources.sent]. rewrite !forallb_app, Hq. done.
Qed.

Lemma postCopy_quiet (est got : Z) (copied : list sources.Descriptor) :
  forallb quiet (sources.postCopy est got copied) = true.
Proof.
  revert got. induction copied as [|d copied IH]; intros got; [done|].
  cbn [sources.postCopy forallb]. by rewrite IH.
Qed.

Lemma download_quiet (e : sources.Env) (r : sources.RemoteBundle) :
  forallb quiet (sources.told (sources.downloadPkgFromRemoteBundle e r)) = true.
Proof.
  unfold sources.downloadPkgFromRemoteBundle.
  destruct (sources.FetchRoot e) as [rootLayers [err|]]; [done|].
  destruct (sources.Locate _ _) as [desc|]; [|done].
  destruct (sources.FetchManifest e _) as [[pkgLayers|] [err|]]; try done.
  pose proof (verifyLayers_quiet e r (len pkgLayers) pkgLayers
                (sources.mkLoop 0
                   [sources.with_MediaType desc sources.ZarfLayerMediaTypeBlob]
                   [sources.with_MediaType desc sources.ZarfLayerMediaTypeBlob]
                   F64.zero []) eq_refl) as Hq.
  destruct (sources.verifyLayers _ _ _ _ _) as [st [err|]]; [exact Hq|].
  cbn [fst] in Hq.
  destruct (sources.fileNew e); [exact Hq|].
  destruct (sources.orasCopy e _) as [copied [err|]]; cbn [sources.told];
    by rewrite forallb_app, Hq, postCopy_quiet.
Qed.

Lemma unarchiveComponents_quiet (e : sources.Env) (components : list string) :
  forallb quiet (fst (sources.unarchiveComponents e components)) = true.
Proof.
  induction components as [|c cs IH]; [done|].
  cbn [sources.unarchiveComponents].
  destruct (sources.unarchive e c); [| |done].
  - by destruct (sources.unarchiveComponents e cs).
  - destruct (sources.create e c); [done|].
    by destruct (sources.unarchiveComponents e cs).
Qed.

(** [LoadPackage] tells what the download told, and then goes through its
    stages in one fixed order. *)
Lemma LoadPackage_told (e : sources.Env) (r : sources.RemoteBundle)
      (filter : sources.ZarfPackage -> list string * option sources.error)
      (unarchiveAll : bool) :
  let dl := sources.downloadPkgFromRemoteBundle e r in
  exists stage,
    sources.told (sources.LoadPackage e r filter unarchiveAll)
      = sources.told dl ++ stage /\
    loadStages (sources.isPartial (sources.receiver dl)) stage.
Proof.
  cbn zeta. unfold sources.LoadPackage, loadStages.
  destruct (sources.err _) as [err|].
  { exists []. rewrite app_nil_r. auto. }
  destruct (sources.readYaml e) as [pkg [err|]].
  { exists [sources.ReadYaml]. auto. }
  destruct (filter pkg) as [components [err|]].
  { exists [sources.ReadYaml; sources.FilterApply].
    cbn [sources.told]. rewrite <- app_assoc. auto. }
  cbn [sources.AggregateChecksum sources.Components].
  pose proof (unarchiveComponents_quiet e components) as Hq.
  destruct (sources.validatePackageIntegrity e _ _ _);
    [|destruct unarchiveAll;
      [destruct (sources.unarchiveComponents e components) as [ev [err|]];
       [|destruct (negb (String.eqb (sources.SBOMsPath e) ""));
            [destruct (sources.unarchiveSBOMs e)|]]|]];
    cbn [sources.told fst] in *; rewrite <- ?app_assoc; cbn [app];
    eexists; (split; [reflexivity|]); do 3 right;
    eexists _, _, _, _; (split; [reflexivity|]);
    rewrite ?forallb_app, ?Hq; reflexivity.
Qed.

Lemma quiet_no_validate (l : list sources.Event) :
  forallb quiet l = true -> existsb isValidate l = false.
Proof.
  induction l as [|[] l IH]; cbn; try done; intros H; by apply IH.
Qed.

Lemma quiet_no_filter (l : list sources.Event) :
  forallb quiet l = true -> existsb isFilterApply l = false.
Proof.
  induction l as [|[] l IH]; cbn; try done; intros H; by apply IH.
Qed.

Lemma beforeb_quiet_app (p q : sources.Event -> bool) (l1 l2 : list sources.Event) :
  existsb p l1 = false ->
  beforeb p q (l1 ++ l2) = beforeb p q l2.
Proof.
  induction l1 as [|ev l1 IH]; [done|]. cbn [existsb app beforeb].
  intros [-> H]%orb_false_elim. by rewrite IH.
Qed.

Lemma beforeb_none (p q : sources.Event -> bool) (l : list sources.Event) :
  existsb p l = false -> beforeb p q l = false.
Proof.
  induction l as [|ev l IH]; [done|]. cbn [existsb beforeb].
  intros [-> H]%orb_false_elim. by rewrite IH.
Qed.

(** C5, as stated, fails: in a run of [LoadPackage] that succeeds, the
    component filter is applied first and the aggregate checksum is
    validated afterwards; no validation comes before the filter. *)
Lemma filter_applied_before_validation_example :
  let run := sources.LoadPackage exampleEnv exampleBundle keepAll false in
  sources.err run = None /\
  List.filter (fun ev => negb (hasSend ev)) (sources.told run) =
    [sources.ReadYaml; sources.FilterApply;
     sources.SetFromLayers
       [sources.with_MediaType manifestDesc sources.ZarfLayerMediaTypeBlob;
        layerA; layerC];
     sources.ValidatePackageIntegrity "abcd" true] /\
  beforeb isValidate isFilterApply (sources.told run) = false /\
  beforeb isFilterApply isValidate (sources.told run) = true.
Proof. vm_compute. repeat split. Qed.

(** C5, amended: in every run of [LoadPackage] the aggregate-checksum
    validation never comes before the application of the component
    filter; whenever the validation is performed the filter was applied
    before it; when the download, the reading of the package definition
    and the filter succeed the validation is performed; and when the
    filter fails the validation is not performed, and the error of the
    filter is what [LoadPackage] returns. *)
Theorem filter_precedes_validation
        (e : sources.Env) (r : sources.RemoteBundle)
        (filter : sources.ZarfPackage -> list string * option sources.error)
        (unarchiveAll : bool) :
  let run := sources.LoadPackage e r filter unarchiveAll in
  beforeb isValidate isFilterApply (sources.told run) = false /\
  (existsb isValidate (sources.told run) = true ->
     beforeb isFilterApply isValidate (sources.told run) = true) /\
  (forall pkg components,
     sources.err (sources.downloadPkgFromRemoteBundle e r) = None ->
     sources.readYaml e = (pkg, None) ->
     filter pkg = (components, None) ->
     existsb isValidate (sources.told run) = true) /\
  (forall pkg components ferr,
     sources.readYaml e = (pkg, None) ->
     filter pkg = (components, Some ferr) ->
     existsb isValidate (sources.told run) = false /\
     (sources.err (sources.downloadPkgFromRemoteBundle e r) = None ->
      sources.err run = Some ferr /\
      existsb isFilterApply (sources.told run) = true)).
Proof.
  cbn zeta.
  destruct (LoadPackage_told e r filter unarchiveAll) as (stage & Htold & Hstage).
  pose proof (download_quiet e r) as Hq.
  pose proof (quiet_no_validate _ Hq) as Hnv.
  pose proof (quiet_no_filter _ Hq) as Hnf.
  split; [|split; [|split]].
  - rewrite Htold, (beforeb_quiet_app _ _ _ _ Hnv).
    destruct Hstage as [->|[->|[->|(msg & ls & cs & post & -> & Hpost)]]];
      try reflexivity.
    cbn. rewrite (quiet_no_filter _ Hpost).
    by rewrite (beforeb_none _ _ _ (quiet_no_validate _ Hpost)).
  - rewrite Htold, existsb_app, Hnv, (beforeb_quiet_app _ _ _ _ Hnf).
    destruct Hstage as [->|[->|[->|(msg & ls & cs & post & -> & Hpost)]]];
      try discriminate.
    reflexivity.
  - intros pkg components Hdl Hread Hfilter. clear Htold Hstage.
    unfold sources.LoadPackage. rewrite Hdl, Hread, Hfilter.
    cbn [sources.AggregateChecksum sources.Components].
    destruct (sources.validatePackageIntegrity e _ _ _);
      [|destruct unarchiveAll;
        [destruct (sources.unarchiveComponents e components) as [ev [err|]];
         [|destruct (negb (String.eqb (sources.SBOMsPath e) ""));
            [destruct (sources.unarchiveSBOMs e)|]]|]];
      cbn [sources.told]; rewrite !existsb_app; cbn;
      rewrite ?orb_true_r; reflexivity.
  - intros pkg components ferr Hread Hfilter. clear Htold Hstage.
    unfold sources.LoadPackage. rewrite Hread, Hfilter.
    destruct (sources.err (sources.downloadPkgFromRemoteBundle e r)) as [err|].
    + cbn [sources.told]. split; [exact Hnv|discriminate].
    + cbn [sources.told sources.err]. rewrite !existsb_app, Hnv, Hnf. cbn.
      split; [reflexivity|]. intros _. split; reflexivity.
Qed.

Lemma filter_precedes_validation_witness :
  let run := sources.LoadPackage exampleEnv exampleBundle keepAll true in
  let rejected := sources.LoadPackage exampleEnv exampleBundle rejectAll true in
  beforeb isValidate isFilterApply (sources.told run) = false /\
  beforeb isFilterApply isValidate (sources.told run) = true /\
  existsb isValidate (sources.told rejected) = false /\
  sources.err rejected = Some "no compatible components"%string.
Proof.
  destruct (filter_precedes_validation exampleEnv exampleBundle keepAll true)
    as (H1 & H2 & H3 & _).
  destruct (filter_precedes_validation exampleEnv exampleBundle rejectAll true)
    as (_ & _ & _ & H4).
  destruct (H4 podinfoPackage [] "no compatible components"%string eq_refl eq_refl)
    as [H5 H6].
  split; [exact H1|]. split.
  - apply H2. apply (H3 podinfoPackage ["first"; "second"]%string); reflexivity.
  - split; [exact H5|]. apply H6. reflexivity.
Defined.

Lemma filter_length_le {A} (p : A -> bool) (l : list A) :
  (length (List.filter p l) <= length l)%nat.
Proof. induction l as [|a l IH]; cbn; [lia|]. destruct (p a); cbn; lia. Qed.

Lemma validate_in_stage (ip ip' : bool) (checksum : string)
      (pre stage : list sources.Event) :
  forallb quiet pre = true ->
  loadStages ip stage ->
  sources.ValidatePackageIntegrity checksum ip' ∈ pre ++ stage ->
  ip' = ip.
Proof.
  intros Hpre Hstage [Hin|Hin]%elem_of_app.
  - apply quiet_no_validate in Hpre.
    assert (existsb isValidate pre = true) as Hex; [|congruence].
    apply existsb_exists. exists (sources.ValidatePackageIntegrity checksum ip').
    split; [by apply list_elem_of_In|done].
  - destruct Hstage as [->|[->|[->|(msg & ls & cs & post & -> & Hpost)]]].
    + by apply elem_of_nil in Hin.
    + apply list_elem_of_singleton in Hin. discriminate.
    + apply elem_of_cons in Hin as [?|Hin]; [discriminate|].
      apply list_elem_of_singleton in Hin. discriminate.
    + do 4 (apply elem_of_cons in Hin as [?|Hin]; [discriminate|]).
      apply elem_of_cons in Hin as [[= _ ->]|Hin]; [done|].
      apply quiet_no_validate in Hpost.
      assert (existsb isValidate post = true) as Hex; [|congruence].
      apply existsb_exists. exists (sources.ValidatePackageIntegrity checksum ip').
      split; [by apply list_elem_of_In|done].
Qed.

Lemma sameDescriptor_refl (l : sources.Descriptor) : sameDescriptor l l = true.
Proof.
  unfold sameDescriptor. by rewrite !String.eqb_refl, Z.eqb_refl.
Qed.

Lemma retrieved_elem (loaded : list sources.Descriptor) (l : sources.Descriptor) :
  l ∈ loaded -> retrieved loaded l = true.
Proof.
  intros Hin. apply existsb_exists. exists l.
  split; [by apply list_elem_of_In|apply sameDescriptor_refl].
Qed.

(** The download does not consult the validation. *)
Lemma verifyLayers_withValidation (e : sources.Env)
      (validate : list sources.Descriptor -> string -> bool -> option sources.error)
      (r : sources.RemoteBundle) (total : Z)
      (layers : list sources.Descriptor) (st : sources.Loop) :
  sources.verifyLayers (withValidation e validate) r total layers st
    = sources.verifyLayers e r total layers st.
Proof.
  revert st. induction layers as [|l layers IH]; intros st; [done|].
  cbn [sources.verifyLayers withValidation sources.BlobExists sources.BlobsDir
       sources.cacheExists sources.cacheUse].
  destruct (sources.BlobExists e l) as [ok [err|]]; [done|].
  destruct ok; [|apply IH].
  destruct (Contains _ _ && sources.cacheExists e _); [|apply IH].
  destruct (sources.cacheUse e _); [done|apply IH].
Qed.

Lemma download_withValidation (e : sources.Env)
      (validate : list sources.Descriptor -> string -> bool -> option sources.error)
      (r : sources.RemoteBundle) :
  sources.downloadPkgFromRemoteBundle (withValidation e validate) r
    = sources.downloadPkgFromRemoteBundle e r.
Proof.
  unfold sources.downloadPkgFromRemoteBundle.
  cbn [withValidation sources.FetchRoot sources.FetchManifest sources.fileNew
       sources.orasCopy].
  destruct (sources.FetchRoot e) as [rootLayers [err|]]; [done|].
  destruct (sources.Locate _ _); [|done].
  destruct (sources.FetchManifest e _) as [[pkgLayers|] [err|]]; try done.
  by rewrite verifyLayers_withValidation.
Qed.

(** What a download that gets through the copy step returns, and the
    flag it leaves. *)
Lemma download_value_flag (e : sources.Env) (r : sources.RemoteBundle)
      (rootLayers pkgLayers : list sources.Descriptor) (desc : sources.Descriptor) :
  sources.FetchRoot e = (rootLayers, None) ->
  sources.Locate rootLayers (sources.PkgManifestSHA r) = Some desc ->
  sources.FetchManifest e (sources.with_MediaType desc sources.ZarfLayerMediaTypeBlob)
    = (Some pkgLayers, None) ->
  sources.err (sources.downloadPkgFromRemoteBundle e r) = None ->
  let dl := sources.downloadPkgFromRemoteBundle e r in
  sources.value dl =
    sources.with_MediaType desc sources.ZarfLayerMediaTypeBlob
      :: List.filter (present e) pkgLayers /\
  sources.isPartial (sources.receiver dl) =
    sources.isPartial r || negb (len pkgLayers =? len (sources.value dl) - 1).
Proof.
  intros Hroot Hloc Hman Herr dl. subst dl. revert Herr.
  unfold sources.downloadPkgFromRemoteBundle. rewrite Hroot, Hloc, Hman.
  destruct (sources.verifyLayers _ _ _ _ _) as [st [err|]] eqn:Hloop;
    [discriminate|].
  apply (verifyLayers_ok _ _ _ _ _ _ 0%nat) in Hloop as [_ Hin]; [|done].
  cbn [sources.layersInBundle app] in Hin.
  destruct (sources.fileNew e); [discriminate|].
  destruct (sources.orasCopy e _) as [copied [err|]]; [discriminate|].
  intros _. cbn [sources.value sources.receiver]. split; [done|].
  destruct (len pkgLayers =? _); cbn; [by rewrite orb_false_r|by rewrite orb_true_r].
Qed.

(** Fewer layers than declared were found exactly when a declared layer
    is missing from the remote. *)
Lemma fewer_iff_missing (e : sources.Env) (pkgLayers : list sources.Descriptor) :
  length (List.filter (present e) pkgLayers) <> length pkgLayers <->
  exists l, l ∈ pkgLayers /\ present e l = false.
Proof.
  induction pkgLayers as [|l ls IH]; cbn [List.filter length].
  - split; [done|]. intros (l & []%elem_of_nil & _).
  - pose proof (filter_length_le (present e) ls).
    destruct (present e l) eqn:Hp; cbn [length].
    + split.
      * intros H'. destruct (proj1 IH) as (l' & Hin & Hl'); [lia|].
        exists l'. split; [by right|done].
      * intros (l' & [->|Hin]%elem_of_cons & Hl'); [congruence|].
        assert (length (List.filter (present e) ls) <> length ls)
          by (apply IH; eauto). lia.
    + split; [|lia]. intros _. exists l. split; [by left|done].
Qed.

(** C4, as stated, fails: a source that is already marked partial stays
    marked partial after a download that found every declared layer; the
    flag is set, never cleared. *)
Lemma partial_source_stays_partial :
  let e := withBlobExists exampleEnv (fun _ => (true, None)) in
  let r := sources.with_isPartial exampleBundle true in
  let dl := sources.downloadPkgFromRemoteBundle e r in
  sources.err dl = None /\
  sources.value dl =
    [sources.with_MediaType manifestDesc sources.ZarfLayerMediaTypeBlob;
     layerA; layerB; layerC] /\
  sources.isPartial (sources.receiver dl) = true /\
  ~ (sources.isPartial (sources.receiver dl) = true <->
     len (sources.value dl) < 1 + len [layerA; layerB; layerC]).
Proof.
  cbn zeta. split; [vm_compute; reflexivity|].
  split; [vm_compute; reflexivity|]. split; [vm_compute; reflexivity|].
  intros [H _]. specialize (H ltac:(vm_compute; reflexivity)).
  vm_compute in H. discriminate.
Qed.

(** C4, amended: when [downloadPkgFromRemoteBundle] gets through the copy
    step it returns the manifest layer followed by the layers found
    present in the remote; it marks the package partial when these are
    fewer than the manifest layer plus the declared layers and leaves the
    flag as it was otherwise, so that a source not marked partial before
    is marked partial if and only if they are fewer.  [LoadPackage] hands
    exactly that flag to the aggregate-checksum validation, which it
    reaches whenever the package definition is read and filtered without
    error.  With the validation the spec describes, and the retrieved
    content intact, that validation does not fail, whether or not declared
    layers are absent, where a strict validation of the same layers would
    fail for any absent one. *)
Theorem partial_flag_of_download
        (e : sources.Env) (r : sources.RemoteBundle)
        (rootLayers pkgLayers : list sources.Descriptor)
        (desc : sources.Descriptor) :
  sources.FetchRoot e = (rootLayers, None) ->
  sources.Locate rootLayers (sources.PkgManifestSHA r) = Some desc ->
  sources.FetchManifest e (sources.with_MediaType desc sources.ZarfLayerMediaTypeBlob)
    = (Some pkgLayers, None) ->
  sources.err (sources.downloadPkgFromRemoteBundle e r) = None ->
  let dl := sources.downloadPkgFromRemoteBundle e r in
  sources.value dl =
    sources.with_MediaType desc sources.ZarfLayerMediaTypeBlob
      :: List.filter (present e) pkgLayers /\
  (sources.isPartial (sources.receiver dl) = true <->
     sources.isPartial r = true \/ len (sources.value dl) < 1 + len pkgLayers) /\
  (sources.isPartial (sources.receiver dl) = true <->
     sources.isPartial r = true \/ exists l, l ∈ pkgLayers /\ present e l = false) /\
  (forall (filter : sources.ZarfPackage -> list string * option sources.error)
          (unarchiveAll : bool),
     let run := sources.LoadPackage e r filter unarchiveAll in
     (forall checksum ip,
        sources.ValidatePackageIntegrity checksum ip ∈ sources.told run ->
        ip = sources.isPartial (sources.receiver dl)) /\
     (forall pkg components,
        sources.readYaml e = (pkg, None) ->
        filter pkg = (components, None) ->
        sources.ValidatePackageIntegrity (sources.AggregateChecksum pkg)
          (sources.isPartial (sources.receiver dl)) ∈ sources.told run)) /\
  (forall (intact : string -> sources.Descriptor -> bool) (checksum : string),
     forallb (intact checksum) (sources.value dl) = true ->
     specValidatePackageIntegrity pkgLayers intact (sources.value dl) checksum
       (sources.isPartial (sources.receiver dl)) = None /\
     (forall l, l ∈ pkgLayers -> retrieved (sources.value dl) l = false ->
        sources.isPartial (sources.receiver dl) = true /\
        specValidatePackageIntegrity pkgLayers intact (sources.value dl) checksum
          false = Some "IntegrityError: layer missing"%string) /\
     (forall (filter : sources.ZarfPackage -> list string * option sources.error)
             (pkg : sources.ZarfPackage) (components : list string),
        sources.readYaml e = (pkg, None) ->
        filter pkg = (components, None) ->
        sources.AggregateChecksum pkg = checksum ->
        sources.err
          (sources.LoadPackage
             (withValidation e (specValidatePackageIntegrity pkgLayers intact))
             r filter false) = None)).
Proof.
  intros Hroot Hloc Hman Herr dl.
  destruct (download_value_flag e r rootLayers pkgLayers desc Hroot Hloc Hman Herr)
    as [Hval Hflag]. fold dl in Hval, Hflag.
  assert (len (sources.value dl) = 1 + len (List.filter (present e) pkgLayers))
    as Hlen by (rewrite Hval; unfold len; cbn [length]; lia).
  pose proof (filter_length_le (present e) pkgLayers) as Hle.
  assert (negb (len pkgLayers =? len (sources.value dl) - 1) = true <->
          length (List.filter (present e) pkgLayers) <> length pkgLayers) as Hfew.
  { rewrite negb_true_iff, Z.eqb_neq, Hlen. unfold len. lia. }
  assert (forall l, l ∈ pkgLayers -> retrieved (sources.value dl) l = false ->
                    sources.isPartial (sources.receiver dl) = true) as Habsent.
  { intros l Hin Hret. rewrite Hflag. apply orb_true_iff. right.
    apply Hfew, fewer_iff_missing. exists l. split; [done|].
    destruct (present e l) eqn:Hp; [|done].
    rewrite retrieved_elem in Hret; [done|].
    rewrite Hval. right. apply list_elem_of_In, filter_In.
    split; [by apply list_elem_of_In|done]. }
  split; [done|]. split; [|split; [|split]].
  - rewrite Hflag, orb_true_iff, Hfew, Hlen. unfold len in *.
    split; (intros [?|?]; [by left|right; lia]).
  - rewrite Hflag, orb_true_iff, Hfew. by rewrite fewer_iff_missing.
  - intros filter unarchiveAll run.
    destruct (LoadPackage_told e r filter unarchiveAll) as (stage & Htold & Hstage).
    fold dl in Htold, Hstage. fold run in Htold. split.
    + intros checksum ip Hin. rewrite Htold in Hin.
      eapply validate_in_stage; [apply download_quiet|exact Hstage|exact Hin].
    + intros pkg components Hread Hfilter. subst run dl.
      unfold sources.LoadPackage. rewrite Herr, Hread, Hfilter.
      cbn [sources.AggregateChecksum sources.Components].
      destruct (sources.validatePackageIntegrity e _ _ _);
        [|destruct unarchiveAll;
          [destruct (sources.unarchiveComponents e components) as [ev [err|]];
           [|destruct (negb (String.eqb (sources.SBOMsPath e) ""));
            [destruct (sources.unarchiveSBOMs e)|]]|]];
        cbn [sources.told];
        repeat (apply elem_of_app; first [right; solve [repeat constructor]|left]).
  - intros intact checksum Hintact.
    assert (specValidatePackageIntegrity pkgLayers intact (sources.value dl) checksum
              (sources.isPartial (sources.receiver dl)) = None) as Hpass.
    { unfold specValidatePackageIntegrity. rewrite Hintact. cbn [negb].
      destruct (sources.isPartial (sources.receiver dl)) eqn:Hp; [done|].
      cbn [orb].
      assert (forallb (retrieved (sources.value dl)) pkgLayers = true) as ->; [|done].
      apply forallb_forall. intros l Hin%list_elem_of_In.
      destruct (retrieved (sources.value dl) l) eqn:Hret; [done|].
      specialize (Habsent l Hin Hret). congruence. }
    split; [exact Hpass|]. split.
    + intros l Hin Hret. split; [by apply (Habsent l)|].
      unfold specValidatePackageIntegrity. rewrite Hintact. cbn [negb orb].
      assert (forallb (retrieved (sources.value dl)) pkgLayers = false) as ->; [|done].
      apply not_true_is_false. intros Hall.
      rewrite forallb_forall in Hall.
      specialize (Hall l (proj1 (list_elem_of_In _ _) Hin)). congruence.
    + intros filter pkg components Hread Hfilter Hsum.
      assert (sources.err dl = None) as Herr' by exact Herr.
      unfold sources.LoadPackage. rewrite download_withValidation. fold dl.
      rewrite Herr'.
      cbn [withValidation sources.readYaml sources.validatePackageIntegrity
           sources.addNamespaceOverrides].
      rewrite Hread, Hfilter. cbn [sources.AggregateChecksum sources.Components].
      by rewrite Hsum, Hpass.
Qed.

Lemma partial_flag_of_download_witness :
  let dl := sources.downloadPkgFromRemoteBundle exampleEnv exampleBundle in
  sources.value dl =
    [sources.with_MediaType manifestDesc sources.ZarfLayerMediaTypeBlob;
     layerA; layerC] /\
  (sources.isPartial (sources.receiver dl) = true <->
     sources.isPartial exampleBundle = true \/ len (sources.value dl) < 1 + 3) /\
  specValidatePackageIntegrity [layerA; layerB; layerC] (fun _ _ => true)
    (sources.value dl) "abcd" (sources.isPartial (sources.receiver dl)) = None /\
  specValidatePackageIntegrity [layerA; layerB; layerC] (fun _ _ => true)
    (sources.value dl) "abcd" false = Some "IntegrityError: layer missing"%string.
Proof.
  destruct (partial_flag_of_download exampleEnv exampleBundle [manifestDesc]
              [layerA; layerB; layerC] manifestDesc)
    as (Hval & Hflag & _ & _ & Hspec);
    [reflexivity|reflexivity|reflexivity|reflexivity|].
  destruct (Hspec (fun _ _ => true) "abcd"%string eq_refl) as (Hpass & Hstrict & _).
  split; [exact Hval|]. split; [exact Hflag|]. split; [exact Hpass|].
  apply (Hstrict layerB); [repeat constructor|reflexivity].
Defined.

(** * Further properties *)

(** ** The package source: failures, the cache and the estimate *)

(** X1: whenever [downloadPkgFromRemoteBundle] returns an error it returns
    no layers and leaves the source as it was; and on no path does it
    clear a partial flag that was already set, or change the name, the
    digest or the directory of the source. *)
Theorem download_error_leaves_source (e : sources.Env) (r : sources.RemoteBundle) :
  let dl := sources.downloadPkgFromRemoteBundle e r in
  (is_Some (sources.err dl) -> sources.value dl = [] /\ sources.receiver dl = r) /\
  (sources.isPartial r = true -> sources.isPartial (sources.receiver dl) = true) /\
  sources.PkgName (sources.receiver dl) = sources.PkgName r /\
  sources.PkgManifestSHA (sources.receiver dl) = sources.PkgManifestSHA r /\
  sources.TmpDir (sources.receiver dl) = sources.TmpDir r.
Proof.
  cbn zeta. unfold sources.downloadPkgFromRemoteBundle.
  destruct (sources.FetchRoot e) as [rootLayers [err|]]; [by repeat split|].
  destruct (sources.Locate _ _) as [desc|]; [|by repeat split].
  destruct (sources.FetchManifest e _) as [[pkgLayers|] [err|]];
    try (by repeat split); try (repeat split; by intros [? [=]]).
  destruct (sources.verifyLayers _ _ _ _ _) as [st [err|]]; [by repeat split|].
  destruct (sources.fileNew e); [by repeat split|].
  destruct (sources.orasCopy e _) as [copied [err|]]; [by repeat split|].
  cbn [sources.err sources.value sources.receiver].
  destruct (negb _); cbn; repeat split; try done; by intros [? [=]].
Qed.

Section VerifyLoopState.

Variables (e : sources.Env) (r : sources.RemoteBundle) (total : Z).

(** X2: in a verification loop that ends without error, the layers found
    present are split in two: those served from the cache are handed to
    [cache.Use], in manifest order, and are not pulled; all the others are
    queued for the copy, in manifest order; a missing layer is in neither. *)
Theorem verifyLayers_partition
        (layers : list sources.Descriptor) (st st' : sources.Loop) :
  sources.verifyLayers e r total layers st = (st', None) ->
  sources.layersToPull st' =
    sources.layersToPull st
      ++ List.filter (fun l => present e l && negb (cached e l)) layers /\
  List.filter isCacheUse (sources.sent st') =
    List.filter isCacheUse (sources.sent st)
      ++ map (cacheUseOf e r)
             (List.filter (fun l => present e l && cached e l) layers).
Proof.
  revert st. induction layers as [|l layers IH]; intros st.
  - cbn. intros [= <-]. by rewrite !app_nil_r.
  - cbn [sources.verifyLayers List.filter].
    assert (present e l = fst (sources.BlobExists e l)) as -> by done.
    destruct (sources.BlobExists e l) as [ok [err|]]; [discriminate|].
    cbn [fst]. destruct ok; cbn [andb]; [|intros H%IH; exact H].
    pose proof (eq_refl (cached e l)) as Hc. unfold cached at 2 in Hc.
    destruct (Contains _ _ && sources.cacheExists e _) eqn:E;
      rewrite Hc, ?E; cbn [negb].
    + destruct (sources.cacheUse e _); [discriminate|].
      intros [H1 H2]%IH. cbn [sources.sent sources.layersToPull] in H1, H2.
      rewrite H1, H2. split; [done|].
      rewrite !List.filter_app. cbn [List.filter isCacheUse map].
      rewrite !app_nil_r, <- !app_assoc. done.
    + intros [H1 H2]%IH. cbn [sources.sent sources.layersToPull] in H1, H2.
      rewrite H1, H2. split; [by rewrite <- app_assoc|].
      rewrite !List.filter_app. cbn [List.filter isCacheUse].
      by rewrite app_nil_r.
Qed.

Lemma wrap_wrap_add (a b : Z) : wrap (wrap a + b) = wrap (a + b).
Proof.
  unfold wrap.
  replace ((a + 2 ^ 63) `mod` 2 ^ 64 - 2 ^ 63 + b + 2 ^ 63)
    with ((a + 2 ^ 63) `mod` 2 ^ 64 + b) by lia.
  rewrite Zplus_mod_idemp_l. f_equal. f_equal. lia.
Qed.

Lemma wrap_in_range (a : Z) : int_min <= a <= int_max -> wrap a = a.
Proof.
  unfold wrap, int_min, int_max. intros H.
  rewrite Z.mod_small; lia.
Qed.

(** X3: in a verification loop that ends without error, the estimate of
    the bytes to copy grows by the sizes of the layers found present (with
    the wrap-around of int64), cached or not; missing layers and the
    manifest descriptor do not count. *)
Theorem verifyLayers_estimatedBytes
        (layers : list sources.Descriptor) (st st' : sources.Loop) :
  int_min <= sources.estimatedBytes st <= int_max ->
  sources.verifyLayers e r total layers st = (st', None) ->
  sources.estimatedBytes st' =
    wrap (sources.estimatedBytes st + sizes (List.filter (present e) layers)).
Proof.
  intros Hrange.
  enough (forall st, sources.verifyLayers e r total layers st = (st', None) ->
            sources.estimatedBytes st' =
              match List.filter (present e) layers with
              | [] => sources.estimatedBytes st
              | found => wrap (sources.estimatedBytes st + sizes found)
              end) as H.
  { intros ->%H. destruct (List.filter (present e) layers); [|done].
    cbn. rewrite Z.add_0_r. symmetry. by apply wrap_in_range. }
  clear st Hrange. induction layers as [|l layers IH]; intros st.
  - cbn. by intros [= <-].
  - cbn [sources.verifyLayers List.filter].
    assert (present e l = fst (sources.BlobExists e l)) as -> by done.
    destruct (sources.BlobExists e l) as [ok [err|]]; [discriminate|].
    cbn [fst]. destruct ok; [|intros H%IH; exact H].
    assert (forall st0, sources.estimatedBytes st0
                          = wrap (sources.estimatedBytes st + sources.Size l) ->
              sources.verifyLayers e r total layers st0 = (st', None) ->
              sources.estimatedBytes st' =
                wrap (sources.estimatedBytes st
                      + sizes (l :: List.filter (present e) layers)))
      as Hstep.
    { intros st0 Hst0 ->%IH. rewrite Hst0. cbn [sizes foldr].
      destruct (List.filter (present e) layers) as [|l' found].
      - cbn. by rewrite Z.add_0_r.
      - rewrite wrap_wrap_add. f_equal. unfold sizes. cbn [foldr]. lia. }
    destruct (Contains _ _ && sources.cacheExists e _).
    + destruct (sources.cacheUse e _); [discriminate|]. by apply Hstep.
    + by apply Hstep.
Qed.

End VerifyLoopState.

Lemma verifyLayers_partition_witness :
  let st' := fst (sources.verifyLayers cacheEnv exampleBundle 3
                    [layerA; layerB; layerD] (loopStart manifestDesc)) in
  sources.layersToPull st' = [manifestDesc; layerA] /\
  List.filter isCacheUse (sources.sent st') =
    [sources.CacheUse "dddd" ["/tmp/uds"; "images"; "blobs/sha256"]%string].
Proof.
  apply (verifyLayers_partition cacheEnv exampleBundle 3
           [layerA; layerB; layerD] (loopStart manifestDesc)).
  reflexivity.
Defined.

Lemma verifyLayers_estimatedBytes_witness :
  sources.estimatedBytes
    (fst (sources.verifyLayers cacheEnv exampleBundle 3
            [layerA; layerB; layerD] (loopStart manifestDesc))) = 540.
Proof.
  apply (verifyLayers_estimatedBytes cacheEnv exampleBundle 3
           [layerA; layerB; layerD] (loopStart manifestDesc));
    [split; zcmp|reflexivity].
Defined.

(** ** The package source: what [LoadPackage] guarantees *)

Lemma download_name (e : sources.Env) (r : sources.RemoteBundle) :
  sources.PkgName (sources.receiver (sources.downloadPkgFromRemoteBundle e r))
  = sources.PkgName r.
Proof.
  unfold sources.downloadPkgFromRemoteBundle.
  destruct (sources.FetchRoot e) as [rootLayers [err|]]; [done|].
  destruct (sources.Locate _ _) as [desc|]; [|done].
  destruct (sources.FetchManifest e _) as [[pkgLayers|] [err|]]; try done.
  destruct (sources.verifyLayers _ _ _ _ _) as [st [err|]]; [done|].
  destruct (sources.fileNew e); [done|].
  destruct (sources.orasCopy e _) as [copied [err|]]; [done|].
  cbn [sources.receiver]. by destruct (negb _).
Qed.

(** X4: [LoadPackage] returns without error only if the download, the
    reading of the package definition and the filter succeeded and the
    aggregate-checksum validation, run on the downloaded layers with the
    partial flag of the download, accepted the package; the package it
    then returns carries the name given by the bundle, whatever name the
    package definition has. *)
Theorem LoadPackage_success_is_validated
        (e : sources.Env) (r : sources.RemoteBundle)
        (filter : sources.ZarfPackage -> list string * option sources.error)
        (unarchiveAll : bool) :
  let dl := sources.downloadPkgFromRemoteBundle e r in
  let run := sources.LoadPackage e r filter unarchiveAll in
  sources.err run = None ->
  sources.err dl = None /\
  snd (sources.readYaml e) = None /\
  snd (filter (fst (sources.readYaml e))) = None /\
  sources.validatePackageIntegrity e (sources.value dl)
    (sources.AggregateChecksum (fst (sources.readYaml e)))
    (sources.isPartial (sources.receiver dl)) = None /\
  sources.MetadataName (sources.value run) = sources.PkgName r /\
  sources.receiver run = sources.receiver dl.
Proof.
  cbn zeta. unfold sources.LoadPackage.
  destruct (sources.err (sources.downloadPkgFromRemoteBundle e r)) as [err|];
    [discriminate|].
  destruct (sources.readYaml e) as [pkg [err|]]; [discriminate|]. cbn [fst snd].
  destruct (filter pkg) as [components [err|]]; [discriminate|].
  cbn [sources.AggregateChecksum sources.Components snd].
  destruct (sources.validatePackageIntegrity e _ _ _); [discriminate|].
  destruct unarchiveAll;
    [destruct (sources.unarchiveComponents e components) as [ev [err|]];
     [discriminate|
      destruct (negb (String.eqb (sources.SBOMsPath e) ""));
      [destruct (sources.unarchiveSBOMs e); [discriminate|]|]]|];
    intros _; cbn [sources.value sources.receiver sources.MetadataName];
    by rewrite download_name.
Qed.

Lemma LoadPackage_success_is_validated_witness :
  sources.validatePackageIntegrity exampleEnv
    (sources.value (sources.downloadPkgFromRemoteBundle exampleEnv exampleBundle))
    "abcd" true = None /\
  sources.MetadataName
    (sources.value (sources.LoadPackage exampleEnv exampleBundle keepAll true))
    = "podinfo"%string.
Proof.
  destruct (LoadPackage_success_is_validated exampleEnv exampleBundle keepAll true)
    as (_ & _ & _ & Hv & Hn & _); [reflexivity|].
  split; [exact Hv|exact Hn].
Defined.

Lemma download_fetchEvents (e : sources.Env) (r : sources.RemoteBundle) :
  forallb fetchEvent (sources.told (sources.downloadPkgFromRemoteBundle e r)) = true.
Proof.
  assert (forall total layers st,
            forallb fetchEvent (sources.sent st) = true ->
            forallb fetchEvent
              (sources.sent (fst (sources.verifyLayers e r total layers st))) = true)
    as Hloop.
  { intros total layers. induction layers as [|l layers IH]; intros st Hq; [done|].
    cbn [sources.verifyLayers].
    destruct (sources.BlobExists e l) as [ok [err|]]; [done|].
    destruct ok; [|by apply IH].
    destruct (Contains _ _ && sources.cacheExists e _).
    - destruct (sources.cacheUse e _).
      + cbn [fst sources.sent]. rewrite !forallb_app, Hq. done.
      + apply IH. cbn [sources.sent]. rewrite !forallb_app, Hq. done.
    - apply IH. cbn [sources.sent]. rewrite !forallb_app, Hq. done. }
  assert (forall est got copied,
            forallb fetchEvent (sources.postCopy est got copied) = true) as Hcopy.
  { intros est got copied. revert got.
    induction copied as [|d copied IH]; intros got; [done|].
    cbn [sources.postCopy forallb]. by rewrite IH. }
  unfold sources.downloadPkgFromRemoteBundle.
  destruct (sources.FetchRoot e) as [rootLayers [err|]]; [done|].
  destruct (sources.Locate _ _) as [desc|]; [|done].
  destruct (sources.FetchManifest e _) as [[pkgLayers|] [err|]]; try done.
  pose proof (Hloop (len pkgLayers) pkgLayers
                (loopStart (sources.with_MediaType desc
                              sources.ZarfLayerMediaTypeBlob)) eq_refl) as Hq.
  unfold loopStart in Hq.
  destruct (sources.verifyLayers _ _ _ _ _) as [st [err|]]; [exact Hq|].
  cbn [fst] in Hq.
  destruct (sources.fileNew e); [exact Hq|].
  destruct (sources.orasCopy e _) as [copied [err|]]; cbn [sources.told];
    by rewrite forallb_app, Hq, Hcopy.
Qed.

Lemma fetchEvents_no_totalComponents (l : list sources.Event) :
  forallb fetchEvent l = true -> List.filter isTotalComponents l = [].
Proof.
  induction l as [|ev l IH]; [done|]. cbn [forallb List.filter].
  intros [Hev Hl]%andb_prop. rewrite (IH Hl).
  destruct ev as [msg| | | | | | | |]; try done.
  cbn [isTotalComponents fetchEvent] in *.
  destruct msg as [|[[] [] [] [] [] [] [] []] msg]; try done.
Qed.

(** X5: [LoadPackage] tells the TUI the number of components exactly
    once, after the filter was applied and with the number of components
    the filter kept; when the download, the reading of the package
    definition or the filter fails it sends no such message. *)
Theorem LoadPackage_totalComponents_message
        (e : sources.Env) (r : sources.RemoteBundle)
        (filter : sources.ZarfPackage -> list string * option sources.error)
        (unarchiveAll : bool) :
  List.filter isTotalComponents
    (sources.told (sources.LoadPackage e r filter unarchiveAll)) =
  match sources.err (sources.downloadPkgFromRemoteBundle e r),
        sources.readYaml e with
  | None, (pkg, None) =>
      match filter pkg with
      | (components, None) =>
          [sources.Send ("totalComponents:" +:+ Itoa (len components))]
      | _ => []
      end
  | _, _ => []
  end.
Proof.
  pose proof (fetchEvents_no_totalComponents _ (download_fetchEvents e r)) as Hdl.
  assert (forall components,
            List.filter isTotalComponents
              (fst (sources.unarchiveComponents e components)) = []) as Hun.
  { intros components. induction components as [|c cs IH]; [done|].
    cbn [sources.unarchiveComponents].
    destruct (sources.unarchive e c); [| |done].
    - by destruct (sources.unarchiveComponents e cs).
    - destruct (sources.create e c); [done|].
      by destruct (sources.unarchiveComponents e cs). }
  unfold sources.LoadPackage.
  destruct (sources.err (sources.downloadPkgFromRemoteBundle e r)) as [err|];
    [exact Hdl|].
  destruct (sources.readYaml e) as [pkg [err|]].
  { cbn [sources.told]. by rewrite List.filter_app, Hdl. }
  destruct (filter pkg) as [components [err|]].
  { cbn [sources.told]. by rewrite !List.filter_app, Hdl. }
  cbn [sources.AggregateChecksum sources.Components].
  pose proof (Hun components) as Hc.
  destruct (sources.validatePackageIntegrity e _ _ _);
    [|destruct unarchiveAll;
      [destruct (sources.unarchiveComponents e components) as [ev [err|]];
       [|destruct (negb (String.eqb (sources.SBOMsPath e) ""));
         [destruct (sources.unarchiveSBOMs e)|]]|]];
    cbn [sources.told fst] in *; rewrite !List.filter_app, Hdl, ?Hc;
    cbn [List.filter isTotalComponents hasPrefix app];
    rewrite ?app_nil_r; reflexivity.
Qed.

(** X6: when the loop over the components ends without error, every
    component was unarchived, in order, and [Create] was called exactly
    for the components whose archive was not loaded, each right after its
    failed [Unarchive]; the loop stops at the first other error. *)
Theorem unarchiveComponents_success (e : sources.Env) (components : list string) :
  snd (sources.unarchiveComponents e components) = None ->
  fst (sources.unarchiveComponents e components) =
    mjoin (map (fun c => if notLoaded e c
                         then [sources.Unarchive c; sources.Create c]
                         else [sources.Unarchive c]) components) /\
  Forall (fun c => sources.unarchive e c = sources.Unarchived \/
                   sources.unarchive e c = sources.NotLoaded /\
                   sources.create e c = None) components.
Proof.
  induction components as [|c cs IH]; [by split|].
  cbn [sources.unarchiveComponents map mjoin list_join]. unfold notLoaded at 1.
  destruct (sources.unarchive e c) eqn:Hu.
  - destruct (sources.unarchiveComponents e cs) as [ev err]. cbn [fst snd] in *.
    intros [-> Hall]%IH. split; [done|]. constructor; auto.
  - destruct (sources.create e c) eqn:Hc; [discriminate|].
    destruct (sources.unarchiveComponents e cs) as [ev err]. cbn [fst snd] in *.
    intros [-> Hall]%IH. split; [done|]. constructor; auto.
  - discriminate.
Qed.

Lemma unarchiveComponents_success_witness :
  fst (sources.unarchiveComponents cacheEnv ["first"; "second"]%string) =
    [sources.Unarchive "first"; sources.Unarchive "second"; sources.Create "second"].
Proof.
  apply (unarchiveComponents_success cacheEnv ["first"; "second"]%string).
  reflexivity.
Defined.

Lemma beforeb_no_later (p q : sources.Event -> bool) (l : list sources.Event) :
  existsb q l = false -> beforeb p q l = false.
Proof.
  induction l as [|ev l IH]; [done|]. cbn [existsb beforeb].
  intros [_ H]%orb_false_elim. by rewrite H, IH, andb_false_r.
Qed.

(** X7: [LoadPackage] never unarchives or creates anything before the
    aggregate-checksum validation: no validation follows an unarchiving;
    and without [unarchiveAll] it unarchives and creates nothing at all. *)
Theorem LoadPackage_unarchives_after_validation
        (e : sources.Env) (r : sources.RemoteBundle)
        (filter : sources.ZarfPackage -> list string * option sources.error)
        (unarchiveAll : bool) :
  let told := sources.told (sources.LoadPackage e r filter unarchiveAll) in
  let unpacks ev := isUnarchive ev || isCreate ev || isUnarchiveSBOMs ev in
  beforeb unpacks isValidate told = false /\
  (unarchiveAll = false -> existsb unpacks told = false).
Proof.
  cbn zeta.
  set (unpacks := fun ev => isUnarchive ev || isCreate ev || isUnarchiveSBOMs ev).
  assert (existsb unpacks
            (sources.told (sources.downloadPkgFromRemoteBundle e r)) = false) as Hdl.
  { pose proof (download_fetchEvents e r) as H.
    induction (sources.told _) as [|ev l IH]; [done|].
    cbn [forallb existsb] in *. apply andb_prop in H as [Hev Hl].
    rewrite (IH Hl). by destruct ev. }
  split.
  - destruct (LoadPackage_told e r filter unarchiveAll) as (stage & -> & Hstage).
    rewrite (beforeb_quiet_app _ _ _ _ Hdl).
    destruct Hstage as [->|[->|[->|(msg & ls & cs & post & -> & Hpost)]]];
      try reflexivity.
    cbn [beforeb]. cbn [unpacks isUnarchive isCreate isUnarchiveSBOMs orb andb].
    apply beforeb_no_later. by apply quiet_no_validate.
  - intros ->. unfold sources.LoadPackage.
    destruct (sources.err (sources.downloadPkgFromRemoteBundle e r)) as [err|];
      [done|].
    destruct (sources.readYaml e) as [pkg [err|]];
      [cbn [sources.told]; by rewrite existsb_app, Hdl|].
    destruct (filter pkg) as [components [err|]];
      [cbn [sources.told]; by rewrite !existsb_app, Hdl|].
    destruct (sources.validatePackageIntegrity e _ _ _);
      cbn [sources.told]; by rewrite !existsb_app, Hdl.
Qed.

(** ** The model: what each kind of message can change *)

Lemma sameShape_refl (m : tui.Model) : sameShape m m.
Proof. by repeat split. Qed.

Lemma sameShape_trans (m1 m2 m3 : tui.Model) :
  sameShape m1 m2 -> sameShape m2 m3 -> sameShape m1 m3.
Proof.
  unfold sameShape. intros (?&?&?&?&?&?&?&?&?) (?&?&?&?&?&?&?&?&?).
  repeat split; congruence.
Qed.

Lemma setPercent_shape (m m' : tui.Model) (p : F64.t) :
  tui.setPercent m p = Ret m' -> sameShape m m' /\ tui.done m' = tui.done m.
Proof.
  unfold tui.setPercent. destruct (index _ _); [|discriminate].
  intros [= <-]. unfold sameShape, store. cbn. rewrite length_insert.
  by repeat split.
Qed.

Lemma stopSpinner_shape (m m' : tui.Model) (st : lipgloss.Style) :
  tui.stopSpinner m st = Ret m' -> sameShape m m' /\ tui.done m' = tui.done m.
Proof.
  unfold tui.stopSpinner. destruct (index _ _); [|discriminate].
  intros [= <-]. unfold sameShape, store. cbn. rewrite length_insert.
  by repeat split.
Qed.

Lemma tickSpinner_shape (m m' : tui.Model) :
  tui.tickSpinner m = Ret m' -> sameShape m m' /\ tui.done m' = tui.done m.
Proof.
  unfold tui.tickSpinner. destruct (index _ _); [|discriminate].
  intros [= <-]. unfold sameShape, store. cbn. rewrite length_insert.
  by repeat split.
Qed.

Lemma successCmds_prints (names : list string) (n : nat) (i : Z)
      (cmds : list tea.Cmd) :
  tui.successCmds names i n = Ret cmds ->
  Forall (fun c => exists t, c = tea.Println t) cmds.
Proof.
  revert i cmds. induction n as [|n IH]; intros i cmds.
  - intros [= <-]. constructor.
  - cbn [tui.successCmds]. destruct (index names i); [|discriminate].
    cbn [mbind result_bind].
    destruct (tui.successCmds names (i + 1) n) as [rest|] eqn:E; [|discriminate].
    cbn [mbind result_bind]. intros [= <-]. constructor; [eauto|by eapply IH].
Qed.

Lemma prints_start_nothing (cmds : list tea.Cmd) :
  Forall (fun c => exists t, c = tea.Println t) cmds ->
  foldr (fun c n => (tea.countDeploy c + n)%nat) 0%nat cmds = 0%nat.
Proof. induction 1 as [|c cmds [t ->] _ IH]; [done|]. cbn. exact IH. Qed.

(** What a tick does, whatever branch it takes. *)
Lemma updateTick_shape (k : tui.Cluster) (m m' : tui.Model) (w w' : tui.World)
      (c : tea.Cmd) :
  tui.updateTick k m w = Ret (m', w', c) ->
  sameShape m m' /\ tui.fatalChan w' = tui.fatalChan w /\
  tea.countDeploy c = 0%nat.
Proof.
  unfold tui.updateTick.
  destruct (if len (tui.complete m) >? tui.pkgIdx m then _ else _)
    as [[|]|]; cbn [mbind result_bind]; [| |discriminate].
  - unfold tui.tickComplete.
    destruct (tui.setPercent m F64.hundred) as [m1|] eqn:E1; [|discriminate].
    cbn [mbind result_bind].
    destruct (tui.stopSpinner m1 tui.doneStyle) as [m2|] eqn:E2; [|discriminate].
    cbn [mbind result_bind].
    destruct (tui.tickSpinner m2) as [m3|] eqn:E3; [|discriminate].
    cbn [mbind result_bind].
    apply setPercent_shape in E1 as [S1 _]. apply stopSpinner_shape in E2 as [S2 _].
    apply tickSpinner_shape in E3 as [S3 _].
    pose proof (sameShape_trans _ _ _ (sameShape_trans _ _ _ S1 S2) S3) as S.
    destruct (tui.pkgIdx m3 =? _).
    + destruct (tui.successCmds _ _ _) as [prints|] eqn:Ep; [|discriminate].
      cbn [mbind result_bind]. intros [= <- <- <-]. split; [exact S|].
      split; [done|]. cbn. apply successCmds_prints in Ep.
      rewrite foldr_app. cbn. by apply prints_start_nothing.
    + intros [= <- <- <-]. split; [exact S|done].
  - destruct (tui.tickPoll k m w) as [[[m1 w1] c1]|] eqn:Ep; [|discriminate].
    cbn [mbind result_bind].
    assert (sameShape m m1 /\ tui.fatalChan w1 = tui.fatalChan w /\
            tea.countDeploy c1 = 0%nat) as (S1 & Hw & Hc).
    { revert Ep. unfold tui.tickPoll.
      destruct (len _ >? _);
        [|intros [= <- <- <-]; split; [apply sameShape_refl|done]].
      destruct (index (tui.totalComponentsPerPkg m) _) as [total|];
        [|discriminate]. cbn [mbind result_bind].
      destruct (total >? 0);
        [|intros [= <- <- <-]; split; [apply sameShape_refl|done]].
      destruct (index (tui.pkgNames m) _) as [name|]; [|discriminate].
      cbn [mbind result_bind].
      destruct (tui.GetDeployedPackage k name) as [rec|]; [|discriminate].
      cbn [mbind result_bind].
      assert (forall p w0,
                (m0 ← tui.setPercent m p; Ret (m0, w0, tea.nextFrame))
                  = Ret (m1, w1, c1) ->
                sameShape m m1 /\ tui.fatalChan w1 = tui.fatalChan w0 /\
                tea.countDeploy c1 = 0%nat) as Hreset.
      { intros p w0. destruct (tui.setPercent m p) as [m0|] eqn:E; [|discriminate].
        cbn [mbind result_bind]. intros [= <- <- <-].
        apply setPercent_shape in E as [S _]. split; [exact S|done]. }
      destruct rec as [d|]; [destruct (tui.resetProgress w)|].
      - intros H. apply Hreset in H as (HS & Hch & Hcd).
        split; [exact HS|]. split; [|exact Hcd].
        rewrite Hch. by destruct (len _ >=? 1).
      - destruct (tui.setPercent m _) as [m0|] eqn:E; [|discriminate].
        cbn [mbind result_bind]. apply setPercent_shape in E as [S _].
        destruct (index (tui.progressBars m0) _) as [b|]; [|discriminate].
        cbn [mbind result_bind]. destruct (F64.eqb _ _).
        + destruct (tui.stopSpinner m0 tui.doneStyle) as [m2|] eqn:E2;
            [|discriminate].
          cbn [mbind result_bind]. intros [= <- <- <-].
          apply stopSpinner_shape in E2 as [S2 _].
          split; [by eapply sameShape_trans|done].
        + intros [= <- <- <-]. split; [exact S|done].
      - intros H. by apply Hreset in H. }
    destruct (len (tui.spinners m1) >? 0).
    + destruct (tui.tickSpinner m1) as [m2|] eqn:E; [|discriminate].
      cbn [mbind result_bind]. intros [= <- <- <-].
      apply tickSpinner_shape in E as [S2 _].
      split; [by eapply sameShape_trans|]. split; [done|].
      cbn. rewrite Hc. done.
    + intros [= <- <- <-]. split; [done|]. split; [done|]. cbn. by rewrite Hc.
Qed.

(** X8: a tick, whatever branch it takes, changes only the bars, the
    spinners and the done flag of the model: the announced names, totals
    and completion flags, the current index, the confirmation and the
    number of bars and spinners stay as they are, no fatal error is
    consumed and no deployment is started. *)
Theorem tick_keeps_announcements
        (k : tui.Cluster) (m m' : tui.Model) (w w' : tui.World) (c : tea.Cmd) :
  tui.fatalChan w = [] ->
  tui.Update k m w tea.tickMsg = Ret (m', w', c) ->
  sameShape m m' /\ tui.fatalChan w' = [] /\ tea.countDeploy c = 0%nat.
Proof.
  intros Hf. unfold tui.Update. rewrite Hf.
  intros (S & Hw & Hc)%updateTick_shape. by rewrite Hw, Hf.
Qed.

Lemma tick_keeps_announcements_witness :
  sameShape podinfoModel
    (tui.with_spinners
       (tui.with_progressBars podinfoModel
          [progress.SetPercent progress.New (F64.of_int 0)])
       [spinner.Update
          (spinner.mk spinner.Dot (lipgloss.Foreground "205" lipgloss.NewStyle) 0)]).
Proof.
  apply (tick_keeps_announcements (fun _ => tui.SecretErr) podinfoModel _
           (tui.mkWorld true []) (tui.mkWorld true [])
           (tea.Sequence [tea.nextFrame; tea.spinnerTick; tea.tickCmd]));
    reflexivity.
Defined.

Lemma updateString_grows (k : tui.Cluster) (m m' : tui.Model) (w w' : tui.World)
      (msg : string) (c : tea.Cmd) :
  tui.updateString k m w msg = Ret (m', w', c) ->
  c = tea.Batch [] /\
  tui.confirmed m' = tui.confirmed m /\
  tui.fatalChan w' = tui.fatalChan w /\
  tui.pkgNames m `prefix_of` tui.pkgNames m' /\
  tui.totalComponentsPerPkg m `prefix_of` tui.totalComponentsPerPkg m' /\
  tui.complete m `prefix_of` tui.complete m' /\
  tui.progressBars m `prefix_of` tui.progressBars m' /\
  tui.spinners m `prefix_of` tui.spinners m' /\
  (length (tui.progressBars m') + length (tui.spinners m)
   = length (tui.progressBars m) + length (tui.spinners m'))%nat.
Proof.
  unfold tui.updateString, tui.fallThrough.
  destruct (index (Split msg ":") 0) as [tag|]; [|discriminate].
  cbn [mbind result_bind]. destruct (String.eqb tag "package").
  { destruct (index (Split msg ":") 1) as [pkgName|]; [|discriminate].
    cbn [mbind result_bind].
    destruct (tui.GetDeployedPackage k pkgName) as [[d|]|]; [| |discriminate];
      cbn [mbind result_bind]; intros [= <- <- <-];
      [destruct (negb _)|]; cbn; repeat split; try done;
      by apply prefix_app_r. }
  destruct (String.eqb tag "totalComponents").
  { destruct (index (Split msg ":") 1) as [arg|]; [|discriminate].
    cbn [mbind result_bind]. destruct (Atoi arg); intros [= <- <- <-];
      cbn; repeat split; try done; by apply prefix_app_r. }
  destruct (String.eqb tag "totalPackages").
  { destruct (index (Split msg ":") 1) as [arg|]; [|discriminate].
    cbn [mbind result_bind]. destruct (Atoi arg); intros [= <- <- <-];
      cbn; repeat split; done. }
  destruct (String.eqb tag "idx").
  { destruct (index (Split msg ":") 1) as [arg|]; [|discriminate].
    cbn [mbind result_bind]. destruct (Atoi arg); intros [= <- <- <-];
      cbn; repeat split; try done; try (by apply prefix_app_r).
    rewrite !length_app. cbn. lia. }
  destruct (String.eqb tag "complete"); intros [= <- <- <-];
    cbn; repeat split; try done; by apply prefix_app_r.
Qed.

(** X9: no message makes [Update] forget something: the announced
    package names, component totals and completion flags only grow at
    their end; and bars and spinners are always added together, so that
    if there are as many spinners as bars before a message there are as
    many after it (there are none of either in the initial model). *)
Theorem Update_only_appends
        (k : tui.Cluster) (m m' : tui.Model) (w w' : tui.World)
        (msg : tea.Msg) (c : tea.Cmd) :
  tui.Update k m w msg = Ret (m', w', c) ->
  tui.pkgNames m `prefix_of` tui.pkgNames m' /\
  tui.totalComponentsPerPkg m `prefix_of` tui.totalComponentsPerPkg m' /\
  tui.complete m `prefix_of` tui.complete m' /\
  (length (tui.progressBars m) <= length (tui.progressBars m'))%nat /\
  (length (tui.progressBars m) = length (tui.spinners m) ->
   length (tui.progressBars m') = length (tui.spinners m')).
Proof.
  assert (forall m1,
            tui.pkgNames m1 = tui.pkgNames m ->
            tui.totalComponentsPerPkg m1 = tui.totalComponentsPerPkg m ->
            tui.complete m1 = tui.complete m ->
            length (tui.progressBars m1) = length (tui.progressBars m) ->
            length (tui.spinners m1) = length (tui.spinners m) ->
            tui.pkgNames m `prefix_of` tui.pkgNames m1 /\
            tui.totalComponentsPerPkg m `prefix_of` tui.totalComponentsPerPkg m1 /\
            tui.complete m `prefix_of` tui.complete m1 /\
            (length (tui.progressBars m) <= length (tui.progressBars m1))%nat /\
            (length (tui.progressBars m) = length (tui.spinners m) ->
             length (tui.progressBars m1) = length (tui.spinners m1))) as Hkeep.
  { intros m1 -> -> -> -> ->. by repeat split. }
  assert (forall m1, sameShape m m1 ->
            tui.pkgNames m `prefix_of` tui.pkgNames m1 /\
            tui.totalComponentsPerPkg m `prefix_of` tui.totalComponentsPerPkg m1 /\
            tui.complete m `prefix_of` tui.complete m1 /\
            (length (tui.progressBars m) <= length (tui.progressBars m1))%nat /\
            (length (tui.progressBars m) = length (tui.spinners m) ->
             length (tui.progressBars m1) = length (tui.spinners m1))) as Hshape.
  { intros m1 (? & ? & ? & _ & _ & _ & _ & ? & ?). by apply Hkeep. }
  unfold tui.Update. destruct (tui.fatalChan w) as [|e senders].
  - destruct msg as [| |key|op|s|].
    + destruct (index _ _); [|discriminate]. cbn [mbind result_bind].
      intros [= <- <- <-]. apply Hshape, sameShape_refl.
    + intros (S & _)%updateTick_shape. by apply Hshape.
    + unfold tui.updateKey, tui.fallThrough.
      repeat case_bool_decide; try destruct (negb _); intros [= <- <- <-];
        by apply Hkeep.
    + unfold tui.updateOperation, tui.fallThrough.
      destruct (tui.confirmed m); intros [= <- <- <-];
        apply Hshape, sameShape_refl.
    + intros (_ & _ & _ & Hn & Ht & Hc & Hb & _ & Hlen)%updateString_grows.
      repeat split; try done; [by apply prefix_length|lia].
    + intros [= <- <- <-]. apply Hshape, sameShape_refl.
  - destruct (tui.stopSpinner m tui.failStyle) as [m1|] eqn:E1; [|discriminate].
    cbn [mbind result_bind].
    destruct (tui.tickSpinner m1) as [m2|] eqn:E2; [|discriminate].
    cbn [mbind result_bind]. intros [= <- <- <-].
    apply stopSpinner_shape in E1 as [S1 _].
    apply tickSpinner_shape in E2 as [S2 _].
    apply Hshape. by eapply sameShape_trans.
Qed.

Lemma Update_only_appends_witness :
  tui.pkgNames (tui.InitModel true "") `prefix_of` ["podinfo"%string] /\
  (0 <= 0)%nat.
Proof.
  destruct (Update_only_appends (fun _ => tui.SecretErr) (tui.InitModel true "")
              (tui.with_pkgNames (tui.InitModel true "") ["podinfo"%string])
              (tui.mkWorld false []) (tui.mkWorld false [])
              (tea.stringMsg "package:podinfo") (tea.Batch []))
    as (Hn & _ & _ & Hb & _); [reflexivity|].
  split; [exact Hn|exact Hb].
Defined.

(** X10: a progress message whose first field is none of the five known
    tags, or whose tag takes a number and whose second field is not one
    ([strconv.Atoi] fails), is dropped: [Update] returns the model and the
    world unchanged, with the empty batch. *)
Theorem unknown_messages_are_ignored
        (k : tui.Cluster) (m : tui.Model) (w : tui.World)
        (msg tag : string) (rest : list string) :
  tui.fatalChan w = [] ->
  Split msg ":" = tag :: rest ->
  knownTag tag = false \/
  (numericTag tag = true /\ exists arg rest', rest = arg :: rest' /\ Atoi arg = None) ->
  tui.Update k m w (tea.stringMsg msg) = Ret (m, w, tea.Batch []).
Proof.
  intros Hf Hs H. unfold tui.Update. rewrite Hf.
  unfold tui.updateString, tui.fallThrough. rewrite Hs.
  change (index (tag :: rest) 0) with (Ret tag). cbn [mbind result_bind].
  destruct H as [H|(H & arg & rest' & -> & Harg)].
  - unfold knownTag in H.
    apply orb_false_elim in H as [H H5]. apply orb_false_elim in H as [H H4].
    apply orb_false_elim in H as [H H3]. apply orb_false_elim in H as [H1 H2].
    by rewrite H1, H2, H3, H4, H5.
  - change (index (tag :: arg :: rest') 1) with (Ret arg).
    cbn [mbind result_bind]. rewrite Harg. unfold numericTag in H.
    destruct (String.eqb_spec tag "package") as [->|_]; [discriminate|].
    destruct (String.eqb tag "totalComponents"); [done|].
    destruct (String.eqb tag "totalPackages"); [done|].
    destruct (String.eqb tag "idx"); [done|discriminate].
Qed.

Lemma unknown_messages_are_ignored_witness :
  tui.Update (fun _ => tui.SecretErr) podinfoModel (tui.mkWorld false [])
             (tea.stringMsg "verifying:50")
    = Ret (podinfoModel, tui.mkWorld false [], tea.Batch []) /\
  tui.Update (fun _ => tui.SecretErr) podinfoModel (tui.mkWorld false [])
             (tea.stringMsg "idx:one")
    = Ret (podinfoModel, tui.mkWorld false [], tea.Batch []).
Proof.
  split.
  - apply (unknown_messages_are_ignored _ _ _ "verifying:50" "verifying" ["50"%string]);
      [reflexivity|reflexivity|by left].
  - apply (unknown_messages_are_ignored _ _ _ "idx:one" "idx" ["one"%string]);
      [reflexivity|reflexivity|right].
    split; [reflexivity|]. by exists "one"%string, [].
Defined.

(** ** The model: confirmation and failure *)

(** What a message can do to the confirmation and to the deployment. *)
Lemma Update_confirmation (k : tui.Cluster) (m m' : tui.Model) (w w' : tui.World)
      (msg : tea.Msg) (c : tea.Cmd) :
  tui.Update k m w msg = Ret (m', w', c) ->
  (tea.countDeploy c <= 1)%nat /\
  (tea.countDeploy c = 1%nat ->
     tui.confirmed m = true /\ tui.fatalChan w = [] /\ exists op, msg = tea.operation op) /\
  (tui.confirmed m' = true ->
     tui.confirmed m = true \/
     exists key, msg = tea.KeyMsg key /\ (key = "y"%string \/ key = "Y"%string)).
Proof.
  unfold tui.Update. destruct (tui.fatalChan w) as [|e senders].
  - destruct msg as [| |key|op|s|].
    + destruct (index _ _); [|discriminate]. cbn [mbind result_bind].
      intros [= <- <- <-]. cbn. repeat split; auto; lia.
    + intros ((_&_&_&_&_&Hc&_) & _ & ->)%updateTick_shape.
      rewrite Hc. repeat split; auto; lia.
    + unfold tui.updateKey, tui.fallThrough.
      repeat case_bool_decide; try destruct (negb _) eqn:En;
        intros [= <- <- <-]; cbn; repeat split; eauto; try lia.
      all: intros _; apply negb_false_iff in En; auto.
    + unfold tui.updateOperation, tui.fallThrough.
      destruct (tui.confirmed m) eqn:Ec; intros [= <- <- <-]; cbn;
        repeat split; eauto; lia.
    + intros (-> & Hc & _)%updateString_grows.
      rewrite Hc. cbn. repeat split; auto; lia.
    + intros [= <- <- <-]. cbn. repeat split; auto; lia.
  - destruct (tui.stopSpinner m tui.failStyle) as [m1|] eqn:E1; [|discriminate].
    cbn [mbind result_bind].
    destruct (tui.tickSpinner m1) as [m2|] eqn:E2; [|discriminate].
    cbn [mbind result_bind]. intros [= <- <- <-].
    apply stopSpinner_shape in E1 as [(_&_&_&_&_&H1&_) _].
    apply tickSpinner_shape in E2 as [(_&_&_&_&_&H2&_) _].
    rewrite H2, H1. cbn. repeat split; auto; lia.
Qed.

Lemma unconfirmed_run_is_silent (sched : list cmd.Step) (m : tui.Model)
      (w : tui.World) (quitting : bool) (log : list cmd.Event) :
  tui.confirmed m = false ->
  forallb (fun step => negb (isYes step)) sched = true ->
  logOf (cmd.eventLoop sched m w 0 quitting log) = log.
Proof.
  revert m w quitting.
  induction sched as [|[k msg|err| |e] sched IH]; intros m w quitting Hc Hs;
    cbn [cmd.eventLoop]; [done| | | |done].
  - cbn [forallb] in Hs. apply andb_prop in Hs as [Hy Hs].
    destruct (tui.Update k m w msg) as [[[m' w'] c]|p] eqn:E; [|done].
    apply Update_confirmation in E as (Hle & Hone & Hconf).
    assert (tea.countDeploy c = 0%nat) as ->.
    { destruct (tea.countDeploy c) as [|[|n]]; [done| |lia].
      destruct Hone as [Hone _]; [done|]. congruence. }
    cbn [replicate]. rewrite app_nil_r.
    destruct (cmd.render m'); [|done].
    apply IH; [|done].
    destruct (tui.confirmed m') eqn:Ec'; [|done].
    destruct Hconf as [?|(key & -> & Hkey)]; [done|congruence|].
    cbn [isYes] in Hy. by destruct Hkey as [-> | ->].
  - cbn [forallb] in Hs. apply andb_prop in Hs as [_ Hs]. by apply IH.
  - cbn [forallb] in Hs. apply andb_prop in Hs as [_ Hs].
    destruct quitting; [done|by apply IH].
Qed.

(** X11: no deployment without confirmation.  In a run of the program on
    the model that [InitModel] makes when [--confirm] is not set, in which
    neither the key [y] nor the key [Y] is read, no deploy closure is
    started: the TUI calls neither [Deploy] nor [ClearPaths], whatever else
    is read and however the run ends.  (By [Update_confirmation] the
    handler starts the deployment only for an [operation] message on a
    confirmed model, and only these two keys confirm a model.) *)
Theorem no_deployment_without_confirmation (yaml : string) (sched : list cmd.Step) :
  forallb (fun step => negb (isYes step)) sched = true ->
  logOf (cmd.Program_Run sched (tui.InitModel false yaml) (tui.mkWorld false []) 0 [])
    = [].
Proof.
  intros Hs. unfold cmd.Program_Run.
  destruct (cmd.render _); [|done].
  by apply unconfirmed_run_is_silent.
Qed.

Lemma no_deployment_without_confirmation_witness :
  let sched :=
    [cmd.Deliver (fun _ => tui.SecretErr) (tea.operation tui.DeployOp);
     cmd.Deliver (fun _ => tui.SecretErr) (tea.KeyMsg "n");
     cmd.Deliver (fun _ => tui.SecretErr) (tea.operation tui.DeployOp);
     cmd.DeployReturns None;
     cmd.Deliver (fun _ => tui.SecretErr) (tea.KeyMsg "q");
     cmd.QuitArrives] in
  cmd.Program_Run sched (tui.InitModel false "") (tui.mkWorld false []) 0 []
    = cmd.Quitted [] /\
  logOf (cmd.Program_Run sched (tui.InitModel false "") (tui.mkWorld false []) 0 [])
    = [].
Proof.
  split; [reflexivity|].
  apply (no_deployment_without_confirmation ""); reflexivity.
Defined.

(** X12: with a fatal error pending, [Update] panics with an index out of
    range exactly when the current index has no spinner, as in the initial
    model, where no [idx] message has arrived yet: a deployment that fails
    before its first package is announced crashes the handler instead of
    quitting. *)
Theorem fatal_without_spinner_panics
        (k : tui.Cluster) (m : tui.Model) (w : tui.World) (msg : tea.Msg)
        (e : string) (senders : list string) :
  tui.fatalChan w = e :: senders ->
  (tui.Update k m w msg = Panic IndexOutOfRange <->
     tui.pkgIdx m < 0 \/ len (tui.spinners m) <= tui.pkgIdx m) /\
  (panics (tui.Update k m w msg) = false <->
     0 <= tui.pkgIdx m < len (tui.spinners m)).
Proof.
  intros Hf. unfold tui.Update. rewrite Hf.
  destruct (Z.ltb_spec (tui.pkgIdx m) 0) as [Hneg|Hpos].
  { unfold tui.stopSpinner, index.
    destruct (Z.ltb_spec (tui.pkgIdx m) 0); [|lia]. cbn.
    split; split; auto; try discriminate; lia. }
  destruct (Z.leb_spec (len (tui.spinners m)) (tui.pkgIdx m)) as [Hout|Hin].
  { unfold tui.stopSpinner. rewrite index_short by done. cbn.
    split; split; auto; try discriminate; lia. }
  destruct (lookup_lt_is_Some_2 (tui.spinners m) (Z.to_nat (tui.pkgIdx m)))
    as [s Hs]; [unfold len in Hin; lia|].
  rewrite (stopSpinner_Ret _ _ s Hpos Hs). cbn [mbind result_bind].
  erewrite tickSpinner_Ret; [|done|cbn; by eapply store_lookup].
  cbn. split; split; auto; try discriminate; lia.
Qed.

Lemma fatal_without_spinner_panics_witness :
  tui.Update (fun _ => tui.SecretErr) (tui.InitModel true "")
             (tui.mkWorld false ["failed to deploy bundle: boom"%string])
             tea.tickMsg = Panic IndexOutOfRange.
Proof.
  apply (fatal_without_spinner_panics (fun _ => tui.SecretErr)
           (tui.InitModel true "")
           (tui.mkWorld false ["failed to deploy bundle: boom"%string])
           tea.tickMsg "failed to deploy bundle: boom" []); [reflexivity|].
  right. zcmp.
Defined.

(** X13: a tick that finds the current package flagged complete while it
    is not the last one fills its bar, stops its spinner with the success
    mark and returns only the commands of the bar and the spinner: neither
    [tea.Quit] nor a new tick command. *)
Theorem complete_package_tick
        (k : tui.Cluster) (m : tui.Model) (w : tui.World) :
  tui.fatalChan w = [] ->
  0 <= tui.pkgIdx m ->
  tui.complete m !! Z.to_nat (tui.pkgIdx m) = Some true ->
  tui.pkgIdx m <> wrap (tui.totalPkgs m - 1) ->
  is_Some (tui.progressBars m !! Z.to_nat (tui.pkgIdx m)) ->
  is_Some (tui.spinners m !! Z.to_nat (tui.pkgIdx m)) ->
  exists m',
    tui.Update k m w tea.tickMsg =
      Ret (m', w, tea.Sequence [tea.nextFrame; tea.spinnerTick]) /\
    progress.Percent <$> currentBar m' = Some F64.one /\
    spinner.Frames <$> currentSpinner m' = Some [""%string] /\
    spinner.Style <$> currentSpinner m' = Some tui.doneStyle /\
    tui.done m' = tui.done m.
Proof.
  intros Hf Hi Hc Hlast [b Hb] [s Hs].
  unfold tui.Update. rewrite Hf. unfold tui.updateTick.
  assert ((len (tui.complete m) >? tui.pkgIdx m) = true) as ->.
  { apply Z.gtb_lt. apply lookup_lt_Some in Hc. unfold len. lia. }
  rewrite (index_lookup _ _ _ Hi Hc). cbn [mbind result_bind].
  unfold tui.tickComplete.
  rewrite (setPercent_Ret _ _ _ Hi Hb). cbn [mbind result_bind].
  rewrite (stopSpinner_Ret _ _ s); [|done|done]. cbn [mbind result_bind].
  erewrite tickSpinner_Ret; [|done|cbn; by eapply store_lookup].
  cbn [mbind result_bind]. cbn [tui.pkgIdx tui.totalPkgs tui.with_spinners
    tui.with_progressBars].
  destruct (Z.eqb_spec (tui.pkgIdx m) (wrap (tui.totalPkgs m - 1))); [done|].
  eexists. split; [reflexivity|]. unfold currentBar, currentSpinner. cbn.
  rewrite (store_lookup _ _ _ _ Hb).
  erewrite store_lookup; [|by eapply store_lookup]. done.
Qed.

Lemma complete_package_tick_witness :
  let m := tui.with_totalPkgs (tui.with_complete podinfoModel [true]) 2 in
  exists m',
    tui.Update (fun _ => tui.SecretErr) m (tui.mkWorld false []) tea.tickMsg =
      Ret (m', tui.mkWorld false [], tea.Sequence [tea.nextFrame; tea.spinnerTick]) /\
    progress.Percent <$> currentBar m' = Some F64.one.
Proof.
  destruct (complete_package_tick (fun _ => tui.SecretErr)
              (tui.with_totalPkgs (tui.with_complete podinfoModel [true]) 2)
              (tui.mkWorld false []))
    as (m' & Hupd & Hbar & _);
    [reflexivity|zcmp|reflexivity|zcmp|cbn; eauto|cbn; eauto|].
  exists m'. split; [exact Hupd|exact Hbar].
Defined.

(** ** The deploy command without the TUI *)

(** X14: without the TUI, [Deploy] is called only once the validation
    passed and the user confirmed, and the cleanup runs exactly once in
    that case (explicitly before [Fatalf] when [Deploy] fails, deferred when
    it succeeds); when the validation fails or the user declines, the
    process exits without calling [Deploy] and without any cleanup.  The
    command returns only when [Deploy] succeeded. *)
Theorem deploy_without_tea_cleanup (e : cmd.Env) (sched : list cmd.Step) :
  cmd.NoTea e = true ->
  let run := cmd.deployCmd_Run e sched in
  let ready :=
    bool_decide (cmd.preDeployValidation e = None) && cmd.confirmBundleDeploy e in
  cmd.count cmd.isDeploy (cmd.log_of run) = (if ready then 1 else 0)%nat /\
  cmd.count cmd.isClearPaths (cmd.log_of run) = (if ready then 1 else 0)%nat /\
  ((exists log, run = cmd.Returns log) <-> ready = true /\ cmd.deploy e = None) /\
  ((exists log, run = cmd.Exits log) <-> ~ (ready = true /\ cmd.deploy e = None)).
Proof.
  intros Hno. cbn zeta. unfold cmd.deployCmd_Run, cmd.deployWithoutTea.
  rewrite Hno.
  destruct (cmd.preDeployValidation e) as [err|]; cbn [bool_decide andb];
    [|rewrite bool_decide_eq_true_2 by done; cbn [andb];
      destruct (cmd.confirmBundleDeploy e); cbn [negb];
      [destruct (cmd.deploy e) as [err|]|]];
    (split; [reflexivity|]); (split; [reflexivity|]); split; split;
    first [ by intros [? [=]] | by intros [[=] _] | by intros [_ [=]]
          | by intros _ [[=] _] | by intros _ [_ [=]]
          | by (intros _; eauto) | by (intros H; destruct H) ].
Qed.

Lemma deploy_without_tea_cleanup_witness :
  cmd.count cmd.isClearPaths
    (cmd.log_of (cmd.deployCmd_Run (cmd.Build_Env true false "" None false None) []))
    = 0%nat /\
  cmd.count cmd.isClearPaths
    (cmd.log_of (cmd.deployCmd_Run (cmd.Build_Env true false "" None true None) []))
    = 1%nat.
Proof.
  split.
  - apply (deploy_without_tea_cleanup (cmd.Build_Env true false "" None false None) []).
    reflexivity.
  - apply (deploy_without_tea_cleanup (cmd.Build_Env true false "" None true None) []).
    reflexivity.
Defined.

(** ** Numbers on the wire *)

Lemma digit_pretty_N_char (x : N) :
  (x < 10)%N -> digit (pretty_N_char x) = Some (Z.of_N x).
Proof.
  intros H.
  assert (x = 0 \/ x = 1 \/ x = 2 \/ x = 3 \/ x = 4 \/ x = 5 \/ x = 6 \/ x = 7
          \/ x = 8 \/ x = 9)%N as Hx by lia.
  repeat (destruct Hx as [-> | Hx]; [reflexivity|]). by subst.
Qed.

(** Reading back the digits written by [pretty_N_go]. *)
Lemma digits_pretty_N_go (x : N) :
  exists k : nat, forall s acc,
    digits (pretty_N_go x s) acc = digits s (acc * 10 ^ Z.of_nat k + Z.of_N x).
Proof.
  induction (N.lt_wf_0 x) as [x _ IH].
  destruct (decide (x = 0)%N) as [->|Hx].
  - exists 0%nat. intros s acc. rewrite pretty_N_go_0. f_equal. cbn. lia.
  - destruct (IH (x `div` 10)%N) as [k Hk]; [apply N.div_lt; lia|].
    exists (S k). intros s acc. rewrite pretty_N_go_step by lia.
    rewrite Hk. cbn [digits].
    rewrite digit_pretty_N_char by (apply N.mod_lt; lia). f_equal.
    rewrite Nat2Z.inj_succ, Z.pow_succ_r by lia.
    rewrite (N.div_mod x 10) at 3 by lia.
    rewrite N2Z.inj_add, N2Z.inj_mul. cbn. lia.
Qed.

Lemma pretty_N_go_head (x : N) (s : string) :
  (0 < x)%N ->
  exists c rest, pretty_N_go x s = String c rest /\ is_Some (digit c).
Proof.
  revert s. induction (N.lt_wf_0 x) as [x _ IH]; intros s Hx.
  rewrite pretty_N_go_step by done.
  destruct (decide (x `div` 10 = 0)%N) as [->|Hd].
  - rewrite pretty_N_go_0. eexists _, _. split; [done|].
    rewrite digit_pretty_N_char by (apply N.mod_lt; lia). eauto.
  - apply IH; [apply N.div_lt; lia|by apply N.neq_0_lt_0].
Qed.

Lemma digit_not_sign (c : ascii) :
  is_Some (digit c) ->
  Ascii.eqb c "-" = false /\ Ascii.eqb c "+" = false /\ Ascii.eqb c ":" = false.
Proof.
  destruct c as [[] [] [] [] [] [] [] []]; intros [d Hd]; try done;
    vm_compute in Hd; discriminate.
Qed.

Lemma digits_no_colon (s : string) (acc v : Z) :
  digits s acc = Some v -> Split s ":" = [s].
Proof.
  revert acc. induction s as [|c s IH]; intros acc; [done|].
  cbn [digits Split]. destruct (digit c) as [d|] eqn:Hd; [|discriminate].
  destruct (digit_not_sign c) as (_ & _ & ->); [by rewrite Hd|].
  intros ->%IH. done.
Qed.

Lemma pretty_pos_digits (p : positive) :
  exists c rest,
    pretty (Z.pos p) = String c rest /\ is_Some (digit c) /\
    digits (pretty (Z.pos p)) 0 = Some (Z.pos p).
Proof.
  change (pretty (Z.pos p)) with (pretty (N.pos p)). unfold pretty, pretty_N.
  destruct (decide (N.pos p = 0%N)) as [|_]; [done|].
  destruct (pretty_N_go_head (N.pos p) "") as (c & rest & Hs & Hc); [done|].
  destruct (digits_pretty_N_go (N.pos p)) as [k Hk].
  exists c, rest. split; [done|]. split; [done|]. rewrite Hk. cbn. done.
Qed.

(** [strconv.Atoi] reads back what [%d] wrote, and the text of a number
    holds no colon. *)
Lemma Atoi_Itoa (n : Z) :
  int_min <= n <= int_max ->
  Atoi (Itoa n) = Some n /\ Split (Itoa n) ":" = [Itoa n].
Proof.
  intros Hn. unfold Itoa. destruct n as [|p|p].
  - done.
  - destruct (pretty_pos_digits p) as (c & rest & Hs & Hc & Hd).
    split; [|by eapply digits_no_colon].
    rewrite Hs in *. unfold Atoi.
    destruct (digit_not_sign c Hc) as (-> & -> & _). cbn [orb].
    rewrite Hd.
    destruct (Z.leb_spec int_min (Z.pos p)); [|lia].
    destruct (Z.leb_spec (Z.pos p) int_max); [done|lia].
  - destruct (pretty_pos_digits p) as (c & rest & Hs & Hc & Hd).
    change (pretty (Z.neg p)) with (String "-" (pretty (Z.pos p))).
    split.
    + unfold Atoi. cbn [Ascii.eqb Bool.eqb orb]. rewrite Hs in *. rewrite Hd.
      change (- Z.pos p) with (Z.neg p).
      destruct (Z.leb_spec int_min (Z.neg p)); [|lia].
      destruct (Z.leb_spec (Z.neg p) int_max); [done|lia].
    + cbn [Split]. change (Ascii.eqb "-" ":") with false. cbn match.
      by rewrite (digits_no_colon _ _ _ Hd).
Qed.

(** The two fields of a message made of a tag and a number. *)
Ltac read_fields tag n :=
  change (index [tag; Itoa n] 0) with (Ret tag);
  change (index [tag; Itoa n] 1) with (Ret (Itoa n));
  cbn -[Atoi Itoa].

Lemma Update_totalComponents (k : tui.Cluster) (m : tui.Model) (w : tui.World)
      (n : Z) :
  tui.fatalChan w = [] ->
  int_min <= n <= int_max ->
  tui.Update k m w (tea.stringMsg ("totalComponents:" +:+ Itoa n)) =
    Ret (tui.with_totalComponentsPerPkg m (tui.totalComponentsPerPkg m ++ [n]),
         w, tea.Batch []).
Proof.
  intros Hf [Ha Hs]%Atoi_Itoa. unfold tui.Update. rewrite Hf.
  unfold tui.updateString.
  assert (Split ("totalComponents:" +:+ Itoa n) ":"
          = ["totalComponents"; Itoa n]%string) as ->.
  { change (Split ("totalComponents:" +:+ Itoa n) ":")
      with ("totalComponents"%string :: Split (Itoa n) ":"). by rewrite Hs. }
  read_fields "totalComponents"%string n. by rewrite Ha.
Qed.

(** X15: the numbers of the progress protocol survive the wire.  For
    every [int] [n], the message made of a tag, a colon and [n] printed
    with [%d] is read back as [n]: [totalComponents] appends [n] to the
    component totals, [totalPackages] sets the number of packages, and
    [idx] makes [n] the current index and adds one bar and one spinner. *)
Theorem progress_numbers_round_trip
        (k : tui.Cluster) (m : tui.Model) (w : tui.World) (n : Z) :
  tui.fatalChan w = [] ->
  int_min <= n <= int_max ->
  tui.Update k m w (tea.stringMsg ("totalComponents:" +:+ Itoa n))
    = Ret (tui.with_totalComponentsPerPkg m (tui.totalComponentsPerPkg m ++ [n]),
           w, tea.Batch []) /\
  tui.Update k m w (tea.stringMsg ("totalPackages:" +:+ Itoa n))
    = Ret (tui.with_totalPkgs m n, w, tea.Batch []) /\
  (exists m',
     tui.Update k m w (tea.stringMsg ("idx:" +:+ Itoa n))
       = Ret (m', w, tea.Batch []) /\
     tui.pkgIdx m' = n /\
     tui.progressBars m' = tui.progressBars m ++ [progress.New] /\
     length (tui.spinners m') = S (length (tui.spinners m)) /\
     tui.pkgNames m' = tui.pkgNames m /\
     tui.complete m' = tui.complete m).
Proof.
  intros Hf Hn. pose proof (Atoi_Itoa n Hn) as [Ha Hs].
  split; [|split].
  - by apply Update_totalComponents.
  - unfold tui.Update. rewrite Hf. unfold tui.updateString.
    assert (Split ("totalPackages:" +:+ Itoa n) ":"
            = ["totalPackages"; Itoa n]%string) as ->.
    { change (Split ("totalPackages:" +:+ Itoa n) ":")
      with ("totalPackages"%string :: Split (Itoa n) ":"). by rewrite Hs. }
    read_fields "totalPackages"%string n. by rewrite Ha.
  - unfold tui.Update. rewrite Hf. unfold tui.updateString.
    assert (Split ("idx:" +:+ Itoa n) ":" = ["idx"; Itoa n]%string) as ->.
    { change (Split ("idx:" +:+ Itoa n) ":")
      with ("idx"%string :: Split (Itoa n) ":"). by rewrite Hs. }
    read_fields "idx"%string n. rewrite Ha.
    eexists. split; [reflexivity|]. cbn.
    rewrite length_app. cbn. repeat split; lia.
Qed.

Lemma progress_numbers_round_trip_witness :
  exists m',
    tui.Update (fun _ => tui.SecretErr) (tui.InitModel true "")
               (tui.mkWorld false []) (tea.stringMsg ("idx:" +:+ Itoa 4))
      = Ret (m', tui.mkWorld false [], tea.Batch []) /\
    tui.pkgIdx m' = 4.
Proof.
  destruct (progress_numbers_round_trip (fun _ => tui.SecretErr)
              (tui.InitModel true "") (tui.mkWorld false []) 4)
    as (_ & _ & m' & Hupd & Hidx & _); [reflexivity|split; zcmp|].
  exists m'. split; [exact Hupd|exact Hidx].
Defined.

(** ** The metadata of a package *)

(** X18: [LoadPackageMetadata] either fails early, returning the empty
    package and an error without having validated anything, or ends with
    the aggregate-checksum validation, always in partial mode whatever the
    partial flag of the source; it then returns the verdict of that
    validation as its error, together with the package under the name
    given by the bundle, also when the verdict is an error. *)
Theorem metadata_is_validated_as_partial
        (e : sources.Env) (x : metadata.Env) (r : sources.RemoteBundle)
        (pkg : sources.ZarfPackage) (err : option sources.error)
        (told : list metadata.Event) :
  metadata.LoadPackageMetadata e x r = metadata.Returned pkg err told ->
  (forall checksum ip,
     metadata.ValidatePackageIntegrity checksum ip ∈ told -> ip = true) /\
  (existsb isMetaValidate told = false -> is_Some err /\ pkg = sources.emptyPackage) /\
  (existsb isMetaValidate told = true ->
     sources.MetadataName pkg = sources.PkgName r /\
     last told = Some (metadata.ValidatePackageIntegrity
                         (sources.AggregateChecksum pkg) true) /\
     exists layers,
       SetFromLayersBefore layers told /\
       err = sources.validatePackageIntegrity e layers
               (sources.AggregateChecksum pkg) true).
Proof.
  unfold metadata.LoadPackageMetadata.
  destruct (sources.FetchRoot e) as [rootLayers [e1|]];
    [|destruct (sources.Locate _ _) as [desc|];
      [destruct (sources.FetchManifest e desc) as [[pkgLayers|] [e2|]];
       [| |
        |discriminate]|]];
    try (intros [= <- <- <-]; split; [by intros ? ? ?%elem_of_nil|];
         split; [eauto|discriminate]).
  destruct (metadata.FetchLayer x _) as [pkgBytes [e3|]];
    [|destruct (metadata.Unmarshal x pkgBytes) as [pkg0 [e4|]];
      [|destruct (metadata.WriteYaml x) as [e5|];
        [|destruct (metadata.firstTitled (metadata.ChecksumsTxt x) pkgLayers)
            as [layer|];
          [destruct (metadata.FetchLayer x layer) as [checksumBytes [e6|]];
           [|destruct (metadata.WriteFile x) as [e7|]]|]]]];
    cbn [app]; intros [= <- <- <-];
    (split;
     [intros checksum ip Hin;
      repeat (apply elem_of_cons in Hin as [Hin|Hin]; [by inversion Hin|]);
      by apply elem_of_nil in Hin|]);
    (split; [first [discriminate|eauto]|]);
    first [discriminate|intros _].
  all: split; [reflexivity|]; split; [reflexivity|].
  all: eexists; split; [|reflexivity].
  - by exists [metadata.FetchedLayer
                 (default metadata.emptyDescriptor
                    (metadata.firstTitled (metadata.ZarfYAML x) pkgLayers));
               metadata.WroteYaml [metadata.Base x; metadata.ZarfYAML x] pkg0;
               metadata.FetchedLayer layer;
               metadata.WroteFile [metadata.Base x; metadata.ChecksumsTxt x]
                 checksumBytes], (sources.AggregateChecksum pkg0).
  - by exists [metadata.FetchedLayer
                 (default metadata.emptyDescriptor
                    (metadata.firstTitled (metadata.ZarfYAML x) pkgLayers));
               metadata.WroteYaml [metadata.Base x; metadata.ZarfYAML x] pkg0],
              (sources.AggregateChecksum pkg0).
Qed.

Lemma metadata_is_validated_as_partial_witness :
  sources.MetadataName (sources.mkPackage "podinfo" "abcd" []) = "podinfo"%string /\
  last [metadata.FetchedLayer layerA;
        metadata.WroteYaml ["/tmp/uds"; "zarf.yaml"]%string
          (sources.mkPackage "inner-name" "abcd" []);
        metadata.FetchedLayer layerC;
        metadata.WroteFile ["/tmp/uds"; "checksums.txt"]%string "cccc";
        metadata.SetFromLayers [manifestDesc; layerC];
        metadata.ValidatePackageIntegrity "abcd" true]
    = Some (metadata.ValidatePackageIntegrity "abcd" true).
Proof.
  destruct (metadata_is_validated_as_partial exampleEnv metadataEnv
              (sources.with_isPartial exampleBundle false)
              (sources.mkPackage "podinfo" "abcd" []) None
              [metadata.FetchedLayer layerA;
               metadata.WroteYaml ["/tmp/uds"; "zarf.yaml"]%string
                 (sources.mkPackage "inner-name" "abcd" []);
               metadata.FetchedLayer layerC;
               metadata.WroteFile ["/tmp/uds"; "checksums.txt"]%string "cccc";
               metadata.SetFromLayers [manifestDesc; layerC];
               metadata.ValidatePackageIntegrity "abcd" true])
    as (_ & _ & H); [reflexivity|].
  destruct H as (Hn & Hl & _); [reflexivity|]. split; [exact Hn|exact Hl].
Defined.

(** ** Colour codes *)

Lemma strip_plain (t rest : string) :
  yaml.ESC ∉ bytes t ->
  yaml.strip (t +:+ rest) None = t +:+ yaml.strip rest None.
Proof.
  induction t as [|c t IH]; [done|]. cbn [bytes].
  intros [Hc Ht]%not_elem_of_cons.
  change (String c t +:+ rest) with (String c (t +:+ rest)).
  change (String c t +:+ yaml.strip rest None)
    with (String c (t +:+ yaml.strip rest None)).
  change (yaml.strip (String c (t +:+ rest)) None)
    with (if Ascii.eqb c yaml.ESC then
            match t +:+ rest with
            | String b rest' =>
                if Ascii.eqb b "[" then yaml.strip rest' (Some (String yaml.ESC "["))
                else String c (yaml.strip (t +:+ rest) None)
            | EmptyString => String c EmptyString
            end
          else String c (yaml.strip (t +:+ rest) None)).
  destruct (Ascii.eqb_spec c yaml.ESC) as [->|_]; [done|]. f_equal. by apply IH.
Qed.

Lemma append_empty (run : string) : run +:+ "" = run.
Proof.
  induction run as [|a run IH]; [done|].
  change (String a run +:+ "") with (String a (run +:+ "")). by rewrite IH.
Qed.

Lemma append_shift (run s : string) (c : ascii) :
  (run +:+ String c "") +:+ s = run +:+ String c s.
Proof.
  induction run as [|a run IH]; [done|].
  change ((String a run +:+ String c "") +:+ s)
    with (String a ((run +:+ String c "") +:+ s)).
  by rewrite IH.
Qed.

(** Digits and signs neither end a run nor break a line. *)
Lemma strip_held_number (n : Z) (rest run : string) :
  yaml.strip (Itoa n +:+ rest) (Some run) = yaml.strip rest (Some (run +:+ Itoa n)).
Proof.
  assert (forall s acc v run, digits s acc = Some v ->
            yaml.strip (s +:+ rest) (Some run)
              = yaml.strip rest (Some (run +:+ s))) as Hdigits.
  { induction s as [|c s IH]; intros acc v run'.
    - intros _. by rewrite append_empty.
    - cbn [digits]. destruct (digit c) as [d|] eqn:Hd; [|discriminate].
      intros Hs. change (String c s +:+ rest) with (String c (s +:+ rest)).
      cbn [yaml.strip].
      assert (Ascii.eqb c "m" = false /\ Ascii.eqb c (ascii_of_nat 10) = false)
        as [-> ->].
      { clear -Hd. destruct c as [[] [] [] [] [] [] [] []]; try done;
          vm_compute in Hd; discriminate. }
      by rewrite (IH _ _ _ Hs), append_shift. }
  unfold Itoa. destruct n as [|p|p].
  - by apply (Hdigits "0"%string 0 0).
  - destruct (pretty_pos_digits p) as (_ & _ & _ & _ & Hd). by eapply Hdigits.
  - destruct (pretty_pos_digits p) as (_ & _ & _ & _ & Hd).
    change (pretty (Z.neg p)) with (String "-" (pretty (Z.pos p))).
    change (String "-" (pretty (Z.pos p)) +:+ rest)
      with (String "-" (pretty (Z.pos p) +:+ rest)).
    cbn [yaml.strip].
    change (Ascii.eqb "-" "m") with false.
    change (Ascii.eqb "-" (ascii_of_nat 10)) with false. cbn match.
    by rewrite (Hdigits _ _ _ _ Hd), append_shift.
Qed.

Lemma append_assoc (s1 s2 s3 : string) : (s1 +:+ s2) +:+ s3 = s1 +:+ (s2 +:+ s3).
Proof.
  induction s1 as [|a s1 IH]; [done|].
  change ((String a s1 +:+ s2) +:+ s3) with (String a ((s1 +:+ s2) +:+ s3)).
  by rewrite IH.
Qed.

Lemma strip_code (attr : Z) (rest : string) :
  yaml.strip (yaml.yamlFormat attr +:+ rest) None = yaml.strip rest None.
Proof.
  unfold yaml.yamlFormat.
  change (String yaml.ESC ("[" +:+ Itoa attr +:+ "m") +:+ rest)
    with (String yaml.ESC (String "[" ((Itoa attr +:+ "m") +:+ rest))).
  rewrite append_assoc.
  change (yaml.strip (String yaml.ESC (String "[" (Itoa attr +:+ "m" +:+ rest))) None)
    with (yaml.strip (Itoa attr +:+ "m" +:+ rest) (Some (String yaml.ESC "["))).
  by rewrite strip_held_number.
Qed.

(** X19: what the no-colour switch removes.  The expression that
    [colorPrintYAML] applies when [config.NoColor] is set removes every
    code made by [yamlFormat], whatever the attribute, and leaves text
    without an escape character as it is; a token printed between a colour
    code and the reset code comes out bare. *)
Theorem stripColor_removes_codes (attr reset : Z) (token rest : string) :
  yaml.ESC ∉ bytes token ->
  yaml.stripColor token = token /\
  yaml.stripColor (yaml.yamlFormat attr +:+ rest) = yaml.stripColor rest /\
  yaml.stripColor (yaml.yamlFormat attr +:+ token +:+ yaml.yamlFormat reset +:+ rest)
    = token +:+ yaml.stripColor rest.
Proof.
  intros Ht. unfold yaml.stripColor. split; [|split].
  - rewrite <- (append_empty token) at 1. rewrite strip_plain by done.
    apply append_empty.
  - apply strip_code.
  - by rewrite strip_code, strip_plain, strip_code.
Qed.

Lemma stripColor_removes_codes_witness :
  yaml.stripColor (yaml.yamlFormat 96 +:+ "kind" +:+ yaml.yamlFormat 0 +:+ ": UDSBundle")
    = "kind: UDSBundle"%string.
Proof.
  apply (proj2 (proj2 (stripColor_removes_codes 96 0 "kind" ": UDSBundle"
                         ltac:(vm_compute; intros H;
                               repeat (apply elem_of_cons in H as [H|H];
                                       [discriminate|]);
                               by apply elem_of_nil in H)))).
Defined.

(** ** The view *)

(** X20: the view is empty once the run is done and while it is not
    confirmed; otherwise rendering panics with an index out of range
    exactly when some bar has no spinner or no package name, that is when
    there are fewer spinners or fewer names than bars. *)
Theorem View_panics_without_name (R : view.Renderer) (m : tui.Model) :
  (tui.done m = true \/ tui.confirmed m = false -> view.View R m = Ret ""%string) /\
  (panics (view.View R m) = true <->
     tui.done m = false /\ tui.confirmed m = true /\
     ((length (tui.spinners m) < length (tui.progressBars m))%nat \/
      (length (tui.pkgNames m) < length (tui.progressBars m))%nat)).
Proof.
  unfold view.View, view.deployView.
  pose proof (deployLoop_panics R m (tui.progressBars m) 0 "") as Hloop.
  destruct (tui.done m); [split; [done|]; split; [done|by intros [? _]]|].
  destruct (tui.confirmed m);
    [|split; [done|]; split; [done|by intros (_ & ? & _)]].
  split; [by intros [?|?]|].
  assert (panics (view.deployLoop R m 0 (tui.progressBars m) ""
                    ≫= (fun v => Ret (Repeat "─" tui.WIDTH +:+ newline +:+ v)))
          = panics (view.deployLoop R m 0 (tui.progressBars m) "")) as ->
    by (by destruct (view.deployLoop R m 0 (tui.progressBars m) "")).
  etrans; [exact Hloop|]. cbn [Nat.add]. split.
  - intros [_ H]. by repeat split.
  - intros (_ & _ & H). split; [|done].
    intros Hnil. rewrite Hnil in H. cbn in H. lia.
Qed.

Lemma View_panics_without_name_witness :
  panics (view.View plainRenderer (tui.with_pkgNames podinfoModel [])) = true /\
  view.View plainRenderer podinfoModel =
    Ret (Repeat "─" tui.WIDTH +:+ newline +:+ newline
           +:+ "⣾  Package podinfo deploying ..." +:+ newline +:+ "[bar]").
Proof.
  split; [|reflexivity].
  apply (proj2 (View_panics_without_name plainRenderer
                  (tui.with_pkgNames podinfoModel []))).
  split; [reflexivity|]. split; [reflexivity|]. right. cbn. lia.
Defined.
